(** * mini-nginx: static file server and reverse proxy

    A shallow embedding of [nginx-clone/mini-nginx.py], of the handler of
    [backend/server.py] and of the parts of the CPython 3.11 standard
    library they call, followed by the properties of the request-routing,
    conditional-GET, compression, traversal and proxy logic.

    Conventions.
    - A Python [str] is a list of code points ([pystr]); a Python [bytes]
      is a [list byte].  What arrives off the wire (request target, header
      names and values, upstream status line and headers) was decoded as
      ISO-8859-1 by [http.server] / [http.client]; those fields are typed
      [string], whose characters are exactly the code points below 256.
    - Everything the handler cannot decide by itself (file system, MIME
      table, clock, date parser, gzip, the backend) is a field of [Env].
    - The handler is written in a state-and-exception monad over the
      [BaseHTTPRequestHandler] state: the header buffer, the bytes written
      to [wfile], and a log of the file-system calls made.
    - Logging to stdout ([log_message], [print]), the [close_connection]
      flag and the server loops ([run]) are not modelled; requests are
      HTTP/1.x (for HTTP/0.9 the library emits no status line or header at
      all), and a request is taken from the point where [parse_request] has
      accepted it. *)

From Stdlib Require Import Strings.String Strings.Ascii Strings.Byte.
From Stdlib Require Import ZArith NArith Bool Lia List.
Import ListNotations.

(** ** Python strings *)

Module PyStr.

Definition pystr := list N.

Definition ch (a : ascii) : N := N_of_ascii a.

(** A string literal, and the ISO-8859-1 decoding of wire text. *)
Definition lit (s : string) : pystr := map N_of_ascii (list_ascii_of_string s).

Arguments ch a%_char.
Arguments lit s%_string.

Fixpoint str_eqb (a b : pystr) : bool :=
  match a, b with
  | [], [] => true
  | x :: a', y :: b' => N.eqb x y && str_eqb a' b'
  | _, _ => false
  end.

Definition is_empty {A : Type} (s : list A) : bool :=
  match s with [] => true | _ => false end.

(** [s.startswith(p)] *)
Fixpoint startswith (s p : pystr) {struct p} : bool :=
  match p with
  | [] => true
  | c :: p' =>
      match s with
      | [] => false
      | d :: s' => N.eqb d c && startswith s' p'
      end
  end.

(** [s.endswith(p)] *)
Definition endswith (s p : pystr) : bool := startswith (rev s) (rev p).

(** [sub in s] *)
Fixpoint contains (sub s : pystr) : bool :=
  startswith s sub ||
  match s with
  | [] => false
  | _ :: s' => contains sub s'
  end.

(** [c in s] for a single character *)
Definition has_char (c : N) (s : pystr) : bool := existsb (N.eqb c) s.

(** [s.split(sep)] for a one-character separator. *)
Fixpoint split (sep : N) (s : pystr) : list pystr :=
  match s with
  | [] => [[]]
  | c :: s' =>
      if N.eqb c sep then [] :: split sep s'
      else match split sep s' with
           | [] => [[c]]
           | w :: ws => (c :: w) :: ws
           end
  end.

(** [sep.join(parts)] *)
Fixpoint join (sep : pystr) (parts : list pystr) : pystr :=
  match parts with
  | [] => []
  | [p] => p
  | p :: ps => p ++ sep ++ join sep ps
  end.

(** [s.split(sep, 1)] when [sep in s]: the text before and after the first
    occurrence. *)
Fixpoint split1 (sep : N) (s : pystr) : option (pystr * pystr) :=
  match s with
  | [] => None
  | c :: s' =>
      if N.eqb c sep then Some ([], s')
      else match split1 sep s' with
           | Some (a, b) => Some (c :: a, b)
           | None => None
           end
  end.

(** the text before the first [sep], the whole string when there is none *)
Definition before (sep : N) (s : pystr) : pystr :=
  match split1 sep s with Some (a, _) => a | None => s end.

(** [s.lstrip(chars)] *)
Fixpoint lstrip (strip : N -> bool) (s : pystr) : pystr :=
  match s with
  | [] => []
  | c :: s' => if strip c then lstrip strip s' else s
  end.

(** [s.replace(c, by)] for a one-character pattern *)
Definition replace (c : N) (by_ : pystr) (s : pystr) : pystr :=
  flat_map (fun d => if N.eqb d c then by_ else [d]) s.

Definition in_range (lo hi c : N) : bool := N.leb lo c && N.leb c hi.

(** [str.lower] on the code points below 256 (A-Z, and the Latin-1 capitals
    except the multiplication sign); header names never hold anything
    else. *)
Definition lower_char (c : N) : N :=
  if in_range 65 90 c then (c + 32)%N
  else if in_range 192 222 c && negb (N.eqb c 215) then (c + 32)%N
  else c.

Definition lower (s : pystr) : pystr := map lower_char s.

Definition is_ascii_alpha (c : N) : bool := in_range 65 90 c || in_range 97 122 c.
Definition is_digit (c : N) : bool := in_range 48 57 c.

(** [str(n)] for a non-negative integer *)
Fixpoint digits_fuel (fuel : nat) (n : N) (acc : pystr) : pystr :=
  match fuel with
  | O => acc
  | S f =>
      let acc' := (48 + n mod 10)%N :: acc in
      if N.ltb n 10 then acc' else digits_fuel f (n / 10)%N acc'
  end.

Definition str_of_N (n : N) : pystr := digits_fuel (S (N.to_nat (N.log2 n))) n [].

Definition str_of_Z (z : Z) : pystr :=
  if Z.ltb z 0 then ch "-" :: str_of_N (Z.to_N (- z)) else str_of_N (Z.to_N z).

(** [%02d] and [%04d] of a non-negative integer *)
Definition zero_pad (width : nat) (n : N) : pystr :=
  let d := str_of_N n in
  repeat (ch "0") (width - length d) ++ d.

End PyStr.
Import PyStr.

Definition bytes := list byte.

(** A raised exception: its class and [str(e)]. *)
Record exn := Exn { exn_class : string; exn_text : pystr }.

Inductive result (A : Type) : Type :=
| Ret (a : A)
| Raise (e : exn).

Arguments Ret {A} a.
Arguments Raise {A} e.

(** ** hashlib.sha1 *)

Module Sha1.

Local Open Scope N_scope.

Definition mask32 : N := 0xFFFFFFFF.
Definition add32 (a b : N) : N := N.land (a + b) mask32.
Definition rotl32 (n x : N) : N :=
  N.land (N.lor (N.shiftl x n) (N.shiftr x (32 - n))) mask32.

(** the message followed by 0x80, zeros up to 56 modulo 64, and the bit
    length as a 64-bit big-endian integer *)
Definition be_bytes (count : nat) (v : N) : list N :=
  map (fun i => N.land (N.shiftr v (8 * N.of_nat i)) 0xFF) (rev (seq 0 count)).

Definition pad (msg : list N) : list N :=
  let len := N.of_nat (length msg) in
  let zeros := N.to_nat ((119 - len mod 64) mod 64) in
  msg ++ [0x80] ++ repeat 0 zeros ++ be_bytes 8 (8 * len).

Fixpoint be_words (bs : list N) : list N :=
  match bs with
  | b0 :: b1 :: b2 :: b3 :: rest =>
      (N.shiftl b0 24 + N.shiftl b1 16 + N.shiftl b2 8 + b3) :: be_words rest
  | _ => []
  end.

(** the message schedule, newest word first *)
Fixpoint schedule (count : nat) (ws : list N) : list N :=
  match count with
  | O => ws
  | S k =>
      let w := rotl32 1 (N.lxor (N.lxor (nth 2 ws 0) (nth 7 ws 0))
                                (N.lxor (nth 13 ws 0) (nth 15 ws 0))) in
      schedule k (w :: ws)
  end.

Definition state := (N * N * N * N * N)%type.

Definition round (st : state) (iw : nat * N) : state :=
  let '(a, b, c, d, e) := st in
  let '(i, w) := iw in
  let '(f, k) :=
    if Nat.ltb i 20 then (N.lor (N.land b c) (N.ldiff d b), 0x5A827999)
    else if Nat.ltb i 40 then (N.lxor (N.lxor b c) d, 0x6ED9EBA1)
    else if Nat.ltb i 60 then
      (N.lor (N.lor (N.land b c) (N.land b d)) (N.land c d), 0x8F1BBCDC)
    else (N.lxor (N.lxor b c) d, 0xCA62C1D6) in
  let temp := add32 (add32 (add32 (add32 (rotl32 5 a) f) e) k) w in
  (temp, a, rotl32 30 b, c, d).

Definition compress (h : state) (block : list N) : state :=
  let ws := rev (schedule 64 (rev (be_words block))) in
  let '(a, b, c, d, e) := fold_left round (combine (seq 0 80) ws) h in
  let '(h0, h1, h2, h3, h4) := h in
  (add32 h0 a, add32 h1 b, add32 h2 c, add32 h3 d, add32 h4 e).

Fixpoint blocks (count : nat) (bs : list N) : list (list N) :=
  match count with
  | O => []
  | S k => firstn 64 bs :: blocks k (skipn 64 bs)
  end.

Definition init : state :=
  (0x67452301, 0xEFCDAB89, 0x98BADCFE, 0x10325476, 0xC3D2E1F0).

Definition digest_words (data : bytes) : list N :=
  let padded := pad (map Byte.to_N data) in
  let '(h0, h1, h2, h3, h4) :=
    fold_left compress (blocks (length padded / 64) padded) init in
  [h0; h1; h2; h3; h4].

Definition hex_digit (v : N) : N := if v <? 10 then 48 + v else 87 + v.

Definition hex_word (w : N) : pystr :=
  map (fun i => hex_digit (N.land (N.shiftr w (4 * N.of_nat i)) 0xF)) (rev (seq 0 8)).

(** [hashlib.sha1(data).hexdigest()] *)
Definition hexdigest (data : bytes) : pystr := flat_map hex_word (digest_words data).

End Sha1.

(** ** posixpath *)

Module PosixPath.

Definition sep : N := ch "/".
Definition dot : pystr := lit ".".
Definition dotdot : pystr := lit "..".

(** One iteration of the component loop of [normpath]. *)
Definition norm_step (initial_slashes : nat) (new_comps : list pystr) (comp : pystr)
  : list pystr :=
  if str_eqb comp [] || str_eqb comp dot then new_comps
  else if negb (str_eqb comp dotdot)
          || (Nat.eqb initial_slashes 0 && is_empty (A:=pystr) new_comps)
          || (negb (is_empty (A:=pystr) new_comps) && str_eqb (last new_comps []) dotdot)
       then new_comps ++ [comp]
       else removelast new_comps.

(** [os.path.normpath] *)
Definition normpath (path : pystr) : pystr :=
  if is_empty path then dot
  else
    let initial_slashes :=
      if startswith path [sep] then
        if startswith path [sep; sep] && negb (startswith path [sep; sep; sep])
        then 2%nat else 1%nat
      else 0%nat in
    let comps := fold_left (norm_step initial_slashes) (split sep path) [] in
    let path' := repeat sep initial_slashes ++ PyStr.join [sep] comps in
    if is_empty path' then dot else path'.

(** [os.path.join(a, b)] *)
Definition join (a b : pystr) : pystr :=
  if startswith b [sep] then b
  else if is_empty a || endswith a [sep] then a ++ b
  else a ++ [sep] ++ b.

End PosixPath.

(** ** urllib.parse *)

Module UrlParse.

Local Open Scope N_scope.

Definition hexval (c : N) : option N :=
  if in_range 48 57 c then Some (c - 48)
  else if in_range 97 102 c then Some (c - 87)
  else if in_range 65 70 c then Some (c - 55)
  else None.

(** [unquote_to_bytes] on ASCII text: every [%xx] with two hexadecimal
    digits becomes that byte, any other [%] stays. *)
Fixpoint unquote_to_bytes (s : pystr) : list N :=
  match s with
  | [] => []
  | c :: rest =>
      if c =? ch "%" then
        match rest with
        | h1 :: h2 :: rest' =>
            match hexval h1, hexval h2 with
            | Some a, Some b => (16 * a + b) :: unquote_to_bytes rest'
            | _, _ => c :: unquote_to_bytes rest
            end
        | _ => c :: unquote_to_bytes rest
        end
      else c :: unquote_to_bytes rest
  end.

Definition replacement : N := 0xFFFD.
Definition is_cont (b : N) : bool := in_range 0x80 0xBF b.
Definition low6 (b : N) : N := N.land b 0x3F.

(** the range of the second byte after a three- or four-byte lead *)
Definition second_ok (b0 b1 : N) : bool :=
  if b0 =? 0xE0 then in_range 0xA0 0xBF b1
  else if b0 =? 0xED then in_range 0x80 0x9F b1
  else if b0 =? 0xF0 then in_range 0x90 0xBF b1
  else if b0 =? 0xF4 then in_range 0x80 0x8F b1
  else is_cont b1.

(** [bytes.decode('utf-8', 'replace')]: every maximal ill-formed prefix
    becomes one U+FFFD. *)
Fixpoint utf8_decode (bs : list N) : pystr :=
  match bs with
  | [] => []
  | b0 :: r0 =>
      if b0 <? 0x80 then b0 :: utf8_decode r0
      else if in_range 0xC2 0xDF b0 then
        match r0 with
        | [] => [replacement]
        | b1 :: r1 =>
            if is_cont b1
            then (N.shiftl (N.land b0 0x1F) 6 + low6 b1) :: utf8_decode r1
            else replacement :: utf8_decode r0
        end
      else if in_range 0xE0 0xEF b0 then
        match r0 with
        | [] => [replacement]
        | b1 :: r1 =>
            if second_ok b0 b1 then
              match r1 with
              | [] => [replacement]
              | b2 :: r2 =>
                  if is_cont b2
                  then (N.shiftl (N.land b0 0x0F) 12 + N.shiftl (low6 b1) 6 + low6 b2)
                         :: utf8_decode r2
                  else replacement :: utf8_decode r1
              end
            else replacement :: utf8_decode r0
        end
      else if in_range 0xF0 0xF4 b0 then
        match r0 with
        | [] => [replacement]
        | b1 :: r1 =>
            if second_ok b0 b1 then
              match r1 with
              | [] => [replacement]
              | b2 :: r2 =>
                  if is_cont b2 then
                    match r2 with
                    | [] => [replacement]
                    | b3 :: r3 =>
                        if is_cont b3
                        then (N.shiftl (N.land b0 0x07) 18 + N.shiftl (low6 b1) 12
                              + N.shiftl (low6 b2) 6 + low6 b3) :: utf8_decode r3
                        else replacement :: utf8_decode r2
                    end
                  else replacement :: utf8_decode r1
              end
            else replacement :: utf8_decode r0
        end
      else replacement :: utf8_decode r0
  end.

(** The loop of [unquote] over the pieces of [_asciire.split]: [run] is the
    ASCII run being collected, newest character first. *)
Fixpoint unquote_runs (s run : pystr) : pystr :=
  match s with
  | [] => utf8_decode (unquote_to_bytes (rev run))
  | c :: s' =>
      if c <? 0x80 then unquote_runs s' (c :: run)
      else utf8_decode (unquote_to_bytes (rev run)) ++ c :: unquote_runs s' []
  end.

(** [urllib.parse.unquote(string)] *)
Definition unquote (s : pystr) : pystr :=
  if negb (has_char (ch "%") s) then s else unquote_runs s [].

Definition scheme_char (c : N) : bool :=
  is_ascii_alpha c || is_digit c || (c =? ch "+") || (c =? ch "-") || (c =? ch ".").

Definition uses_params : list pystr :=
  [] :: map lit ["ftp"; "hdl"; "prospero"; "http"; "imap"; "https"; "shttp"; "rtsp";
           "rtspu"; "sip"; "sips"; "mms"; "sftp"; "tel"]%string.

(** the scheme and the rest, when the text before the first colon is a
    scheme *)
Definition split_scheme (url : pystr) : pystr * pystr :=
  match split1 (ch ":") url with
  | Some (c :: pre, post) =>
      if is_ascii_alpha c && forallb scheme_char (c :: pre)
      then (lower (c :: pre), post)
      else ([], url)
  | _ => ([], url)
  end.

Definition netloc_delim (c : N) : bool :=
  (c =? ch "/") || (c =? ch "?") || (c =? ch "#").

(** [_splitnetloc(url, 2)] *)
Fixpoint splitnetloc (s : pystr) : pystr * pystr :=
  match s with
  | [] => ([], [])
  | c :: s' =>
      if netloc_delim c then ([], s)
      else let '(n, rest) := splitnetloc s' in (c :: n, rest)
  end.

(** [_splitparams(url)[0]]: the text before the first semicolon of the last
    path segment *)
Fixpoint splitparams (seg url : pystr) : pystr :=
  match url with
  | [] => before (ch ";") (rev seg)
  | c :: url' =>
      if c =? ch "/" then rev seg ++ c :: splitparams [] url'
      else splitparams (c :: seg) url'
  end.

Definition invalid_ipv6 : exn := Exn "ValueError" (lit "Invalid IPv6 URL").

(** [urlparse(url).path].  [check_bracketed] stands for
    [_check_bracketed_netloc], which validates a bracketed host as an IP
    literal; [_checknetloc] accepts every ISO-8859-1 authority. *)
Definition urlparse_path (check_bracketed : pystr -> option exn) (url : pystr)
  : result pystr :=
  let url := lstrip (fun c => c <=? 0x20) url in
  let url := filter (fun c => negb ((c =? 9) || (c =? 13) || (c =? 10))) url in
  let '(scheme, url) := split_scheme url in
  let netloc_url :=
    if startswith url (lit "//") then
      let '(netloc, rest) := splitnetloc (skipn 2 url) in
      let open := has_char (ch "[") netloc in
      let close := has_char (ch "]") netloc in
      if xorb open close then Raise invalid_ipv6
      else if open && close then
        match check_bracketed netloc with
        | Some e => Raise e
        | None => Ret rest
        end
      else Ret rest
    else Ret url in
  match netloc_url with
  | Raise e => Raise e
  | Ret url =>
      let url := before (ch "#") url in
      let url := before (ch "?") url in
      if existsb (str_eqb scheme) uses_params && has_char (ch ";") url
      then Ret (splitparams [] url)
      else Ret url
  end.

End UrlParse.

(** ** Built-in conversions and codecs *)

Module Builtins.

Local Open Scope N_scope.

Definition byte_of_N (n : N) : byte :=
  match Byte.of_N n with Some b => b | None => "000"%byte end.

(** a [bytes] literal *)
Definition blit (s : string) : bytes := list_byte_of_string s.
Arguments blit s%_string.

(** lower-case hexadecimal, [width] digits *)
Definition hex_pad (width : nat) (v : N) : pystr :=
  map (fun i => Sha1.hex_digit (N.land (N.shiftr v (4 * N.of_nat i)) 0xF))
      (rev (seq 0 width)).

(** [str.encode('utf-8', 'replace')]: a lone surrogate becomes [?]. *)
Definition utf8_encode_char (c : N) : list N :=
  if c <? 0x80 then [c]
  else if c <? 0x800 then [0xC0 + N.shiftr c 6; 0x80 + N.land c 0x3F]
  else if in_range 0xD800 0xDFFF c then [ch "?"]
  else if c <? 0x10000 then
    [0xE0 + N.shiftr c 12; 0x80 + N.land (N.shiftr c 6) 0x3F; 0x80 + N.land c 0x3F]
  else
    [0xF0 + N.shiftr c 18; 0x80 + N.land (N.shiftr c 12) 0x3F;
     0x80 + N.land (N.shiftr c 6) 0x3F; 0x80 + N.land c 0x3F].

Definition utf8_encode (s : pystr) : bytes :=
  map byte_of_N (flat_map utf8_encode_char s).

Definition latin1_char (c : N) : bool := c <? 256.

(** The text of the [UnicodeEncodeError] of [line.encode('latin-1',
    'strict')]: the first run of characters above 255, at index [pos]. *)
Fixpoint latin1_error (pos : N) (line : pystr) : option exn :=
  match line with
  | [] => None
  | c :: rest =>
      if latin1_char c then latin1_error (pos + 1) rest
      else
        let run := N.of_nat (length (lstrip (fun d => negb (latin1_char d)) rest)) in
        let run := N.of_nat (length rest) - run in
        let where_ :=
          if run =? 0 then
            lit "character '" ++
            (if c <? 0x10000 then lit "\u" ++ hex_pad 4 c else lit "\U" ++ hex_pad 8 c) ++
            lit "' in position " ++ str_of_N pos
          else lit "characters in position " ++ str_of_N pos ++ lit "-"
               ++ str_of_N (pos + run) in
        Some (Exn "UnicodeEncodeError"
                  (lit "'latin-1' codec can't encode " ++ where_
                   ++ lit ": ordinal not in range(256)"))
  end.

(** [html.escape(s, quote=False)] *)
Definition html_escape (s : pystr) : pystr :=
  replace (ch ">") (lit "&gt;")
    (replace (ch "<") (lit "&lt;") (replace (ch "&") (lit "&amp;") s)).

Definition printable (c : N) : bool :=
  negb ((c <? 0x20) || in_range 0x7F 0xA0 c || (c =? 0xAD)).

(** [repr(s)] of a string of code points below 256 *)
Definition repr (s : pystr) : pystr :=
  let quote :=
    if has_char (ch "'") s && negb (has_char 34 s) then 34 else ch "'" in
  let esc (c : N) : pystr :=
    if (c =? quote) || (c =? ch "\") then [ch "\"; c]
    else if c =? 9 then lit "\t"
    else if c =? 10 then lit "\n"
    else if c =? 13 then lit "\r"
    else if printable c then [c]
    else lit "\x" ++ hex_pad 2 c in
  [quote] ++ flat_map esc s ++ [quote].

(** the white space [int] skips *)
Definition int_space (c : N) : bool :=
  in_range 9 13 c || (c =? 32) || (c =? 0x85) || (c =? 0xA0).

(** The digit scan of [int]: the value and number of the digits read, and
    the unread text; [None] on a doubled or trailing underscore. *)
Fixpoint scan_digits (s : pystr) (prev_underscore : bool) (value digits : N)
  : option (N * N * pystr) :=
  match s with
  | c :: rest =>
      if is_digit c then scan_digits rest false (10 * value + (c - 48)) (digits + 1)
      else if c =? ch "_" then
        if prev_underscore then None else scan_digits rest true value digits
      else if prev_underscore then None else Some (value, digits, s)
  | [] => if prev_underscore then None else Some (value, digits, s)
  end.

(** [int(s)] for header text *)
Definition int (s : pystr) : result Z :=
  let invalid :=
    Raise (Exn "ValueError"
                (lit "invalid literal for int() with base 10: " ++ firstn 200 (repr s))) in
  let t := lstrip int_space s in
  let '(negative, t) :=
    match t with
    | c :: t' => if c =? ch "-" then (true, t')
                 else if c =? ch "+" then (false, t') else (false, t)
    | [] => (false, t)
    end in
  if startswith t (lit "_") then invalid
  else
    match scan_digits t false 0 0 with
    | None => invalid
    | Some (value, digits, rest) =>
        if 4300 <? digits then
          Raise (Exn "ValueError"
                     (lit "Exceeds the limit (4300 digits) for integer string "
                      ++ lit "conversion: value has "
                      ++ str_of_N digits
                      ++ lit " digits; use sys.set_int_max_str_digits() to increase the limit"))
        else if (digits =? 0) || negb (is_empty (lstrip int_space rest)) then invalid
        else Ret (if negative then (- Z.of_N value)%Z else Z.of_N value)
    end.

End Builtins.
Import Builtins.

(** ** datetime and email.utils *)

Module DateTime.

Local Open Scope Z_scope.

(** An instant in microseconds since the epoch; a naive value holds its
    wall-clock reading as if it were UTC. *)
Inductive datetime :=
| Naive (t : Z)
| Aware (t : Z).

Definition instant (dt : datetime) : Z :=
  match dt with Naive t => t | Aware t => t end.

(** year, month, day of a day number counted from 1970-01-01 *)
Definition civil_from_days (days : Z) : Z * Z * Z :=
  let z := days + 719468 in
  let era := z / 146097 in
  let doe := z - era * 146097 in
  let yoe := (doe - doe / 1460 + doe / 36524 - doe / 146096) / 365 in
  let doy := doe - (365 * yoe + yoe / 4 - yoe / 100) in
  let mp := (5 * doy + 2) / 153 in
  let d := doy - (153 * mp + 2) / 5 + 1 in
  let m := if mp <? 10 then mp + 3 else mp - 9 in
  let y := yoe + era * 400 + (if m <=? 2 then 1 else 0) in
  (y, m, d).

Definition min_instant : Z := -62135596800 * 1000000.
Definition max_instant : Z := 253402300800 * 1000000 - 1.

(** The seconds [gmtime] converts on glibc: those whose year, counted from
    1900, fits a C [int]. *)
Definition gmtime_min : Z := -67768040609740800.
Definition gmtime_max : Z := 67768036191676799.

(** [datetime.fromtimestamp(t, tz=timezone.utc)] of a float, [t] in
    microseconds, on 64-bit Linux.  Instants outside years 1 to 9999 are
    refused: with OverflowError when the seconds leave the range of [time_t]
    (tested on the double, which admits [2 ^ 63] itself), with OSError when
    [gmtime] fails, and otherwise with the ValueError of the year, which
    [tm_year + 1900] wraps around by [2 ^ 32] above [2 ^ 31 - 1]. *)
Definition fromtimestamp (t : Z) : result datetime :=
  if (min_instant <=? t) && (t <=? max_instant) then Ret (Aware t)
  else
    let secs := t / 1000000 in
    if (secs <? -9223372036854775808) || (9223372036854775808 <? secs) then
      Raise (Exn "OverflowError" (lit "timestamp out of range for platform time_t"))
    else if (secs <? gmtime_min) || (gmtime_max <? secs) then
      Raise (Exn "OSError" (lit "[Errno 75] Value too large for defined data type"))
    else
      let '(y, _, _) := civil_from_days (secs / 86400) in
      let y := if 2147483647 <? y then y - 4294967296 else y in
      Raise (Exn "ValueError" (lit "year " ++ str_of_Z y ++ lit " is out of range")).

Definition day_names : list pystr :=
  map lit ["Mon"; "Tue"; "Wed"; "Thu"; "Fri"; "Sat"; "Sun"]%string.

Definition month_names : list pystr :=
  map lit ["Jan"; "Feb"; "Mar"; "Apr"; "May"; "Jun";
           "Jul"; "Aug"; "Sep"; "Oct"; "Nov"; "Dec"]%string.

(** [email.utils.format_datetime(dt, usegmt=True)] of a UTC instant *)
Definition format_datetime (dt : datetime) : pystr :=
  let secs := instant dt / 1000000 in
  let days := secs / 86400 in
  let sod := secs mod 86400 in
  let '(y, m, d) := civil_from_days days in
  nth (Z.to_nat ((days + 3) mod 7)) day_names [] ++ lit ", "
  ++ zero_pad 2 (Z.to_N d) ++ lit " "
  ++ nth (Z.to_nat (m - 1)) month_names [] ++ lit " "
  ++ zero_pad 4 (Z.to_N y) ++ lit " "
  ++ zero_pad 2 (Z.to_N (sod / 3600)) ++ lit ":"
  ++ zero_pad 2 (Z.to_N (sod / 60 mod 60)) ++ lit ":"
  ++ zero_pad 2 (Z.to_N (sod mod 60)) ++ lit " GMT".

End DateTime.
Import DateTime.

(** ** http.server.BaseHTTPRequestHandler *)

Module HttpServer.

(** A line of the response head. *)
Inductive hline :=
| StatusLine (code : Z) (message : pystr)
| HeaderLine (keyword value : pystr)
| BlankLine.

(** What is written to [wfile], in order. *)
Inductive wire :=
| Head (l : hline)
| Body (b : bytes).

Inductive fs_call :=
| Isdir (p : pystr)
| Exists (p : pystr)
| OpenRead (p : pystr)
| Stat (p : pystr).

(** The arguments of [conn.request(method, url, body, headers)]; [headers]
    is a dict, in insertion order. *)
Record outbound := {
  out_method : pystr;
  out_url : pystr;
  out_body : option bytes;
  out_headers : list (pystr * pystr)
}.

(** What the backend connection does with a request: it fails before a
    response head arrives, or it yields a status line, headers and the
    successive results of [resp.read(8192)], after which the stream ends or
    fails. *)
Inductive upstream :=
| Unreachable (e : exn)
| Response (status : Z) (reason : string) (headers : list (string * string))
           (reads : list bytes) (failure : option exn).

Record hstate := {
  headers_buffer : list hline;
  wfile : list wire;
  rfile : bytes;
  fs_log : list fs_call;
  sent : list outbound
}.

Definition M (A : Type) : Type := hstate -> result A * hstate.

Definition ret {A} (a : A) : M A := fun st => (Ret a, st).
Definition raise {A} (e : exn) : M A := fun st => (Raise e, st).

Definition bind {A B} (m : M A) (k : A -> M B) : M B :=
  fun st =>
    match m st with
    | (Ret a, st') => k a st'
    | (Raise e, st') => (Raise e, st')
    end.

(** [try: m  except Exception as e: handler e] *)
Definition try_except {A} (m : M A) (handler : exn -> M A) : M A :=
  fun st =>
    match m st with
    | (Ret a, st') => (Ret a, st')
    | (Raise e, st') => handler e st'
    end.

Definition lift {A} (r : result A) : M A := fun st => (r, st).

Declare Scope py_scope.
Delimit Scope py_scope with py.
Notation "x <- c1 ;; c2" := (bind c1 (fun x => c2))
  (at level 61, c1 at next level, right associativity) : py_scope.
Notation "c1 ;; c2" := (bind c1 (fun _ => c2))
  (at level 61, right associativity) : py_scope.
Local Open Scope py_scope.

Definition buffer_append (l : hline) : M unit :=
  fun st => (Ret tt, {| headers_buffer := headers_buffer st ++ [l];
                        wfile := wfile st; rfile := rfile st;
                        fs_log := fs_log st; sent := sent st |}).

Definition flush_headers : M unit :=
  fun st => (Ret tt, {| headers_buffer := [];
                        wfile := wfile st ++ map Head (headers_buffer st);
                        rfile := rfile st; fs_log := fs_log st; sent := sent st |}).

(** [self.wfile.write(b)] *)
Definition wfile_write (b : bytes) : M unit :=
  fun st => (Ret tt, {| headers_buffer := headers_buffer st;
                        wfile := wfile st ++ [Body b]; rfile := rfile st;
                        fs_log := fs_log st; sent := sent st |}).

Definition log_fs (c : fs_call) : M unit :=
  fun st => (Ret tt, {| headers_buffer := headers_buffer st; wfile := wfile st;
                        rfile := rfile st; fs_log := fs_log st ++ [c];
                        sent := sent st |}).

Definition log_sent (o : outbound) : M unit :=
  fun st => (Ret tt, {| headers_buffer := headers_buffer st; wfile := wfile st;
                        rfile := rfile st; fs_log := fs_log st;
                        sent := sent st ++ [o] |}).

(** The bounds of [Py_ssize_t] on a 64-bit build, [- 2 ^ 63] and
    [2 ^ 63 - 1], and the longest bytes object, whose header takes 33 bytes. *)
Definition ssize_min : Z := (-9223372036854775808)%Z.
Definition ssize_max : Z := 9223372036854775807%Z.
Definition bytes_max : Z := 9223372036854775774%Z.

(** The exception with which [BufferedReader.read(n)] refuses a length: [n]
    does not fit [Py_ssize_t]; [n] is below -1; a bytes object of [n] bytes
    would, with its header, exceed [Py_ssize_t]; or no memory is found for
    it ([allocates n] is false). *)
Definition read_refusal (allocates : Z -> bool) (n : Z) : option exn :=
  if (n <? ssize_min)%Z || (ssize_max <? n)%Z then
    Some (Exn "OverflowError" (lit "cannot fit 'int' into an index-sized integer"))
  else if (n =? -1)%Z then None
  else if (n <? 0)%Z then
    Some (Exn "ValueError" (lit "read length must be non-negative or -1"))
  else if (bytes_max <? n)%Z then
    Some (Exn "OverflowError" (lit "byte string is too large"))
  else if (0 <? n)%Z && negb (allocates n) then Some (Exn "MemoryError" [])
  else None.

(** [self.rfile.read(n)] on the buffered request stream: everything that is
    left for -1, the next [n] bytes or what is left of them otherwise *)
Definition rfile_read (allocates : Z -> bool) (n : Z) : M bytes :=
  fun st =>
    match read_refusal allocates n with
    | Some e => (Raise e, st)
    | None =>
        if (n =? -1)%Z then
          (Ret (rfile st),
           {| headers_buffer := headers_buffer st; wfile := wfile st; rfile := [];
              fs_log := fs_log st; sent := sent st |})
        else
          (Ret (firstn (Z.to_nat n) (rfile st)),
           {| headers_buffer := headers_buffer st; wfile := wfile st;
              rfile := skipn (Z.to_nat n) (rfile st);
              fs_log := fs_log st; sent := sent st |})
    end.

Definition crlf : pystr := [13%N; 10%N].
Definition dquote : pystr := [34%N].

(** [line.encode('latin-1', 'strict')] before the line enters the buffer *)
Definition encode_line (text : pystr) (l : hline) : M unit :=
  match latin1_error 0 text with
  | Some e => raise e
  | None => buffer_append l
  end.

(** The rows of [BaseHTTPRequestHandler.responses] the handler reaches:
    short and long message. *)
Definition responses (code : Z) : option (pystr * pystr) :=
  match code with
  | 200 => Some (lit "OK", lit "Request fulfilled, document follows")
  | 304 => Some (lit "Not Modified", lit "Document has not changed since given time")
  | 403 => Some (lit "Forbidden", lit "Request forbidden -- authorization will not help")
  | 404 => Some (lit "Not Found", lit "Nothing matches the given URI")
  | 500 => Some (lit "Internal Server Error", lit "Server got itself in trouble")
  | 501 => Some (lit "Not Implemented", lit "Server does not support this operation")
  | 502 => Some (lit "Bad Gateway", lit "Invalid responses from another server/proxy")
  | _ => None
  end%Z.

Definition protocol_version : pystr := lit "HTTP/1.0".

Definition send_response_only (code : Z) (message : option pystr) : M unit :=
  let message :=
    match message with
    | Some m => m
    | None => match responses code with Some (short, _) => short | None => [] end
    end in
  encode_line (protocol_version ++ lit " " ++ str_of_Z code ++ lit " " ++ message ++ crlf)
              (StatusLine code message).

Definition send_header (keyword value : pystr) : M unit :=
  encode_line (keyword ++ lit ": " ++ value ++ crlf) (HeaderLine keyword value).

Definition end_headers : M unit :=
  buffer_append BlankLine ;; flush_headers.

Section Handler.

(** [server_version + ' ' + sys_version] and [date_time_string()] *)
Variable version_string : string.
Variable date_time_string : string.

(** [self.command] *)
Variable command : pystr.

Definition send_response (code : Z) (message : option pystr) : M unit :=
  send_response_only code message ;;
  send_header (lit "Server") (lit version_string) ;;
  send_header (lit "Date") (lit date_time_string).

Definition error_message_format (code : Z) (message explain : pystr) : pystr :=
  lit "<!DOCTYPE HTML>" ++ [10%N] ++
  lit "<html lang=" ++ dquote ++ lit "en" ++ dquote ++ lit ">" ++ [10%N] ++
  lit "    <head>" ++ [10%N] ++
  lit "        <meta charset=" ++ dquote ++ lit "utf-8" ++ dquote ++ lit ">" ++ [10%N] ++
  lit "        <title>Error response</title>" ++ [10%N] ++
  lit "    </head>" ++ [10%N] ++
  lit "    <body>" ++ [10%N] ++
  lit "        <h1>Error response</h1>" ++ [10%N] ++
  lit "        <p>Error code: " ++ str_of_Z code ++ lit "</p>" ++ [10%N] ++
  lit "        <p>Message: " ++ message ++ lit ".</p>" ++ [10%N] ++
  lit "        <p>Error code explanation: " ++ str_of_Z code ++ lit " - " ++ explain
    ++ lit ".</p>" ++ [10%N] ++
  lit "    </body>" ++ [10%N] ++
  lit "</html>" ++ [10%N].

(** [self.send_error(code, message)] *)
Definition send_error (code : Z) (message : pystr) : M unit :=
  let explain :=
    match responses code with Some (_, long) => long | None => lit "???" end in
  send_response code (Some message) ;;
  send_header (lit "Connection") (lit "close") ;;
  body <-
    (if Z.leb 200 code && negb (Z.eqb code 204 || Z.eqb code 205 || Z.eqb code 304) then
       let body :=
         utf8_encode (error_message_format code (html_escape message)
                                           (html_escape explain)) in
       send_header (lit "Content-Type") (lit "text/html;charset=utf-8") ;;
       send_header (lit "Content-Length") (str_of_N (N.of_nat (length body))) ;;
       ret (Some body)
     else ret None) ;;
  end_headers ;;
  match body with
  | Some b => if negb (str_eqb command (lit "HEAD")) && negb (is_empty b)
              then wfile_write b else ret tt
  | None => ret tt
  end.

End Handler.

End HttpServer.
Import HttpServer.

(** ** The server: nginx-clone/mini-nginx.py *)

(** The request as [parse_request] leaves it: [self.command], [self.path],
    [self.headers] in arrival order, and the bytes the client sends after
    the head. *)
Record request := {
  command : string;
  path : string;
  headers : list (string * string);
  content : bytes
}.

(** The module constants and everything outside the process. *)
Record Env := {
  PUBLIC_DIR : pystr;
  BACKEND_HOST : pystr;
  BACKEND_PORT : Z;
  (** [server_version + ' ' + sys_version], [date_time_string()] and
      [datetime.now(timezone.utc).isoformat()] *)
  version_string : string;
  date_time_string : string;
  utcnow_isoformat : string;
  (** the file system: [os.path.isdir], [os.path.exists], [open(p,
      'rb').read()], and [os.stat(p).st_mtime] in microseconds *)
  os_path_isdir : pystr -> bool;
  os_path_exists : pystr -> bool;
  open_read : pystr -> result bytes;
  os_stat_mtime : pystr -> result Z;
  (** [mimetypes.guess_type(p)[0]] *)
  guess_type : pystr -> option string;
  (** [email.utils.parsedate_to_datetime] *)
  parsedate_to_datetime : pystr -> result datetime;
  (** the bytes [gzip.GzipFile(fileobj=buf, mode='wb')] leaves in [buf]
      after the data is written and the file closed *)
  gzip_compress : bytes -> bytes;
  (** the interpreter finds the memory for a bytes object of [n] bytes *)
  can_allocate : Z -> bool;
  (** [urllib.parse._check_bracketed_netloc] *)
  check_bracketed_netloc : pystr -> option exn;
  (** [http.client.HTTPConnection(BACKEND_HOST, BACKEND_PORT, timeout=10)]
      refusing the configured host *)
  connection_error : option exn;
  (** [conn.request(...)] followed by [conn.getresponse()] *)
  backend : outbound -> upstream
}.

Definition is_compressible (mime : pystr) : bool :=
  startswith mime (lit "text/")
  || existsb (str_eqb mime) [lit "application/javascript"; lit "application/json"]
  || endswith mime (lit "+xml").

Definition generate_etag_bytes (data_bytes : bytes) : pystr :=
  Sha1.hexdigest data_bytes.

(** [self.headers.get(name)]: the first header of that name, compared
    without case *)
Definition headers_get (hs : list (string * string)) (name : pystr) : option pystr :=
  match find (fun kv => str_eqb (lower (lit (fst kv))) (lower name)) hs with
  | Some (_, v) => Some (lit v)
  | None => None
  end.

(** [d[k] = v] on a dict kept in insertion order *)
Fixpoint dict_set (d : list (pystr * pystr)) (k v : pystr) : list (pystr * pystr) :=
  match d with
  | [] => [(k, v)]
  | (k', v') :: d' =>
      if str_eqb k' k then (k', v) :: d' else (k', v') :: dict_set d' k v
  end.

Definition dict_get (d : list (pystr * pystr)) (k : pystr) : option pystr :=
  match find (fun kv => str_eqb (fst kv) k) d with
  | Some (_, v) => Some v
  | None => None
  end.

(** one step of the comprehension [{k: v for k, v in self.headers.items()
    if k.lower() != 'host'}] *)
Definition forward_step (d : list (pystr * pystr)) (kv : string * string)
  : list (pystr * pystr) :=
  if negb (str_eqb (lower (lit (fst kv))) (lit "host"))
  then dict_set d (lit (fst kv)) (lit (snd kv)) else d.

Local Open Scope py_scope.

Section MiniNginxHandler.

Variable E : Env.
Variable self : request.

Definition self_path : pystr := lit (path self).
Definition self_command : pystr := lit (command self).
Definition self_headers_get (name : pystr) : option pystr :=
  headers_get (headers self) name.

Definition send_response' := send_response (version_string E) (date_time_string E).
Definition send_error' := send_error (version_string E) (date_time_string E) self_command.

Definition read_file_bytes (path : pystr) : M bytes :=
  log_fs (OpenRead path) ;; lift (open_read E path).

Definition isdir (p : pystr) : M bool :=
  log_fs (Isdir p) ;; ret (os_path_isdir E p).

Definition exists_ (p : pystr) : M bool :=
  log_fs (Exists p) ;; ret (os_path_exists E p).

Definition stat_mtime (p : pystr) : M Z :=
  log_fs (Stat p) ;; lift (os_stat_mtime E p).

Definition _handle_status : M unit :=
  let body :=
    utf8_encode (lit "{" ++ dquote ++ lit "status" ++ dquote ++ lit ":" ++ dquote
                 ++ lit "ok" ++ dquote ++ lit "," ++ dquote ++ lit "time" ++ dquote
                 ++ lit ":" ++ dquote ++ lit (utcnow_isoformat E) ++ dquote ++ lit "}") in
  send_response' 200 None ;;
  send_header (lit "Content-Type") (lit "application/json") ;;
  send_header (lit "Content-Length") (str_of_N (N.of_nat (length body))) ;;
  end_headers ;;
  wfile_write body.

(** The loop [chunk = resp.read(8192); while chunk: ...] over the reads the
    backend delivers. *)
Fixpoint stream_response (reads : list bytes) (failure : option exn) : M unit :=
  match reads with
  | [] => match failure with Some e => raise e | None => ret tt end
  | chunk :: rest =>
      if is_empty chunk then ret tt
      else wfile_write chunk ;; stream_response rest failure
  end.

Definition hop_by_hop (key : pystr) : bool :=
  str_eqb (lower key) (lit "transfer-encoding") || str_eqb (lower key) (lit "connection").

(** The [for key, val in resp.getheaders()] loop. *)
Fixpoint relay_headers (hs : list (string * string)) : M unit :=
  match hs with
  | [] => ret tt
  | (key, val) :: rest =>
      (if hop_by_hop (lit key) then ret tt else send_header (lit key) (lit val)) ;;
      relay_headers rest
  end.

(** the dict of the request headers other than Host *)
Definition forwarded_headers : list (pystr * pystr) :=
  fold_left forward_step (headers self) [].

Definition _handle_proxy : M unit :=
  try_except
    (match connection_error E with Some e => raise e | None => ret tt end ;;
     let path := self_path in
     let headers := dict_set forwarded_headers (lit "Host") (BACKEND_HOST E) in
     body <-
       (match self_headers_get (lit "content-length") with
        | Some v => length <- lift (int v) ;;
                    b <- rfile_read (can_allocate E) length ;;
                    ret (Some b)
        | None => ret None
        end) ;;
     let req := {| out_method := self_command; out_url := path;
                   out_body := body; out_headers := headers |} in
     log_sent req ;;
     match backend E req with
     | Unreachable e => raise e
     | Response status reason resp_headers reads failure =>
         send_response' status (Some (lit reason)) ;;
         relay_headers resp_headers ;;
         send_header (lit "Vary") (lit "Accept-Encoding") ;;
         end_headers ;;
         stream_response reads failure
     end)
    (fun e => send_error' 502 (lit "Proxy error: " ++ exn_text e)).

Definition long_lived : list pystr :=
  map lit [".css"; ".js"; ".png"; ".jpg"; ".jpeg"; ".svg"; ".ico"]%string.

Definition _serve_static (full_path : pystr) (head_only : bool) : M unit :=
  data <- read_file_bytes full_path ;;
  st_mtime <- stat_mtime full_path ;;
  let mime :=
    match guess_type E full_path with
    | Some m => if is_empty (lit m) then lit "application/octet-stream" else lit m
    | None => lit "application/octet-stream"
    end in
  let cache_control :=
    if endswith full_path (lit ".html") then lit "no-cache"
    else if existsb (endswith full_path) long_lived then lit "public, max-age=2592000"
    else lit "public, max-age=3600" in
  let etag := generate_etag_bytes data in
  last_modified <- lift (fromtimestamp st_mtime) ;;
  send_response' 200 None ;;
  send_header (lit "Content-Type")
              (mime ++ (if startswith mime (lit "text/")
                           || str_eqb mime (lit "application/json")
                        then lit "; charset=utf-8" else [])) ;;
  send_header (lit "Cache-Control") cache_control ;;
  send_header (lit "ETag") etag ;;
  send_header (lit "Last-Modified") (format_datetime last_modified) ;;
  send_header (lit "Vary") (lit "Accept-Encoding") ;;
  let inm := self_headers_get (lit "If-None-Match") in
  let ims := self_headers_get (lit "If-Modified-Since") in
  if match inm with Some v => str_eqb v etag | None => false end then
    send_response' 304 None ;;
    end_headers
  else
    returned <-
      (match ims with
       | Some (c :: v) =>
           try_except
             (ims_dt <- lift (parsedate_to_datetime E (c :: v)) ;;
              let ims_dt :=
                match ims_dt with Naive t => Aware t | Aware t => Aware t end in
              if Z.geb (instant ims_dt) (instant last_modified) then
                send_response' 304 None ;;
                end_headers ;;
                ret true
              else ret false)
             (fun _ => ret false)
       | _ => ret false
       end) ;;
    if returned : bool then ret tt
    else
      let accept_enc :=
        match self_headers_get (lit "Accept-Encoding") with
        | Some v => v
        | None => []
        end in
      let should_gzip := contains (lit "gzip") accept_enc && is_compressible mime in
      body_bytes <-
        (if should_gzip then
           send_header (lit "Content-Encoding") (lit "gzip") ;;
           ret (gzip_compress E data)
         else ret data) ;;
      send_header (lit "Content-Length") (str_of_N (N.of_nat (length body_bytes))) ;;
      end_headers ;;
      if negb head_only then wfile_write body_bytes else ret tt.

Definition do_GET (head_only : bool) : M unit :=
  try_except
    (if str_eqb self_path (lit "/_status") then _handle_status
     else if startswith self_path (lit "/api") then _handle_proxy
     else
       parsed_path <- lift (UrlParse.urlparse_path (check_bracketed_netloc E) self_path) ;;
       let path := UrlParse.unquote (lstrip (N.eqb (ch "/")) parsed_path) in
       let path := if is_empty path then lit "index.html" else path in
       let normalized := PosixPath.normpath path in
       if startswith normalized (lit "..") then send_error' 403 (lit "Forbidden")
       else
         let full_path := PosixPath.join (PUBLIC_DIR E) normalized in
         is_dir <- isdir full_path ;;
         let full_path :=
           if is_dir : bool then PosixPath.join full_path (lit "index.html")
           else full_path in
         found <- exists_ full_path ;;
         if found : bool then _serve_static full_path head_only
         else
           let fallback := PosixPath.join (PUBLIC_DIR E) (lit "index.html") in
           fallback_found <- exists_ fallback ;;
           if fallback_found : bool then _serve_static fallback head_only
           else send_error' 404 (lit "Not Found"))
    (fun e => send_error' 500 (lit "Server error: " ++ exn_text e) ;; raise e).

Definition do_HEAD : M unit := do_GET true.

End MiniNginxHandler.

(** The state in which a handler starts on a request. *)
Definition start (self : request) : hstate :=
  {| headers_buffer := []; wfile := []; rfile := content self;
     fs_log := []; sent := [] |}.

(** [isinstance(e, TimeoutError)], by the name of the class *)
Definition is_timeout (e : exn) : bool := String.eqb (exn_class e) "TimeoutError".

(** [BaseHTTPRequestHandler.handle_one_request] from the point where
    [parse_request] has accepted the request.  [MiniNginxHandler] has the
    methods [do_GET] and [do_HEAD] and no other attribute named [do_...];
    [method()] calls [do_GET] with its default [head_only=False]. *)
Definition handle_one_request (E : Env) (self : request) : M unit :=
  try_except
    (if str_eqb (self_command self) (lit "GET") then do_GET E self false
     else if str_eqb (self_command self) (lit "HEAD") then do_HEAD E self
     else send_error' E self 501
            (lit "Unsupported method (" ++ repr (self_command self) ++ lit ")"))
    (fun e => if is_timeout e then ret tt else raise e).

(** ** The backend: backend/server.py *)

Module Backend.

(** The module constants and everything outside the process. *)
Record Env := {
  DATA_PATH : pystr;
  version_string : string;
  date_time_string : string;
  utcnow_isoformat : string;
  (** [open(p, 'rb').read()] *)
  open_read : pystr -> result bytes;
  (** [gzip.compress(body)] *)
  gzip_compress : bytes -> bytes
}.

Definition compute_etag_bytes (b : bytes) : pystr := Sha1.hexdigest b.

Section BackendHandler.

Variable E : Env.
Variable self : request.

Definition send_response' := send_response (version_string E) (date_time_string E).
Definition send_error' :=
  send_error (version_string E) (date_time_string E) (self_command self).

Definition read_data : M bytes :=
  log_fs (OpenRead (DATA_PATH E)) ;; lift (open_read E (DATA_PATH E)).

Definition do_GET : M unit :=
  if str_eqb (self_path self) (lit "/api/events") then
    raw <- read_data ;;
    let etag := compute_etag_bytes raw in
    send_response' 200 None ;;
    send_header (lit "Content-Type") (lit "application/json; charset=utf-8") ;;
    send_header (lit "ETag") etag ;;
    send_header (lit "Cache-Control") (lit "public, max-age=30") ;;
    send_header (lit "Vary") (lit "Accept-Encoding") ;;
    let inm := self_headers_get self (lit "If-None-Match") in
    if match inm with Some v => str_eqb v etag | None => false end then
      send_response' 304 None ;;
      end_headers
    else
      let accept :=
        match self_headers_get self (lit "Accept-Encoding") with
        | Some v => v
        | None => []
        end in
      let body := raw in
      if contains (lit "gzip") accept then
        let gz := gzip_compress E body in
        send_header (lit "Content-Encoding") (lit "gzip") ;;
        send_header (lit "Content-Length") (str_of_N (N.of_nat (length gz))) ;;
        end_headers ;;
        wfile_write gz
      else
        send_header (lit "Content-Length") (str_of_N (N.of_nat (length body))) ;;
        end_headers ;;
        wfile_write body
  else if str_eqb (self_path self) (lit "/_status") then
    let body :=
      utf8_encode (lit "{" ++ dquote ++ lit "status" ++ dquote ++ lit ":" ++ dquote
                   ++ lit "backend ok" ++ dquote ++ lit "," ++ dquote ++ lit "time"
                   ++ dquote ++ lit ":" ++ dquote ++ lit (utcnow_isoformat E) ++ dquote
                   ++ lit "}") in
    send_response' 200 None ;;
    send_header (lit "Content-Type") (lit "application/json") ;;
    send_header (lit "Content-Length") (str_of_N (N.of_nat (length body))) ;;
    end_headers ;;
    wfile_write body
  else send_error' 404 (lit "Not Found").

(** [handle_one_request] for [BackendHandler], whose only [do_...] method
    is [do_GET] *)
Definition handle_one_request : M unit :=
  try_except
    (if str_eqb (self_command self) (lit "GET") then do_GET
     else send_error' 501
            (lit "Unsupported method (" ++ repr (self_command self) ++ lit ")"))
    (fun e => if is_timeout e then ret tt else raise e).

End BackendHandler.

End Backend.

(** ** The response as a client reads it *)

Module Client.

Definition render (l : hline) : pystr :=
  match l with
  | StatusLine code message =>
      protocol_version ++ lit " " ++ str_of_Z code ++ lit " " ++ message ++ crlf
  | HeaderLine keyword value => keyword ++ lit ": " ++ value ++ crlf
  | BlankLine => crlf
  end.

(** the status code of the first line on the wire *)
Definition response_status (w : list wire) : option Z :=
  match w with
  | Head (StatusLine code _) :: _ => Some code
  | _ => None
  end.

(** the lines from the second one up to the first blank line *)
Fixpoint head_lines (w : list wire) : list hline :=
  match w with
  | Head BlankLine :: _ => []
  | Head l :: w' => l :: head_lines w'
  | _ => []
  end.

(** what follows the first blank line *)
Fixpoint after_head (w : list wire) : list wire :=
  match w with
  | Head BlankLine :: w' => w'
  | _ :: w' => after_head w'
  | [] => []
  end.

Definition header_fields (ls : list hline) : list (pystr * pystr) :=
  flat_map (fun l => match l with HeaderLine k v => [(k, v)] | _ => [] end) ls.

Definition response_headers (w : list wire) : list (pystr * pystr) :=
  header_fields (head_lines w).

(** every value sent under a header name, compared without case *)
Definition header_values (name : pystr) (hs : list (pystr * pystr)) : list pystr :=
  map snd (filter (fun kv => str_eqb (lower (fst kv)) (lower name)) hs).

Definition response_body (w : list wire) : bytes :=
  flat_map (fun x => match x with
                     | Head l => map byte_of_N (render l)
                     | Body b => b
                     end) (after_head w).

End Client.
Import Client.

(** ** What the specification talks about *)

(** the value of the Content-Type header for a MIME type *)
Definition content_type (mime : pystr) : pystr :=
  mime ++ (if startswith mime (lit "text/") || str_eqb mime (lit "application/json")
           then lit "; charset=utf-8" else []).

(** the MIME type a static file is served with *)
Definition served_mime (E : Env) (full_path : pystr) : pystr :=
  match guess_type E full_path with
  | Some m => if is_empty (lit m) then lit "application/octet-stream" else lit m
  | None => lit "application/octet-stream"
  end.

Definition cache_control (full_path : pystr) : pystr :=
  if endswith full_path (lit ".html") then lit "no-cache"
  else if existsb (endswith full_path) long_lived then lit "public, max-age=2592000"
  else lit "public, max-age=3600".

(** the two lines [send_response] adds after the status line *)
Definition server_date (E : Env) : list hline :=
  [HeaderLine (lit "Server") (lit (version_string E));
   HeaderLine (lit "Date") (lit (date_time_string E))].

(** the head every static response starts with *)
Definition static_head (E : Env) (full_path : pystr) (data : bytes) (mtime : Z)
  : list hline :=
  StatusLine 200 (lit "OK") :: server_date E ++
  [HeaderLine (lit "Content-Type") (content_type (served_mime E full_path));
   HeaderLine (lit "Cache-Control") (cache_control full_path);
   HeaderLine (lit "ETag") (generate_etag_bytes data);
   HeaderLine (lit "Last-Modified") (format_datetime (Aware mtime));
   HeaderLine (lit "Vary") (lit "Accept-Encoding")].

(** If-None-Match is present and equal to the entity tag. *)
Definition etag_matches (self : request) (etag : pystr) : bool :=
  match headers_get (headers self) (lit "If-None-Match") with
  | Some v => str_eqb v etag
  | None => false
  end.

(** the instant of a present, non-empty If-Modified-Since that parses *)
Definition modified_since (E : Env) (self : request) : option Z :=
  match headers_get (headers self) (lit "If-Modified-Since") with
  | Some (c :: v) =>
      match parsedate_to_datetime E (c :: v) with
      | Ret dt => Some (instant dt)
      | Raise _ => None
      end
  | _ => None
  end.

(** the file's last-modified time is not strictly after the date supplied *)
Definition not_modified_since (E : Env) (self : request) (mtime : Z) : bool :=
  match modified_since E self with
  | Some t => Z.leb mtime t
  | None => false
  end.

(** the handler takes one of its two not-modified exits *)
Definition revalidated (E : Env) (self : request) (data : bytes) (mtime : Z) : bool :=
  etag_matches self (generate_etag_bytes data) || not_modified_since E self mtime.

(** Accept-Encoding mentions gzip and the type is compressible *)
Definition should_gzip (E : Env) (self : request) (full_path : pystr) : bool :=
  contains (lit "gzip")
           (match headers_get (headers self) (lit "Accept-Encoding") with
            | Some v => v
            | None => []
            end)
  && is_compressible (served_mime E full_path).

(** the body of a full static response *)
Definition static_body (E : Env) (self : request) (full_path : pystr) (data : bytes)
  : bytes :=
  if should_gzip E self full_path then gzip_compress E data else data.

(** the lines between [static_head] and the blank line *)
Definition static_extra (E : Env) (self : request) (full_path : pystr)
           (data : bytes) (mtime : Z) : list hline :=
  if revalidated E self data mtime then
    StatusLine 304 (lit "Not Modified") :: server_date E
  else
    (if should_gzip E self full_path
     then [HeaderLine (lit "Content-Encoding") (lit "gzip")] else []) ++
    [HeaderLine (lit "Content-Length")
                (str_of_N (N.of_nat (length (static_body E self full_path data))))].

(** what a static response writes: [wfile] after [_serve_static] on an empty
    buffer *)
Definition static_wire (E : Env) (self : request) (full_path : pystr)
           (head_only : bool) (data : bytes) (mtime : Z) : list wire :=
  map Head (static_head E full_path data mtime
            ++ static_extra E self full_path data mtime ++ [BlankLine])
  ++ (if revalidated E self data mtime || head_only then []
      else [Body (static_body E self full_path data)]).

(** the request is neither the status endpoint nor proxied *)
Definition static_route (self : request) : bool :=
  negb (str_eqb (self_path self) (lit "/_status"))
  && negb (startswith (self_path self) (lit "/api")).

(** the request path, percent-decoded, without its leading separators *)
Definition decoded_path (E : Env) (self : request) : result pystr :=
  match UrlParse.urlparse_path (check_bracketed_netloc E) (self_path self) with
  | Ret p => Ret (UrlParse.unquote (lstrip (N.eqb (ch "/")) p))
  | Raise e => Raise e
  end.

(** the decoded path, [index.html] when it is empty, normalized *)
Definition normalized_path (decoded : pystr) : pystr :=
  PosixPath.normpath (if is_empty decoded then lit "index.html" else decoded).

(** the file looked up for a normalized path: the path joined to the
    document root, or the [index.html] inside it when that is a directory *)
Definition target (E : Env) (normalized : pystr) : pystr :=
  let full_path := PosixPath.join (PUBLIC_DIR E) normalized in
  if os_path_isdir E full_path then PosixPath.join full_path (lit "index.html")
  else full_path.

(** [index.html] at the document root *)
Definition fallback (E : Env) : pystr := PosixPath.join (PUBLIC_DIR E) (lit "index.html").

(** the file served for a normalized path, if any *)
Definition resolved_file (E : Env) (normalized : pystr) : option pystr :=
  if os_path_exists E (target E normalized) then Some (target E normalized)
  else if os_path_exists E (fallback E) then Some (fallback E)
  else None.

(** the file-system calls of the resolution *)
Definition lookups (E : Env) (normalized : pystr) : list fs_call :=
  [Isdir (PosixPath.join (PUBLIC_DIR E) normalized); Exists (target E normalized)]
  ++ (if os_path_exists E (target E normalized) then [] else [Exists (fallback E)]).

(** the request is routed to static serving and resolves to [file] *)
Definition serves (E : Env) (self : request) (file : pystr) : Prop :=
  static_route self = true /\
  exists decoded,
    decoded_path E self = Ret decoded /\
    startswith (normalized_path decoded) (lit "..") = false /\
    resolved_file E (normalized_path decoded) = Some file.

(** the page [send_error] writes for a status code and message *)
Definition error_body (code : Z) (message : pystr) : bytes :=
  utf8_encode
    (error_message_format code (html_escape message)
       (html_escape (match responses code with
                     | Some (_, long) => long
                     | None => lit "???"
                     end))).

(** what [send_error] writes on an empty buffer *)
Definition error_wire (E : Env) (self : request) (code : Z) (message : pystr)
  : list wire :=
  map Head (StatusLine code message :: server_date E ++
            [HeaderLine (lit "Connection") (lit "close");
             HeaderLine (lit "Content-Type") (lit "text/html;charset=utf-8");
             HeaderLine (lit "Content-Length")
                        (str_of_N (N.of_nat (length (error_body code message))));
             BlankLine])
  ++ (if str_eqb (self_command self) (lit "HEAD") then []
      else [Body (error_body code message)]).

(** the [except Exception as e] clause of [do_GET] *)
Definition internal_error (E : Env) (self : request) (e : exn) : M unit :=
  bind (send_error' E self 500 (lit "Server error: " ++ exn_text e)) (fun _ => raise e).

(** the [except Exception as e] clause of [_handle_proxy] *)
Definition bad_gateway (E : Env) (self : request) (e : exn) : M unit :=
  send_error' E self 502 (lit "Proxy error: " ++ exn_text e).

(** the result and the bytes on the wire of a GET or HEAD handled from
    scratch *)
Definition outcome (E : Env) (self : request) (head_only : bool) : result unit :=
  fst (do_GET E self head_only (start self)).

Definition response (E : Env) (self : request) (head_only : bool) : list wire :=
  wfile (snd (do_GET E self head_only (start self))).

Definition fs_calls (E : Env) (self : request) (head_only : bool) : list fs_call :=
  fs_log (snd (do_GET E self head_only (start self))).

(** the request headers other than Accept-Encoding *)
Definition without_accept_encoding (hs : list (string * string)) : list (string * string) :=
  filter (fun kv => negb (str_eqb (lower (lit (fst kv))) (lit "accept-encoding"))) hs.

(** two requests that differ at most in their Accept-Encoding headers *)
Definition differ_only_in_accept_encoding (a b : request) : Prop :=
  command a = command b /\ path a = path b /\ content a = content b /\
  without_accept_encoding (headers a) = without_accept_encoding (headers b).

(** the Accept-Encoding header mentions gzip *)
Definition accepts_gzip (self : request) : bool :=
  contains (lit "gzip")
           (match headers_get (headers self) (lit "Accept-Encoding") with
            | Some v => v
            | None => []
            end).

Definition not_blank (l : hline) : bool :=
  match l with BlankLine => false | _ => true end.

(** a computation that takes every state to one related to it by [R] *)
Definition keeps (R : hstate -> hstate -> Prop) {A : Type} (m : M A) : Prop :=
  forall st, R st (snd (m st)).

(** no file-system call was made *)
Definition same_calls (st st' : hstate) : Prop := fs_log st' = fs_log st.

(** nothing was sent to the backend, and what was written to the client
    stays written *)
Definition only_written (st st' : hstate) : Prop :=
  sent st' = sent st /\ exists rest, wfile st' = wfile st ++ rest.

(** a computation that makes no file-system call *)
Definition quiet {A : Type} (m : M A) : Prop := keeps same_calls m.

(** the body [_handle_proxy] reads from the client *)
Definition forwarded_body (E : Env) (self : request) : result (option bytes) :=
  match headers_get (headers self) (lit "content-length") with
  | Some v =>
      match int v with
      | Ret n =>
          match read_refusal (can_allocate E) n with
          | Some e => Raise e
          | None =>
              if (n =? -1)%Z then Ret (Some (content self))
              else Ret (Some (firstn (Z.to_nat n) (content self)))
          end
      | Raise e => Raise e
      end
  | None => Ret None
  end.

(** the request [_handle_proxy] hands to the backend connection *)
Definition proxy_request (E : Env) (self : request) : result outbound :=
  match connection_error E with
  | Some e => Raise e
  | None =>
      match forwarded_body E self with
      | Ret body =>
          Ret {| out_method := self_command self;
                 out_url := self_path self;
                 out_body := body;
                 out_headers := dict_set (forwarded_headers self) (lit "Host")
                                         (BACKEND_HOST E) |}
      | Raise e => Raise e
      end
  end.

(** the failure, if any, of contacting the backend before a response head
    arrives *)
Definition proxy_failure (E : Env) (self : request) : option exn :=
  match proxy_request E self with
  | Raise e => Some e
  | Ret req =>
      match backend E req with
      | Unreachable e => Some e
      | Response _ _ _ _ _ => None
      end
  end.

(** the backend's headers as relayed: all but Transfer-Encoding and
    Connection, in order *)
Definition relayed (hs : list (string * string)) : list (pystr * pystr) :=
  map (fun kv => (lit (fst kv), lit (snd kv)))
      (filter (fun kv => negb (hop_by_hop (lit (fst kv)))) hs).

(** the value of the last request header spelled exactly [k] *)
Definition last_value (hs : list (string * string)) (k : pystr) : option pystr :=
  fold_left (fun acc kv => if str_eqb (lit (fst kv)) k then Some (lit (snd kv)) else acc)
            hs None.

(** a path of at least two characters with no scheme, authority, blank,
    fragment, query or parameter delimiter *)
Definition plain_path (p : pystr) : bool :=
  match p with
  | c :: d :: _ =>
      negb (c <=? 0x20)%N && negb (is_ascii_alpha c)
      && negb (startswith p (lit "//"))
      && forallb (fun x => negb ((x =? 9)%N || (x =? 13)%N || (x =? 10)%N)) p
      && negb (has_char (ch "#") p) && negb (has_char (ch "?") p)
      && negb (has_char (ch ";") p)
  | _ => false
  end.

(** the text occurs in the response body, as UTF-8 *)
Definition body_mentions (text : pystr) (w : list wire) : bool :=
  contains (map Byte.to_N (utf8_encode text)) (map Byte.to_N (response_body w)).

(** the exception, if any, that stops [_serve_static] before it sends
    anything *)
Definition static_failure (E : Env) (full_path : pystr) : option exn :=
  match open_read E full_path with
  | Raise e => Some e
  | Ret _ =>
      match os_stat_mtime E full_path with
      | Raise e => Some e
      | Ret st_mtime =>
          match fromtimestamp st_mtime with
          | Raise e => Some e
          | Ret _ => None
          end
      end
  end.

(** a path component that names an entry: not empty, not [.], not [..],
    and without a separator *)
Definition proper (comp : pystr) : bool :=
  negb (is_empty comp) && negb (str_eqb comp PosixPath.dot)
  && negb (str_eqb comp PosixPath.dotdot) && negb (has_char PosixPath.sep comp).

(** components that first climb [k] levels and then only descend *)
Definition climbs (k : nat) (comps : list pystr) : Prop :=
  exists rest, comps = repeat PosixPath.dotdot k ++ rest /\ forallb proper rest = true.

(** the file is there to be served: it can be read, and its modification
    time is a date between the years 1 and 9999 *)
Definition readable (E : Env) (full_path : pystr) (data : bytes) (mtime : Z) : Prop :=
  open_read E full_path = Ret data /\
  os_stat_mtime E full_path = Ret mtime /\
  (min_instant <= mtime <= max_instant)%Z.

(** the handler has written nothing yet *)
Definition fresh (st : hstate) : Prop := headers_buffer st = [] /\ wfile st = [].

Definition is_latin1 (s : pystr) : bool := forallb latin1_char s.

(** the state after [ls] joined the header buffer *)
Definition pushed (ls : list hline) (st : hstate) : hstate :=
  {| headers_buffer := headers_buffer st ++ ls; wfile := wfile st;
     rfile := rfile st; fs_log := fs_log st; sent := sent st |}.

(** the state after the header buffer was written out *)
Definition flushed (st : hstate) : hstate :=
  {| headers_buffer := []; wfile := wfile st ++ map Head (headers_buffer st);
     rfile := rfile st; fs_log := fs_log st; sent := sent st |}.

Definition written (b : bytes) (st : hstate) : hstate :=
  {| headers_buffer := headers_buffer st; wfile := wfile st ++ [Body b];
     rfile := rfile st; fs_log := fs_log st; sent := sent st |}.

Definition logged (cs : list fs_call) (st : hstate) : hstate :=
  {| headers_buffer := headers_buffer st; wfile := wfile st;
     rfile := rfile st; fs_log := fs_log st ++ cs; sent := sent st |}.

(** static-file resolution, the last branch of [do_GET]: the path is
    decoded and normalized, refused when it begins with two dots, looked up
    (the calls [lookups]) and served, or answered 404 *)
Definition static_resolution (E : Env) (self : request) (head_only : bool) : M unit :=
  fun st =>
    match decoded_path E self with
    | Raise e => (Raise e, st)
    | Ret decoded =>
        let n := normalized_path decoded in
        if startswith n (lit "..") then send_error' E self 403 (lit "Forbidden") st
        else match resolved_file E n with
             | Some file => _serve_static E self file head_only (logged (lookups E n) st)
             | None => send_error' E self 404 (lit "Not Found") (logged (lookups E n) st)
             end
    end.

(** ** A gzip codec with stored blocks

    One member in the gzip format whose deflate stream consists of stored
    blocks: an instance of what [gzip_compress] may return, with its
    decoder. *)

Module Gzip.

Local Open Scope N_scope.

Fixpoint crc_shift (count : nat) (c : N) : N :=
  match count with
  | O => c
  | S k =>
      crc_shift k (if N.testbit c 0 then N.lxor (N.shiftr c 1) 0xEDB88320
                   else N.shiftr c 1)
  end.

Definition crc32 (data : list N) : N :=
  N.lxor (fold_left (fun c b => crc_shift 8 (N.lxor c b)) data 0xFFFFFFFF) 0xFFFFFFFF.

(** little-endian, [count] bytes *)
Definition le_bytes (count : nat) (v : N) : list N :=
  map (fun i => N.land (N.shiftr v (8 * N.of_nat i)) 0xFF) (seq 0 count).

Fixpoint le_value (bs : list N) : N :=
  match bs with
  | [] => 0
  | b :: rest => b + 256 * le_value rest
  end.

(** stored blocks of at most 65535 bytes, the last one flagged final *)
Fixpoint stored_blocks (fuel : nat) (data : list N) : list N :=
  match fuel with
  | O => []
  | S k =>
      let chunk := firstn (N.to_nat 65535) data in
      let rest := skipn (N.to_nat 65535) data in
      let len := N.of_nat (length chunk) in
      (if is_empty rest then 1 else 0) :: le_bytes 2 len ++ le_bytes 2 (65535 - len)
      ++ chunk ++ (if is_empty rest then [] else stored_blocks k rest)
  end.

Definition compress (data : bytes) : bytes :=
  let raw := map Byte.to_N data in
  map byte_of_N
      ([0x1F; 0x8B; 8; 0; 0; 0; 0; 0; 2; 255]
       ++ stored_blocks (S (length raw)) raw
       ++ le_bytes 4 (crc32 raw)
       ++ le_bytes 4 (N.of_nat (length raw) mod 2 ^ 32)).

Fixpoint read_blocks (fuel : nat) (s : list N) : option (list N * list N) :=
  match fuel with
  | O => None
  | S k =>
      match s with
      | flag :: l0 :: l1 :: n0 :: n1 :: rest =>
          let len := le_value [l0; l1] in
          if (flag <? 2) && (le_value [n0; n1] =? 65535 - len)
             && (len <=? N.of_nat (length rest)) then
            let chunk := firstn (N.to_nat len) rest in
            let rest := skipn (N.to_nat len) rest in
            if flag =? 1 then Some (chunk, rest)
            else match read_blocks k rest with
                 | Some (more, rest') => Some (chunk ++ more, rest')
                 | None => None
                 end
          else None
      | _ => None
      end
  end.

Definition decompress (stream : bytes) : option bytes :=
  match map Byte.to_N stream with
  | 0x1F :: 0x8B :: 8 :: 0 :: _ :: _ :: _ :: _ :: _ :: _ :: deflate =>
      match read_blocks (length deflate) deflate with
      | Some (raw, trailer) =>
          if (length trailer =? 8)%nat
             && (le_value (firstn 4 trailer) =? crc32 raw)
             && (le_value (skipn 4 trailer) =? N.of_nat (length raw) mod 2 ^ 32)
          then Some (map byte_of_N raw) else None
      | None => None
      end
  | _ => None
  end.

End Gzip.

(** ** A deployment to evaluate on *)

Module Demo.

Local Open Scope Z_scope.

(** days from 1970-01-01 of a civil date *)
Definition days_from_civil (y m d : Z) : Z :=
  let y := if m <=? 2 then y - 1 else y in
  let era := y / 400 in
  let yoe := y - era * 400 in
  let mp := if m <=? 2 then m + 9 else m - 3 in
  let doy := (153 * mp + 2) / 5 + d - 1 in
  let doe := yoe * 365 + yoe / 4 - yoe / 100 + doy in
  era * 146097 + doe - 719468.

Fixpoint number (s : pystr) (acc : Z) : option Z :=
  match s with
  | [] => Some acc
  | c :: rest => if is_digit c then number rest (10 * acc + Z.of_N (c - 48)) else None
  end.

Fixpoint index_of (x : pystr) (l : list pystr) (i : Z) : option Z :=
  match l with
  | [] => None
  | y :: l' => if str_eqb x y then Some i else index_of x l' (i + 1)
  end.

(** [parsedate_to_datetime] on the preferred HTTP-date form, [Sun, 06 Nov
    1994 08:49:37 GMT]; anything else is refused. *)
Definition parse_http_date (s : pystr) : result datetime :=
  let refused :=
    Raise (Exn "ValueError"
               (lit "Invalid date value or format " ++ dquote ++ s ++ dquote)) in
  match split (ch " ") s with
  | [_; day; month; year; time; zone] =>
      match number day 0, index_of month month_names 1, number year 0,
            map (fun t => number t 0) (split (ch ":") time) with
      | Some d, Some m, Some y, [Some hh; Some mm; Some ss] =>
          if str_eqb zone (lit "GMT") then
            Ret (Aware ((days_from_civil y m d * 86400 + hh * 3600 + mm * 60 + ss)
                        * 1000000))
          else refused
      | _, _, _, _ => refused
      end
  | _ => refused
  end.

Inductive node :=
| File (data : bytes) (mtime : Z) (readable : bool)
| Dir.

(** The document root holds [index.html], [style.css], [app.js],
    [logo.svg], [LICENSE], an unreadable [secret.txt] and the directory
    [docs]; [/etc/passwd] lies outside it. *)
Definition disk (p : pystr) : option node :=
  if str_eqb p (lit "/srv/www/public/index.html")
  then Some (File (blit "<html>hi</html>") 784111777500000 true)
  else if str_eqb p (lit "/srv/www/public/style.css")
  then Some (File (blit "body{}") 784111777000000 true)
  else if str_eqb p (lit "/srv/www/public/app.js")
  then Some (File (blit "go()") 784111777000000 true)
  else if str_eqb p (lit "/srv/www/public/logo.svg")
  then Some (File (blit "<svg/>") 784111777000000 true)
  else if str_eqb p (lit "/srv/www/public/LICENSE")
  then Some (File (blit "MIT") 784111777000000 true)
  else if str_eqb p (lit "/srv/www/public/secret.txt")
  then Some (File (blit "hunter2") 784111777000000 false)
  else if str_eqb p (lit "/srv/www/public/docs") then Some Dir
  else if str_eqb p (lit "/srv/www/public") then Some Dir
  else if str_eqb p (lit "/etc/passwd")
  then Some (File (blit "root:x:0:0:root:/root:/bin/sh") 784111777000000 true)
  else None.


Definition os_error (class errno : string) (p : pystr) : exn :=
  Exn class (lit errno ++ lit ": '" ++ p ++ lit "'").

Definition mime_types (p : pystr) : option string :=
  if endswith p (lit ".html") then Some "text/html"%string
  else if endswith p (lit ".css") then Some "text/css"%string
  else if endswith p (lit ".txt") then Some "text/plain"%string
  else if endswith p (lit ".js") then Some "application/javascript"%string
  else if endswith p (lit ".svg") then Some "image/svg+xml"%string
  else if endswith p (lit ".png") then Some "image/png"%string
  else None.

(** a backend that answers every request with 201 *)
Definition api (o : outbound) : upstream :=
  Response 201 "Created"
           [("Content-Type", "application/json"); ("Connection", "close");
            ("Transfer-Encoding", "chunked"); ("X-Request-Id", "7")]%string
           [blit "{}"] None.

(** a backend that refuses the connection *)
Definition down (o : outbound) : upstream :=
  Unreachable (Exn "ConnectionRefusedError" (lit "[Errno 111] Connection refused")).

Definition deploy (disk : pystr -> option node) (backend : outbound -> upstream) : Env := {|
  PUBLIC_DIR := lit "/srv/www/public";
  BACKEND_HOST := lit "backend";
  BACKEND_PORT := 5000;
  version_string := "MiniNginx/0.1 Python/3.11.2";
  date_time_string := "Tue, 03 Nov 2026 14:15:25 GMT";
  utcnow_isoformat := "2026-11-03T14:15:25.000000+00:00";
  os_path_isdir := fun p => match disk p with Some Dir => true | _ => false end;
  os_path_exists := fun p => match disk p with Some _ => true | None => false end;
  open_read := fun p =>
    match disk p with
    | Some (File data _ true) => Ret data
    | Some (File _ _ false) =>
        Raise (os_error "PermissionError" "[Errno 13] Permission denied" p)
    | Some Dir => Raise (os_error "IsADirectoryError" "[Errno 21] Is a directory" p)
    | None =>
        Raise (os_error "FileNotFoundError" "[Errno 2] No such file or directory" p)
    end;
  os_stat_mtime := fun p =>
    match disk p with
    | Some (File _ mtime _) => Ret mtime
    | Some Dir => Ret 784111777000000
    | None =>
        Raise (os_error "FileNotFoundError" "[Errno 2] No such file or directory" p)
    end;
  guess_type := mime_types;
  parsedate_to_datetime := parse_http_date;
  gzip_compress := Gzip.compress;
  can_allocate := fun n => n <? 4294967296;
  check_bracketed_netloc := fun _ => None;
  connection_error := None;
  backend := backend
|}.

Definition env : Env := deploy disk api.

(** the same deployment with the backend down, and without [index.html] *)
Definition env_backend_down : Env := deploy disk down.

Definition get (path : string) (headers : list (string * string)) : request :=
  {| command := "GET"; path := path; headers := headers; content := [] |}.

Definition style_css : pystr := lit "/srv/www/public/style.css".
Definition style_data : bytes := blit "body{}".
Definition style_mtime : Z := 784111777000000.

(** the entity tag and the Last-Modified date of [style.css] *)
Definition style_etag : string := "a4c0dac49e47ffe0dbcca7615f73b72ef6b71543".
Definition style_date : string := "Sun, 06 Nov 1994 08:49:37 GMT".

(** conditional requests for [style.css] that quote its validators *)
Definition revalidate_by_tag : request :=
  get "/style.css" [("If-None-Match"%string, style_etag)].
Definition revalidate_by_date : request :=
  get "/style.css" [("If-Modified-Since"%string, style_date)].

(** a request whose path hides a leading separator behind [%2F] *)
Definition encoded_slash : request := get "/%2Fetc/passwd" [].
Definition passwd_data : bytes := blit "root:x:0:0:root:/root:/bin/sh".

(** a request for the file the server may not read *)
Definition unreadable : request := get "/secret.txt" [].

(** a proxied request that repeats a header name *)
Definition repeated_header : request :=
  get "/api/events?since=7"
      [("Host", "edge.example"); ("X-Tag", "a"); ("X-Tag", "b")]%string.

Definition index_html : pystr := lit "/srv/www/public/index.html".
Definition index_data : bytes := blit "<html>hi</html>".
Definition index_mtime : Z := 784111777500000.

End Demo.

(** ** What the further properties talk about *)

(** the path a file-system call is made on *)
Definition call_path (c : fs_call) : pystr :=
  match c with
  | Isdir p => p
  | Exists p => p
  | OpenRead p => p
  | Stat p => p
  end.

(** the chunks the streaming loop writes: those before the first empty
    read *)
Fixpoint delivered (reads : list bytes) : list bytes :=
  match reads with
  | [] => []
  | chunk :: rest => if is_empty chunk then [] else chunk :: delivered rest
  end.

(** the exception that ends the streaming loop, if one does: the stream
    fails before a read comes back empty *)
Definition stream_failure (reads : list bytes) (failure : option exn) : option exn :=
  if existsb is_empty reads then None else failure.

(** the head of a relayed response, up to the blank line *)
Definition relayed_head (E : Env) (status : Z) (reason : string)
           (hs : list (string * string)) : list hline :=
  StatusLine status (lit reason) :: server_date E
  ++ map (fun kv => HeaderLine (fst kv) (snd kv)) (relayed hs)
  ++ [HeaderLine (lit "Vary") (lit "Accept-Encoding")].

(** one of [0-9a-f] *)
Definition is_lower_hex (c : N) : bool := in_range 48 57 c || in_range 97 102 c.


(** the body of the status endpoint *)
Definition status_body (E : Env) : bytes :=
  utf8_encode (lit "{" ++ dquote ++ lit "status" ++ dquote ++ lit ":" ++ dquote
               ++ lit "ok" ++ dquote ++ lit "," ++ dquote ++ lit "time" ++ dquote
               ++ lit ":" ++ dquote ++ lit (utcnow_isoformat E) ++ dquote ++ lit "}").

(** the request body was not read and nothing was sent to the backend *)
Definition untouched (st st' : hstate) : Prop :=
  sent st' = sent st /\ rfile st' = rfile st.

(** every file-system call made from [st] to [st'] passes [ok] *)
Definition calls_among (ok : fs_call -> bool) (st st' : hstate) : Prop :=
  exists calls, fs_log st' = fs_log st ++ calls /\ forallb ok calls = true.

(** the call is made on a path that begins with the document root *)
Definition under_root (E : Env) (c : fs_call) : bool :=
  startswith (call_path c) (PUBLIC_DIR E).

(** what the backend writes for a GET handled from scratch, and how the
    handler ends *)
Definition backend_response (B : Backend.Env) (self : request) : list wire :=
  wfile (snd (Backend.do_GET B self (start self))).

Definition backend_outcome (B : Backend.Env) (self : request) : result unit :=
  fst (Backend.do_GET B self (start self)).

(** what the backend's [send_error] writes on an empty buffer *)
Definition backend_error_wire (B : Backend.Env) (self : request) (code : Z)
           (message : pystr) : list wire :=
  map Head [StatusLine code message;
            HeaderLine (lit "Server") (lit (Backend.version_string B));
            HeaderLine (lit "Date") (lit (Backend.date_time_string B));
            HeaderLine (lit "Connection") (lit "close");
            HeaderLine (lit "Content-Type") (lit "text/html;charset=utf-8");
            HeaderLine (lit "Content-Length")
                       (str_of_N (N.of_nat (length (error_body code message))));
            BlankLine]
  ++ (if str_eqb (self_command self) (lit "HEAD") then []
      else [Body (error_body code message)]).

(** the head the backend sends before it looks at If-None-Match *)
Definition events_head (B : Backend.Env) (raw : bytes) : list hline :=
  [StatusLine 200 (lit "OK");
   HeaderLine (lit "Server") (lit (Backend.version_string B));
   HeaderLine (lit "Date") (lit (Backend.date_time_string B));
   HeaderLine (lit "Content-Type") (lit "application/json; charset=utf-8");
   HeaderLine (lit "ETag") (Backend.compute_etag_bytes raw);
   HeaderLine (lit "Cache-Control") (lit "public, max-age=30");
   HeaderLine (lit "Vary") (lit "Accept-Encoding")].

(** ** More of the deployment *)

Module Cases.

Local Open Scope Z_scope.

(** a file name with a character outside ISO-8859-1 *)
Definition euro_txt : pystr := lit "/srv/www/public/" ++ [8364%N] ++ lit ".txt".

(** The document root of [Demo] with, in addition, an index page in [docs],
    a picture, a file whose name begins with two dots, and a file the
    server may not read whose name does not fit ISO-8859-1. *)
Definition disk (p : pystr) : option Demo.node :=
  if str_eqb p (lit "/srv/www/public/docs/index.html")
  then Some (Demo.File (blit "<html>docs</html>") 784111777000000 true)
  else if str_eqb p (lit "/srv/www/public/photo.png")
  then Some (Demo.File (blit "PNG") 784111777000000 true)
  else if str_eqb p (lit "/srv/www/public/..data")
  then Some (Demo.File (blit "data") 784111777000000 true)
  else if str_eqb p euro_txt
  then Some (Demo.File (blit "hunter2") 784111777000000 false)
  else Demo.disk p.

(** a backend that answers in two chunks and then ends the stream *)
Definition chunked (o : outbound) : upstream :=
  Response 200 "OK"
           [("Content-Type", "text/plain"); ("Content-Length", "11")]%string
           [blit "hello "; blit "world"; []] None.

(** a backend whose connection is reset after the first chunk *)
Definition flaky (o : outbound) : upstream :=
  Response 200 "OK"
           [("Content-Type", "text/plain"); ("Content-Length", "11")]%string
           [blit "hello "]
           (Some (Exn "ConnectionResetError" (lit "[Errno 104] Connection reset by peer"))).

Definition env : Env := Demo.deploy disk chunked.
Definition env_flaky : Env := Demo.deploy disk flaky.

(** the same deployment on a file system whose reads time out *)
Definition timed_out : exn := Exn "TimeoutError" (lit "[Errno 110] Connection timed out").

Definition env_stalled : Env := {|
  PUBLIC_DIR := PUBLIC_DIR env;
  BACKEND_HOST := BACKEND_HOST env;
  BACKEND_PORT := BACKEND_PORT env;
  version_string := version_string env;
  date_time_string := date_time_string env;
  utcnow_isoformat := utcnow_isoformat env;
  os_path_isdir := os_path_isdir env;
  os_path_exists := os_path_exists env;
  open_read := fun _ => Raise timed_out;
  os_stat_mtime := os_stat_mtime env;
  guess_type := guess_type env;
  parsedate_to_datetime := parsedate_to_datetime env;
  gzip_compress := gzip_compress env;
  can_allocate := can_allocate env;
  check_bracketed_netloc := check_bracketed_netloc env;
  connection_error := connection_error env;
  backend := backend env
|}.

Definition head (path : string) (headers : list (string * string)) : request :=
  {| command := "HEAD"; path := path; headers := headers; content := [] |}.

Definition post (path : string) (headers : list (string * string)) (body : bytes)
  : request :=
  {| command := "POST"; path := path; headers := headers; content := body |}.

(** a proxied request that announces three of the six bytes it carries *)
Definition with_body : request :=
  {| command := "GET"; path := "/api/events";
     headers := [("Content-Length", "3")]%string; content := blit "abcdef" |}.

Definition docs_index : pystr := lit "/srv/www/public/docs/index.html".
Definition docs_data : bytes := blit "<html>docs</html>".

Definition events_json : pystr := lit "/srv/backend/data/events.json".
Definition events_data : bytes := blit "[1, 2, 3]".

(** the backend with its data file in place, and without it *)
Definition backend_with (open_read : pystr -> result bytes) : Backend.Env := {|
  Backend.DATA_PATH := events_json;
  Backend.version_string := "BaseHTTP/0.6 Python/3.11.2";
  Backend.date_time_string := "Tue, 03 Nov 2026 14:15:25 GMT";
  Backend.utcnow_isoformat := "2026-11-03T14:15:25.000000+00:00";
  Backend.open_read := open_read;
  Backend.gzip_compress := Gzip.compress
|}.

Definition backend : Backend.Env :=
  backend_with (fun p =>
    if str_eqb p events_json then Ret events_data
    else Raise (Demo.os_error "FileNotFoundError" "[Errno 2] No such file or directory" p)).

Definition backend_without_data : Backend.Env :=
  backend_with (fun p =>
    Raise (Demo.os_error "FileNotFoundError" "[Errno 2] No such file or directory" p)).

End Cases.

(** * Properties *)

(** ** Strings *)

Lemma str_eqb_eq (a b : pystr) : str_eqb a b = true <-> a = b.
Proof.
  revert b; induction a as [|x a IH]; intros [|y b]; simpl; split; intro H;
    try reflexivity; try discriminate.
  - apply andb_true_iff in H as [H1 H2]. apply N.eqb_eq in H1.
    apply IH in H2. congruence.
  - injection H as -> ->. rewrite N.eqb_refl. simpl. now apply IH.
Qed.

Lemma str_eqb_refl (a : pystr) : str_eqb a a = true.
Proof. now apply str_eqb_eq. Qed.

Lemma str_eqb_neq (a b : pystr) : str_eqb a b = false <-> a <> b.
Proof.
  split.
  - intros H E. apply str_eqb_eq in E. congruence.
  - intros H. destruct (str_eqb a b) eqn:E; [|reflexivity].
    apply str_eqb_eq in E. contradiction.
Qed.

Lemma startswith_app (p s : pystr) : startswith (p ++ s) p = true.
Proof. induction p as [|c p IH]; simpl; [reflexivity|]. now rewrite N.eqb_refl. Qed.

Lemma startswith_prefix (s p : pystr) :
  startswith s p = true -> exists t, s = p ++ t.
Proof.
  revert s; induction p as [|c p IH]; intros s H; simpl in *.
  - now exists s.
  - destruct s as [|d s]; [discriminate|].
    apply andb_true_iff in H as [H1 H2]. apply N.eqb_eq in H1. subst d.
    destruct (IH _ H2) as [t ->]. now exists t.
Qed.

Lemma startswith_trans (s p q : pystr) :
  startswith s p = true -> startswith p q = true -> startswith s q = true.
Proof.
  intros H1 H2. apply startswith_prefix in H1 as [t ->].
  apply startswith_prefix in H2 as [u ->]. rewrite <- app_assoc.
  apply startswith_app.
Qed.

(** ** The library models on known values *)

Section KnownValues.

Example sha1_empty :
  Sha1.hexdigest [] = lit "da39a3ee5e6b4b0d3255bfef95601890afd80709".
Proof. vm_compute. reflexivity. Qed.

Example sha1_abc :
  Sha1.hexdigest (blit "abc") = lit "a9993e364706816aba3e25717850c26c9cd0d89d".
Proof. vm_compute. reflexivity. Qed.

Example sha1_two_blocks :
  Sha1.hexdigest (repeat "a"%byte 64) = lit "0098ba824b5c16427bd7a1122a5a442a25ec644d".
Proof. vm_compute. reflexivity. Qed.

Example normpath_climbs :
  PosixPath.normpath (lit "a/../../b") = lit "../b".
Proof. vm_compute. reflexivity. Qed.

Example normpath_slashes :
  PosixPath.normpath (lit "a//b/./c/") = lit "a/b/c".
Proof. vm_compute. reflexivity. Qed.

Example unquote_dots :
  UrlParse.unquote (lit "%2e%2e/x") = lit "../x".
Proof. vm_compute. reflexivity. Qed.

Example unquote_euro :
  UrlParse.unquote (lit "%E2%82%AC") = [8364%N].
Proof. vm_compute. reflexivity. Qed.

Example unquote_truncated :
  UrlParse.unquote (lit "%E2%82") = [UrlParse.replacement].
Proof. vm_compute. reflexivity. Qed.

Example urlparse_params :
  UrlParse.urlparse_path (fun _ => None) (lit "/a;b/c;d?x#y") = Ret (lit "/a;b/c").
Proof. vm_compute. reflexivity. Qed.

Example urlparse_authority :
  UrlParse.urlparse_path (fun _ => None) (lit "//etc/passwd") = Ret (lit "/passwd").
Proof. vm_compute. reflexivity. Qed.

Example format_datetime_1994 :
  format_datetime (Aware 784111777000000) = lit "Sun, 06 Nov 1994 08:49:37 GMT".
Proof. vm_compute. reflexivity. Qed.

Example format_datetime_leap_day :
  format_datetime (Aware 951782400000000) = lit "Tue, 29 Feb 2000 00:00:00 GMT".
Proof. vm_compute. reflexivity. Qed.

Example int_with_underscore : int (lit " +1_0 ") = Ret 10%Z.
Proof. vm_compute. reflexivity. Qed.

(** The refusals of [fromtimestamp] at the ends of their ranges. *)
Example fromtimestamp_year_10000 :
  fromtimestamp (253402300800 * 1000000)
  = Raise (Exn "ValueError" (lit "year 10000 is out of range")).
Proof. vm_compute. reflexivity. Qed.

Example fromtimestamp_year_0 :
  fromtimestamp (-62135596801 * 1000000)
  = Raise (Exn "ValueError" (lit "year 0 is out of range")).
Proof. vm_compute. reflexivity. Qed.

Example fromtimestamp_year_wraps :
  fromtimestamp (67767976233532799 * 1000000)
  = Raise (Exn "ValueError" (lit "year 2147483647 is out of range"))
  /\ fromtimestamp (67767976233532800 * 1000000)
     = Raise (Exn "ValueError" (lit "year -2147483648 is out of range"))
  /\ fromtimestamp (gmtime_max * 1000000)
     = Raise (Exn "ValueError" (lit "year -2147481749 is out of range"))
  /\ fromtimestamp (gmtime_min * 1000000)
     = Raise (Exn "ValueError" (lit "year -2147481748 is out of range")).
Proof. vm_compute. repeat split. Qed.

Example fromtimestamp_gmtime_fails :
  fromtimestamp ((gmtime_max + 1) * 1000000)
  = Raise (Exn "OSError" (lit "[Errno 75] Value too large for defined data type"))
  /\ fromtimestamp ((gmtime_min - 1) * 1000000)
     = Raise (Exn "OSError" (lit "[Errno 75] Value too large for defined data type"))
  /\ fromtimestamp (9223372036854775808 * 1000000)
     = Raise (Exn "OSError" (lit "[Errno 75] Value too large for defined data type"))
  /\ fromtimestamp (9223372036854775809 * 1000000)
     = Raise (Exn "OverflowError" (lit "timestamp out of range for platform time_t")).
Proof. vm_compute. repeat split. Qed.

(** The refusals of [BufferedReader.read] at the ends of their ranges. *)
Example read_refusal_bounds :
  let refusal := read_refusal (fun n => (n <? 4294967296)%Z) in
  refusal 9223372036854775808%Z
  = Some (Exn "OverflowError" (lit "cannot fit 'int' into an index-sized integer"))
  /\ refusal 9223372036854775807%Z
     = Some (Exn "OverflowError" (lit "byte string is too large"))
  /\ refusal 9223372036854775775%Z
     = Some (Exn "OverflowError" (lit "byte string is too large"))
  /\ refusal 9223372036854775774%Z = Some (Exn "MemoryError" [])
  /\ refusal 3%Z = None
  /\ refusal 0%Z = None
  /\ refusal (-1)%Z = None
  /\ refusal (-2)%Z
     = Some (Exn "ValueError" (lit "read length must be non-negative or -1"))
  /\ refusal (-9223372036854775808)%Z
     = Some (Exn "ValueError" (lit "read length must be non-negative or -1"))
  /\ refusal (-9223372036854775809)%Z
     = Some (Exn "OverflowError" (lit "cannot fit 'int' into an index-sized integer")).
Proof. vm_compute. repeat split. Qed.

Example gzip_stored_round_trip :
  Gzip.decompress (Gzip.compress (blit "hello")) = Some (blit "hello").
Proof. vm_compute. reflexivity. Qed.

Example forbidden_page_length :
  length (error_body 403 (lit "Forbidden")) = 349%nat.
Proof. vm_compute. reflexivity. Qed.

End KnownValues.

(** ** Text that fits ISO-8859-1 *)

Section Latin1.

Local Open Scope N_scope.

Lemma is_latin1_app (a b : pystr) : is_latin1 (a ++ b) = is_latin1 a && is_latin1 b.
Proof. apply forallb_app. Qed.

Lemma is_latin1_lit (s : string) : is_latin1 (lit s) = true.
Proof.
  unfold is_latin1, lit. apply forallb_forall. intros c Hc.
  apply in_map_iff in Hc as [a [<- _]]. apply N.ltb_lt, N_ascii_bounded.
Qed.

Lemma digits_fuel_latin1 (fuel : nat) (n : N) (acc : pystr) :
  is_latin1 acc = true -> is_latin1 (digits_fuel fuel n acc) = true.
Proof.
  revert n acc; induction fuel as [|f IH]; intros n acc Hacc; simpl; [exact Hacc|].
  assert (Hd : is_latin1 ((48 + n mod 10) :: acc) = true).
  { unfold is_latin1 in *. cbn [forallb]. rewrite Hacc, andb_true_r.
    apply N.ltb_lt. pose proof (N.mod_lt n 10 ltac:(discriminate)). lia. }
  destruct (n <? 10); [exact Hd | now apply IH].
Qed.

Lemma is_latin1_str_of_N (n : N) : is_latin1 (str_of_N n) = true.
Proof. now apply digits_fuel_latin1. Qed.

Lemma is_latin1_str_of_Z (z : Z) : is_latin1 (str_of_Z z) = true.
Proof.
  unfold str_of_Z. destruct (z <? 0)%Z; [|apply is_latin1_str_of_N].
  change (is_latin1 (lit "-" ++ str_of_N (Z.to_N (- z))) = true).
  now rewrite is_latin1_app, is_latin1_lit, is_latin1_str_of_N.
Qed.

Lemma is_latin1_repeat (c : N) (k : nat) : c < 256 -> is_latin1 (repeat c k) = true.
Proof.
  intros Hc. induction k as [|k IH]; simpl; [reflexivity|].
  rewrite IH, andb_true_r. now apply N.ltb_lt.
Qed.

Lemma is_latin1_zero_pad (w : nat) (n : N) : is_latin1 (zero_pad w n) = true.
Proof.
  unfold zero_pad. rewrite is_latin1_app, is_latin1_str_of_N, andb_true_r.
  apply is_latin1_repeat. reflexivity.
Qed.

Lemma hex_digit_latin1 (v : N) : latin1_char (Sha1.hex_digit (N.land v 0xF)) = true.
Proof.
  change 0xF with (N.ones 4). rewrite N.land_ones.
  pose proof (N.mod_lt v (2 ^ 4) ltac:(discriminate)) as H.
  change (2 ^ 4) with 16 in *. unfold Sha1.hex_digit, latin1_char.
  destruct (v mod 16 <? 10); apply N.ltb_lt; lia.
Qed.

Lemma is_latin1_hex_word (w : N) : is_latin1 (Sha1.hex_word w) = true.
Proof.
  unfold is_latin1, Sha1.hex_word. apply forallb_forall. intros c Hc.
  apply in_map_iff in Hc as [i [<- _]]. apply hex_digit_latin1.
Qed.

Lemma is_latin1_etag (data : bytes) : is_latin1 (generate_etag_bytes data) = true.
Proof.
  unfold generate_etag_bytes, Sha1.hexdigest.
  generalize (Sha1.digest_words data). intros ws.
  induction ws as [|w ws IH]; cbn [flat_map]; [reflexivity|].
  now rewrite is_latin1_app, is_latin1_hex_word.
Qed.

Lemma is_latin1_nth_lit (names : list string) (i : nat) :
  is_latin1 (nth i (map lit names) []) = true.
Proof.
  revert i; induction names as [|s names IH]; intros [|i]; simpl; auto.
  apply is_latin1_lit.
Qed.

Lemma is_latin1_format_datetime (dt : datetime) : is_latin1 (format_datetime dt) = true.
Proof.
  unfold format_datetime.
  destruct (civil_from_days (instant dt / 1000000 / 86400)) as [[y m] d].
  unfold day_names, month_names.
  repeat rewrite is_latin1_app.
  repeat rewrite is_latin1_nth_lit. repeat rewrite is_latin1_zero_pad.
  repeat rewrite is_latin1_lit. reflexivity.
Qed.

Lemma latin1_error_none (line : pystr) (pos : N) :
  is_latin1 line = true -> latin1_error pos line = None.
Proof.
  revert pos; induction line as [|c line IH]; intros pos H; simpl in *; [reflexivity|].
  apply andb_true_iff in H as [Hc Hl]. rewrite Hc. now apply IH.
Qed.

Lemma latin1_error_some (line : pystr) (pos : N) :
  is_latin1 line = false -> exists e, latin1_error pos line = Some e.
Proof.
  revert pos; induction line as [|c line IH]; intros pos H; simpl in *; [discriminate|].
  destruct (latin1_char c); simpl in H; [now apply IH|]. eexists; reflexivity.
Qed.

End Latin1.

(** ** Running the handler primitives *)

(** two descriptions of the same state, up to the association of appends *)
Ltac same_state :=
  unfold flushed, pushed, written, wfile_write, logged;
  cbn [headers_buffer wfile rfile fs_log sent app];
  repeat rewrite map_app; repeat rewrite app_nil_r; repeat rewrite <- app_assoc;
  reflexivity.

Section Runs.

Lemma pushed_pushed (a b : list hline) (st : hstate) :
  pushed b (pushed a st) = pushed (a ++ b) st.
Proof. unfold pushed; simpl. now rewrite app_assoc. Qed.

Lemma encode_line_run (text : pystr) (l : hline) (st : hstate) :
  is_latin1 text = true -> encode_line text l st = (Ret tt, pushed [l] st).
Proof. intros H. unfold encode_line. now rewrite (latin1_error_none _ _ H). Qed.

Lemma send_header_run (k v : pystr) (st : hstate) :
  is_latin1 k = true -> is_latin1 v = true ->
  send_header k v st = (Ret tt, pushed [HeaderLine k v] st).
Proof.
  intros Hk Hv. unfold send_header. apply encode_line_run.
  now rewrite !is_latin1_app, Hk, Hv.
Qed.

Lemma send_response_only_run (code : Z) (m : pystr) (st : hstate) :
  is_latin1 m = true ->
  send_response_only code (Some m) st = (Ret tt, pushed [StatusLine code m] st).
Proof.
  intros Hm. unfold send_response_only. apply encode_line_run.
  now rewrite !is_latin1_app, is_latin1_str_of_Z, Hm.
Qed.

Lemma send_response_run (E : Env) (code : Z) (m : pystr) (st : hstate) :
  is_latin1 m = true ->
  send_response' E code (Some m) st
  = (Ret tt, pushed (StatusLine code m :: server_date E) st).
Proof.
  intros Hm. unfold send_response', send_response, bind.
  rewrite (send_response_only_run _ _ _ Hm).
  rewrite !send_header_run by apply is_latin1_lit.
  now rewrite !pushed_pushed.
Qed.

Lemma send_response_ok (E : Env) (st : hstate) :
  send_response' E 200 None st
  = (Ret tt, pushed (StatusLine 200 (lit "OK") :: server_date E) st).
Proof. apply (send_response_run E). apply is_latin1_lit. Qed.

Lemma send_response_not_modified (E : Env) (st : hstate) :
  send_response' E 304 None st
  = (Ret tt, pushed (StatusLine 304 (lit "Not Modified") :: server_date E) st).
Proof. apply (send_response_run E). apply is_latin1_lit. Qed.

Lemma end_headers_run (st : hstate) :
  end_headers st = (Ret tt, flushed (pushed [BlankLine] st)).
Proof. reflexivity. Qed.


Lemma is_latin1_served_mime (E : Env) (full_path : pystr) :
  is_latin1 (served_mime E full_path) = true.
Proof.
  unfold served_mime. destruct (guess_type E full_path) as [m|];
    [destruct (is_empty (lit m))|]; apply is_latin1_lit.
Qed.

Lemma is_latin1_content_type (mime : pystr) :
  is_latin1 mime = true -> is_latin1 (content_type mime) = true.
Proof.
  intros H. unfold content_type. rewrite is_latin1_app, H.
  destruct (startswith mime (lit "text/") || str_eqb mime (lit "application/json"));
    [apply is_latin1_lit | reflexivity].
Qed.

Lemma is_latin1_cache_control (full_path : pystr) :
  is_latin1 (cache_control full_path) = true.
Proof.
  unfold cache_control.
  destruct (endswith full_path (lit ".html")); [apply is_latin1_lit|].
  destruct (existsb (endswith full_path) long_lived); apply is_latin1_lit.
Qed.

Lemma fromtimestamp_in_range (mtime : Z) :
  (min_instant <= mtime <= max_instant)%Z -> fromtimestamp mtime = Ret (Aware mtime).
Proof.
  intros [Hlo Hhi]. unfold fromtimestamp.
  apply Z.leb_le in Hlo, Hhi. now rewrite Hlo, Hhi.
Qed.

(** [_serve_static] on a readable file writes [static_wire] after whatever
    was buffered, and makes two file-system calls. *)
Lemma serve_static_run (E : Env) (self : request) (full_path : pystr)
      (head_only : bool) (data : bytes) (mtime : Z) (st : hstate) :
  readable E full_path data mtime ->
  _serve_static E self full_path head_only st
  = (Ret tt,
     {| headers_buffer := [];
        wfile := wfile st ++ map Head (headers_buffer st)
                 ++ static_wire E self full_path head_only data mtime;
        rfile := rfile st;
        fs_log := fs_log st ++ [OpenRead full_path; Stat full_path];
        sent := sent st |}).
Proof.
  intros (Hread & Hstat & Hrange).
  unfold _serve_static, read_file_bytes, stat_mtime.
  fold (served_mime E full_path). fold (cache_control full_path).
  fold (content_type (served_mime E full_path)).
  unfold bind at 1. unfold bind at 1. cbn [log_fs lift]. rewrite Hread.
  unfold bind at 1. unfold bind at 1. cbn [log_fs lift fs_log headers_buffer wfile rfile sent].
  rewrite Hstat.
  unfold bind at 1. cbn [lift]. rewrite (fromtimestamp_in_range _ Hrange).
  unfold bind at 1. rewrite send_response_ok.
  unfold bind at 1.
  rewrite send_header_run
    by first [apply is_latin1_lit | apply is_latin1_content_type, is_latin1_served_mime].
  unfold bind at 1.
  rewrite send_header_run by first [apply is_latin1_lit | apply is_latin1_cache_control].
  unfold bind at 1.
  rewrite send_header_run by first [apply is_latin1_lit | apply is_latin1_etag].
  unfold bind at 1.
  rewrite send_header_run by first [apply is_latin1_lit | apply is_latin1_format_datetime].
  unfold bind at 1.
  rewrite send_header_run by apply is_latin1_lit.
  rewrite !pushed_pushed.
  change ((StatusLine 200 (lit "OK") :: server_date E) ++ _)
    with (static_head E full_path data mtime).
  unfold self_headers_get.
  fold (etag_matches self (generate_etag_bytes data)).
  fold (should_gzip E self full_path).
  unfold static_wire, static_extra, static_body, revalidated, not_modified_since,
    modified_since.
  destruct (etag_matches self (generate_etag_bytes data)); cbn [orb].
  - unfold bind. rewrite send_response_not_modified, end_headers_run.
    rewrite !pushed_pushed. same_state.
  - assert (Hfull : forall st1,
      (body_bytes <-
         (if should_gzip E self full_path
          then send_header (lit "Content-Encoding") (lit "gzip") ;;
               ret (gzip_compress E data)
          else ret data) ;;
       send_header (lit "Content-Length") (str_of_N (N.of_nat (length body_bytes))) ;;
       end_headers ;;
       (if negb head_only then wfile_write body_bytes else ret tt))%py st1
      = (Ret tt,
         {| headers_buffer := [];
            wfile := wfile st1
              ++ map Head (headers_buffer st1 ++
                   (if should_gzip E self full_path
                    then [HeaderLine (lit "Content-Encoding") (lit "gzip")] else []) ++
                   [HeaderLine (lit "Content-Length")
                      (str_of_N (N.of_nat (length
                         (if should_gzip E self full_path
                          then gzip_compress E data else data))));
                    BlankLine])
              ++ (if head_only then []
                  else [Body (if should_gzip E self full_path
                              then gzip_compress E data else data)]);
            rfile := rfile st1; fs_log := fs_log st1; sent := sent st1 |})).
    { intros st1. destruct (should_gzip E self full_path); unfold bind, ret;
        rewrite ?send_header_run by first [apply is_latin1_lit | apply is_latin1_str_of_N];
        rewrite end_headers_run, ?pushed_pushed;
        destruct head_only; cbn [negb]; same_state. }
    unfold bind at 1.
    destruct (headers_get (headers self) (lit "If-Modified-Since")) as [[|c v]|];
      cbn [ret orb]; try (unfold ret; rewrite Hfull; same_state).
    unfold try_except, bind at 1, lift.
    destruct (parsedate_to_datetime E (c :: v)) as [dt|e];
      [|unfold ret; rewrite Hfull; same_state].
    assert (Hcmp : (instant match dt with Naive t | Aware t => Aware t end
                    >=? instant (Aware mtime))%Z = (mtime <=? instant dt)%Z).
    { rewrite Z.geb_leb. now destruct dt. }
    rewrite Hcmp. destruct (mtime <=? instant dt)%Z; cbn [orb].
    + unfold bind, ret. rewrite send_response_not_modified, end_headers_run.
      rewrite !pushed_pushed. same_state.
    + unfold ret. rewrite Hfull. same_state.
Qed.

End Runs.

(** ** Routing *)

Section Routing.

Variable E : Env.
Variable self : request.

Lemma error_body_not_empty (code : Z) (message : pystr) :
  is_empty (error_body code message) = false.
Proof. reflexivity. Qed.

(** [send_error] with a message that fits ISO-8859-1, for the codes that
    carry a page. *)
Lemma send_error_run (code : Z) (message : pystr) (st : hstate) :
  is_latin1 message = true ->
  (200 <=? code)%Z && negb ((code =? 204)%Z || (code =? 205)%Z || (code =? 304)%Z) = true ->
  send_error' E self code message st
  = (Ret tt,
     {| headers_buffer := [];
        wfile := wfile st ++ map Head (headers_buffer st) ++ error_wire E self code message;
        rfile := rfile st; fs_log := fs_log st; sent := sent st |}).
Proof.
  intros Hm Hcode. unfold send_error', send_error.
  fold (send_response' E). rewrite Hcode. fold (error_body code message).
  unfold bind, ret. rewrite (send_response_run E code message st Hm).
  repeat rewrite send_header_run by first [apply is_latin1_lit | apply is_latin1_str_of_N].
  rewrite end_headers_run, !pushed_pushed. unfold error_wire.
  rewrite error_body_not_empty.
  destruct (str_eqb (self_command self) (lit "HEAD")); cbn [negb andb]; same_state.
Qed.

(** A message that does not fit ISO-8859-1 makes [send_error] raise before
    anything is buffered. *)
Lemma send_error_unencodable (code : Z) (message : pystr) (st : hstate) :
  is_latin1 message = false ->
  exists e, send_error' E self code message st = (Raise e, st).
Proof.
  intros Hm. unfold send_error', send_error, send_response, send_response_only, bind.
  unfold encode_line.
  destruct (latin1_error_some
              (protocol_version ++ lit " " ++ str_of_Z code ++ lit " " ++ message ++ crlf) 0)
    as [e He].
  { rewrite !is_latin1_app, Hm. now rewrite !andb_false_r. }
  rewrite He. now exists e.
Qed.

Lemma api_is_not_status (p : pystr) :
  startswith p (lit "/api") = true -> str_eqb p (lit "/_status") = false.
Proof.
  intros H. destruct (str_eqb p (lit "/_status")) eqn:Heq; [|reflexivity].
  apply str_eqb_eq in Heq. subst p. discriminate H.
Qed.

Lemma do_GET_status (head_only : bool) (st : hstate) :
  str_eqb (self_path self) (lit "/_status") = true ->
  do_GET E self head_only st = try_except (_handle_status E) (internal_error E self) st.
Proof. intros H. unfold do_GET. now rewrite H. Qed.

Lemma do_GET_proxy (head_only : bool) (st : hstate) :
  startswith (self_path self) (lit "/api") = true ->
  do_GET E self head_only st
  = try_except (_handle_proxy E self) (internal_error E self) st.
Proof. intros H. unfold do_GET. now rewrite (api_is_not_status _ H), H. Qed.

(** The static branch of [do_GET], once the path is decoded. *)
Lemma do_GET_static (head_only : bool) (decoded : pystr) (st : hstate) :
  static_route self = true ->
  decoded_path E self = Ret decoded ->
  do_GET E self head_only st
  = try_except
      (fun st0 =>
         let n := normalized_path decoded in
         if startswith n (lit "..") then send_error' E self 403 (lit "Forbidden") st0
         else match resolved_file E n with
              | Some file => _serve_static E self file head_only (logged (lookups E n) st0)
              | None => send_error' E self 404 (lit "Not Found") (logged (lookups E n) st0)
              end)
      (internal_error E self) st.
Proof.
  intros Hroute Hdec. unfold static_route in Hroute.
  apply andb_true_iff in Hroute as [H1 H2]. apply negb_true_iff in H1, H2.
  unfold do_GET. rewrite H1, H2. unfold decoded_path in Hdec.
  unfold try_except. f_equal.
  destruct (UrlParse.urlparse_path (check_bracketed_netloc E) (self_path self))
    as [p|e]; [|discriminate]. injection Hdec as <-.
  unfold bind at 1. cbn [lift].
  fold (normalized_path (UrlParse.unquote (lstrip (N.eqb (ch "/")) p))).
  set (n := normalized_path _). cbn zeta.
  destruct (startswith n (lit "..")); [reflexivity|].
  unfold resolved_file, lookups, target, fallback, isdir, exists_, bind, log_fs, ret, logged.
  cbn [headers_buffer wfile rfile fs_log sent].
  destruct (os_path_isdir E (PosixPath.join (PUBLIC_DIR E) n));
    (destruct (os_path_exists E _);
     [|cbn [headers_buffer wfile rfile fs_log sent];
       destruct (os_path_exists E (PosixPath.join (PUBLIC_DIR E) (lit "index.html")))]);
    rewrite <- ?app_assoc; reflexivity.
Qed.

(** A request that resolves to a readable file writes [static_wire]. *)
Lemma do_GET_serves (head_only : bool) (file : pystr) (data : bytes) (mtime : Z)
      (st : hstate) :
  serves E self file -> readable E file data mtime ->
  exists calls,
    do_GET E self head_only st
    = (Ret tt,
       {| headers_buffer := [];
          wfile := wfile st ++ map Head (headers_buffer st)
                   ++ static_wire E self file head_only data mtime;
          rfile := rfile st;
          fs_log := fs_log st ++ calls ++ [OpenRead file; Stat file];
          sent := sent st |}).
Proof.
  intros (Hroute & decoded & Hdec & Hdots & Hres) Hread.
  exists (lookups E (normalized_path decoded)).
  rewrite (do_GET_static head_only decoded st Hroute Hdec).
  unfold try_except. cbn zeta. rewrite Hdots, Hres.
  rewrite (serve_static_run E self file head_only data mtime _ Hread).
  same_state.
Qed.

(** A normalized path that begins with two dots is refused with 403 before
    any file-system call. *)
Lemma do_GET_forbidden (head_only : bool) (decoded : pystr) (st : hstate) :
  static_route self = true ->
  decoded_path E self = Ret decoded ->
  startswith (normalized_path decoded) (lit "..") = true ->
  do_GET E self head_only st
  = (Ret tt,
     {| headers_buffer := [];
        wfile := wfile st ++ map Head (headers_buffer st)
                 ++ error_wire E self 403 (lit "Forbidden");
        rfile := rfile st; fs_log := fs_log st; sent := sent st |}).
Proof.
  intros Hroute Hdec Hdots.
  rewrite (do_GET_static head_only decoded st Hroute Hdec).
  unfold try_except. cbn zeta. rewrite Hdots.
  now rewrite send_error_run by reflexivity.
Qed.


(** Reading the file, its modification time or the date of that time fails:
    the handler answers 500 with the text of the exception and raises it
    again. *)
Lemma do_GET_static_failure (head_only : bool) (file : pystr) (e : exn) (st : hstate) :
  serves E self file ->
  static_failure E file = Some e ->
  is_latin1 (exn_text e) = true ->
  exists calls,
    do_GET E self head_only st
    = (Raise e,
       {| headers_buffer := [];
          wfile := wfile st ++ map Head (headers_buffer st)
                   ++ error_wire E self 500 (lit "Server error: " ++ exn_text e);
          rfile := rfile st;
          fs_log := fs_log st ++ calls;
          sent := sent st |}).
Proof.
  intros (Hroute & decoded & Hdec & Hdots & Hres) Hfail Hlatin.
  assert (Hmsg : is_latin1 (lit "Server error: " ++ exn_text e) = true)
    by now rewrite is_latin1_app, is_latin1_lit, Hlatin.
  rewrite (do_GET_static head_only decoded st Hroute Hdec).
  unfold try_except. cbn zeta. rewrite Hdots, Hres.
  unfold static_failure in Hfail.
  unfold _serve_static, read_file_bytes, stat_mtime.
  unfold bind at 1. unfold bind at 1. cbn [log_fs lift].
  destruct (open_read E file) as [data|e'].
  - unfold bind at 1. unfold bind at 1. cbn [log_fs lift].
    destruct (os_stat_mtime E file) as [t|e'].
    + unfold bind at 1. cbn [lift].
      destruct (fromtimestamp t) as [dt|e']; [discriminate|]. injection Hfail as ->.
      unfold internal_error, bind, raise.
      rewrite send_error_run by (exact Hmsg || reflexivity).
      eexists. f_equal. unfold logged. cbn [headers_buffer wfile rfile fs_log sent].
      rewrite <- !app_assoc. reflexivity.
    + injection Hfail as ->. unfold internal_error, bind, raise.
      rewrite send_error_run by (exact Hmsg || reflexivity).
      eexists. f_equal. unfold logged. cbn [headers_buffer wfile rfile fs_log sent].
      rewrite <- !app_assoc. reflexivity.
  - injection Hfail as ->. unfold internal_error, bind, raise.
    rewrite send_error_run by (exact Hmsg || reflexivity).
    eexists. f_equal. unfold logged. cbn [headers_buffer wfile rfile fs_log sent].
    rewrite <- !app_assoc. reflexivity.
Qed.

(** The request target cannot be parsed: 500 as well. *)
Lemma do_GET_parse_failure (head_only : bool) (e : exn) (st : hstate) :
  static_route self = true ->
  decoded_path E self = Raise e ->
  is_latin1 (exn_text e) = true ->
  do_GET E self head_only st
  = (Raise e,
     {| headers_buffer := [];
        wfile := wfile st ++ map Head (headers_buffer st)
                 ++ error_wire E self 500 (lit "Server error: " ++ exn_text e);
        rfile := rfile st; fs_log := fs_log st; sent := sent st |}).
Proof.
  intros Hroute Hdec Hlatin. unfold static_route in Hroute.
  apply andb_true_iff in Hroute as [H1 H2]. apply negb_true_iff in H1, H2.
  unfold do_GET. rewrite H1, H2. unfold decoded_path in Hdec.
  unfold try_except, bind at 1, lift.
  destruct (UrlParse.urlparse_path (check_bracketed_netloc E) (self_path self))
    as [p|e']; [discriminate|]. injection Hdec as ->.
  unfold internal_error, bind, raise.
  rewrite send_error_run
    by (reflexivity || now rewrite is_latin1_app, is_latin1_lit, Hlatin).
  reflexivity.
Qed.

End Routing.

(** ** What a client reads from a static response *)

Section StaticResponse.

Variable E : Env.

Lemma head_lines_app (ls : list hline) (rest : list wire) :
  forallb not_blank ls = true ->
  head_lines (map Head (ls ++ [BlankLine]) ++ rest) = ls.
Proof.
  induction ls as [|l ls IH]; intros H; [reflexivity|].
  cbn [forallb] in H. apply andb_true_iff in H as [Hl Hls].
  cbn [map app head_lines]. destruct l; try discriminate; now rewrite IH.
Qed.

Lemma after_head_app (ls : list hline) (rest : list wire) :
  forallb not_blank ls = true ->
  after_head (map Head (ls ++ [BlankLine]) ++ rest) = rest.
Proof.
  induction ls as [|l ls IH]; intros H; [reflexivity|].
  cbn [forallb] in H. apply andb_true_iff in H as [Hl Hls].
  cbn [map app after_head]. destruct l; try discriminate; now rewrite IH.
Qed.

Lemma header_values_app (name : pystr) (a b : list (pystr * pystr)) :
  header_values name (a ++ b) = header_values name a ++ header_values name b.
Proof. unfold header_values. now rewrite filter_app, map_app. Qed.

Lemma header_fields_app (a b : list hline) :
  header_fields (a ++ b) = header_fields a ++ header_fields b.
Proof. apply flat_map_app. Qed.

Variable self : request.
Variable file : pystr.
Variable head_only : bool.
Variable data : bytes.
Variable mtime : Z.

Lemma static_lines_not_blank :
  forallb not_blank (static_head E file data mtime ++ static_extra E self file data mtime)
  = true.
Proof.
  rewrite forallb_app. unfold static_extra.
  destruct (revalidated E self data mtime); [reflexivity|].
  now destruct (should_gzip E self file).
Qed.

Lemma static_wire_head :
  head_lines (static_wire E self file head_only data mtime)
  = static_head E file data mtime ++ static_extra E self file data mtime.
Proof.
  unfold static_wire. rewrite app_assoc. apply head_lines_app, static_lines_not_blank.
Qed.

Lemma static_wire_status :
  response_status (static_wire E self file head_only data mtime) = Some 200%Z.
Proof. reflexivity. Qed.

Lemma static_wire_body :
  response_body (static_wire E self file head_only data mtime)
  = if revalidated E self data mtime || head_only then []
    else static_body E self file data.
Proof.
  unfold response_body, static_wire. rewrite app_assoc.
  rewrite after_head_app by apply static_lines_not_blank.
  destruct (revalidated E self data mtime || head_only); [reflexivity|].
  cbn [flat_map]. apply app_nil_r.
Qed.

Lemma static_wire_headers (name : pystr) :
  header_values name (response_headers (static_wire E self file head_only data mtime))
  = header_values name (header_fields (static_head E file data mtime))
    ++ header_values name (header_fields (static_extra E self file data mtime)).
Proof.
  unfold response_headers. now rewrite static_wire_head, header_fields_app, header_values_app.
Qed.

(** The validators and the caching headers come from [static_head] alone. *)
Lemma static_wire_etag :
  header_values (lit "ETag")
                (response_headers (static_wire E self file head_only data mtime))
  = [generate_etag_bytes data].
Proof.
  rewrite static_wire_headers. unfold static_extra.
  destruct (revalidated E self data mtime); [reflexivity|].
  now destruct (should_gzip E self file).
Qed.

Lemma static_wire_last_modified :
  header_values (lit "Last-Modified")
                (response_headers (static_wire E self file head_only data mtime))
  = [format_datetime (Aware mtime)].
Proof.
  rewrite static_wire_headers. unfold static_extra.
  destruct (revalidated E self data mtime); [reflexivity|].
  now destruct (should_gzip E self file).
Qed.

Lemma static_wire_cache_control :
  header_values (lit "Cache-Control")
                (response_headers (static_wire E self file head_only data mtime))
  = [cache_control file].
Proof.
  rewrite static_wire_headers. unfold static_extra.
  destruct (revalidated E self data mtime); [reflexivity|].
  now destruct (should_gzip E self file).
Qed.

Lemma static_wire_vary :
  header_values (lit "Vary")
                (response_headers (static_wire E self file head_only data mtime))
  = [lit "Accept-Encoding"].
Proof.
  rewrite static_wire_headers. unfold static_extra.
  destruct (revalidated E self data mtime); [reflexivity|].
  now destruct (should_gzip E self file).
Qed.

Lemma static_wire_content_type :
  header_values (lit "Content-Type")
                (response_headers (static_wire E self file head_only data mtime))
  = [content_type (served_mime E file)].
Proof.
  rewrite static_wire_headers. unfold static_extra.
  destruct (revalidated E self data mtime); [reflexivity|].
  now destruct (should_gzip E self file).
Qed.

Lemma static_wire_content_length :
  header_values (lit "Content-Length")
                (response_headers (static_wire E self file head_only data mtime))
  = if revalidated E self data mtime then []
    else [str_of_N (N.of_nat (length (static_body E self file data)))].
Proof.
  rewrite static_wire_headers. unfold static_extra.
  destruct (revalidated E self data mtime); [reflexivity|].
  now destruct (should_gzip E self file).
Qed.

Lemma static_wire_content_encoding :
  header_values (lit "Content-Encoding")
                (response_headers (static_wire E self file head_only data mtime))
  = if negb (revalidated E self data mtime) && should_gzip E self file
    then [lit "gzip"] else [].
Proof.
  rewrite static_wire_headers. unfold static_extra.
  destruct (revalidated E self data mtime); [reflexivity|].
  now destruct (should_gzip E self file).
Qed.

(** A request that resolves to a readable file is answered with
    [static_wire], and the handler returns. *)
Lemma response_serves :
  serves E self file -> readable E file data mtime ->
  response E self head_only = static_wire E self file head_only data mtime
  /\ outcome E self head_only = Ret tt.
Proof.
  intros Hs Hr. unfold response, outcome.
  destruct (do_GET_serves E self head_only file data mtime (start self) Hs Hr)
    as [calls ->]. now split.
Qed.

End StaticResponse.

(** ** Requests that differ in Accept-Encoding only *)

Section AcceptEncoding.

Variable E : Env.

Lemma headers_get_without (hs : list (string * string)) (name : pystr) :
  str_eqb (lower name) (lit "accept-encoding") = false ->
  headers_get (without_accept_encoding hs) name = headers_get hs name.
Proof.
  intros Hname. unfold headers_get, without_accept_encoding.
  induction hs as [|[k v] hs IH]; [reflexivity|].
  cbn [filter find fst].
  destruct (str_eqb (lower (lit k)) (lit "accept-encoding")) eqn:Hk; cbn [negb].
  - apply str_eqb_eq in Hk.
    destruct (str_eqb (lower (lit k)) (lower name)) eqn:Hkn; [|exact IH].
    apply str_eqb_eq in Hkn. rewrite <- Hkn, Hk in Hname. discriminate.
  - cbn [find fst]. destruct (str_eqb (lower (lit k)) (lower name)); [reflexivity|exact IH].
Qed.

Lemma headers_get_differ (a b : request) (name : pystr) :
  differ_only_in_accept_encoding a b ->
  str_eqb (lower name) (lit "accept-encoding") = false ->
  headers_get (headers a) name = headers_get (headers b) name.
Proof.
  intros (_ & _ & _ & H) Hname.
  rewrite <- (headers_get_without (headers a)), <- (headers_get_without (headers b))
    by exact Hname.
  now rewrite H.
Qed.

Lemma revalidated_differ (a b : request) (data : bytes) (mtime : Z) :
  differ_only_in_accept_encoding a b ->
  revalidated E a data mtime = revalidated E b data mtime.
Proof.
  intros H. unfold revalidated, etag_matches, not_modified_since, modified_since.
  now rewrite !(headers_get_differ a b _ H) by reflexivity.
Qed.

Lemma serves_differ (a b : request) (file : pystr) :
  differ_only_in_accept_encoding a b -> serves E a file -> serves E b file.
Proof.
  intros (_ & Hpath & _) H. unfold serves, static_route, decoded_path, self_path in *.
  now rewrite <- Hpath.
Qed.

End AcceptEncoding.

(** ** Static responses: content type, validators, compression, fallback *)

Lemma lit_inj (a b : string) : lit a = lit b -> a = b.
Proof.
  unfold lit. revert b; induction a as [|x a IH]; intros [|y b] H;
    try discriminate; [reflexivity|].
  cbn [list_ascii_of_string map] in H. injection H as Hxy Hab.
  f_equal; [|now apply IH].
  rewrite <- (ascii_N_embedding x), <- (ascii_N_embedding y). now rewrite Hxy.
Qed.

Lemma lit_not_empty (m : string) : m <> EmptyString -> is_empty (lit m) = false.
Proof. destruct m; [congruence|reflexivity]. Qed.

(** The deployment of [Demo] serves its style sheet and its index page. *)
Lemma demo_serves_style (hs : list (string * string)) :
  serves Demo.env (Demo.get "/style.css" hs) Demo.style_css.
Proof.
  split; [reflexivity|]. exists (lit "style.css"). repeat split; vm_compute; reflexivity.
Qed.

Lemma demo_readable_style :
  readable Demo.env Demo.style_css Demo.style_data Demo.style_mtime.
Proof. repeat split; try (vm_compute; reflexivity); vm_compute; discriminate. Qed.

Lemma demo_readable_index :
  readable Demo.env Demo.index_html Demo.index_data Demo.index_mtime.
Proof. repeat split; try (vm_compute; reflexivity); vm_compute; discriminate. Qed.

(** C10: the Content-Type of a static response is the guessed MIME type
    followed by [; charset=utf-8] when the type starts with [text/] or is
    [application/json], the bare MIME type otherwise (application/javascript
    and the [+xml] types included), and [application/octet-stream] when no
    type can be guessed. *)
Theorem C10_content_type_header (E : Env) (self : request) (head_only : bool)
        (file : pystr) (data : bytes) (mtime : Z) :
  serves E self file -> readable E file data mtime ->
  let sent_type :=
    header_values (lit "Content-Type") (response_headers (response E self head_only)) in
  (forall m, guess_type E file = Some m ->
             startswith (lit m) (lit "text/") = true \/ m = "application/json"%string ->
             sent_type = [lit m ++ lit "; charset=utf-8"])
  /\ (forall m, guess_type E file = Some m -> m <> EmptyString ->
                startswith (lit m) (lit "text/") = false ->
                m <> "application/json"%string ->
                sent_type = [lit m])
  /\ (guess_type E file = Some "application/javascript"%string ->
      sent_type = [lit "application/javascript"])
  /\ (forall m, guess_type E file = Some m ->
                endswith (lit m) (lit "+xml") = true ->
                startswith (lit m) (lit "text/") = false ->
                sent_type = [lit m])
  /\ (guess_type E file = None \/ guess_type E file = Some EmptyString ->
      sent_type = [lit "application/octet-stream"]).
Proof.
  intros Hs Hr sent_type. subst sent_type.
  destruct (response_serves E self file head_only data mtime Hs Hr) as [-> _].
  rewrite static_wire_content_type. unfold content_type, served_mime.
  assert (Hbare : forall m, guess_type E file = Some m -> m <> EmptyString ->
            startswith (lit m) (lit "text/") = false ->
            m <> "application/json"%string ->
            [match guess_type E file with
             | Some m0 => if is_empty (lit m0) then lit "application/octet-stream" else lit m0
             | None => lit "application/octet-stream"
             end ++
             (if startswith
                   match guess_type E file with
                   | Some m0 => if is_empty (lit m0) then lit "application/octet-stream"
                                else lit m0
                   | None => lit "application/octet-stream"
                   end (lit "text/")
                 || str_eqb
                      match guess_type E file with
                      | Some m0 => if is_empty (lit m0) then lit "application/octet-stream"
                                   else lit m0
                      | None => lit "application/octet-stream"
                      end (lit "application/json")
              then lit "; charset=utf-8" else [])] = [lit m]).
  { intros m Hg Hne Htext Hjson. rewrite Hg, (lit_not_empty m Hne), Htext.
    assert (Hj : str_eqb (lit m) (lit "application/json") = false).
    { apply str_eqb_neq. intros Heq. apply Hjson. now apply lit_inj. }
    rewrite Hj. cbn [orb]. now rewrite app_nil_r. }
  repeat split.
  - intros m Hg Hm. rewrite Hg.
    assert (Hne : is_empty (lit m) = false).
    { destruct Hm as [Hm | ->]; [|reflexivity]. now destruct m. }
    rewrite Hne. destruct Hm as [-> | ->]; [reflexivity|].
    now rewrite str_eqb_refl, orb_true_r.
  - exact Hbare.
  - intros Hg. apply Hbare; [exact Hg | discriminate | reflexivity | discriminate].
  - intros m Hg Hxml Htext. apply Hbare; [exact Hg | | exact Htext |].
    + intros ->. discriminate Hxml.
    + intros ->. discriminate Hxml.
  - intros [Hg | Hg]; now rewrite Hg.
Qed.

Lemma C10_content_type_header_witness :
  (serves Demo.env (Demo.get "/style.css" []) Demo.style_css
   /\ readable Demo.env Demo.style_css Demo.style_data Demo.style_mtime
   /\ guess_type Demo.env Demo.style_css = Some "text/css"%string
   /\ startswith (lit "text/css") (lit "text/") = true
   /\ header_values (lit "Content-Type")
                    (response_headers (response Demo.env (Demo.get "/style.css" []) false))
      = [lit "text/css" ++ lit "; charset=utf-8"])
  /\ (serves Demo.env (Demo.get "/app.js" []) (lit "/srv/www/public/app.js")
      /\ readable Demo.env (lit "/srv/www/public/app.js") (blit "go()") Demo.style_mtime
      /\ guess_type Demo.env (lit "/srv/www/public/app.js")
         = Some "application/javascript"%string
      /\ header_values (lit "Content-Type")
                       (response_headers (response Demo.env (Demo.get "/app.js" []) false))
         = [lit "application/javascript"])
  /\ (serves Demo.env (Demo.get "/logo.svg" []) (lit "/srv/www/public/logo.svg")
      /\ readable Demo.env (lit "/srv/www/public/logo.svg") (blit "<svg/>") Demo.style_mtime
      /\ guess_type Demo.env (lit "/srv/www/public/logo.svg") = Some "image/svg+xml"%string
      /\ endswith (lit "image/svg+xml") (lit "+xml") = true
      /\ startswith (lit "image/svg+xml") (lit "text/") = false
      /\ header_values (lit "Content-Type")
                       (response_headers (response Demo.env (Demo.get "/logo.svg" []) false))
         = [lit "image/svg+xml"])
  /\ (serves Demo.env (Demo.get "/LICENSE" []) (lit "/srv/www/public/LICENSE")
      /\ readable Demo.env (lit "/srv/www/public/LICENSE") (blit "MIT") Demo.style_mtime
      /\ guess_type Demo.env (lit "/srv/www/public/LICENSE") = None
      /\ header_values (lit "Content-Type")
                       (response_headers (response Demo.env (Demo.get "/LICENSE" []) false))
         = [lit "application/octet-stream"]).
Proof.
  pose proof (demo_serves_style []) as Hs. pose proof demo_readable_style as Hr.
  assert (Hs2 : serves Demo.env (Demo.get "/app.js" []) (lit "/srv/www/public/app.js")).
  { split; [reflexivity|]. exists (lit "app.js"). repeat split; vm_compute; reflexivity. }
  assert (Hr2 : readable Demo.env (lit "/srv/www/public/app.js") (blit "go()")
                         Demo.style_mtime).
  { repeat split; try (vm_compute; reflexivity); vm_compute; discriminate. }
  assert (Hs3 : serves Demo.env (Demo.get "/logo.svg" []) (lit "/srv/www/public/logo.svg")).
  { split; [reflexivity|]. exists (lit "logo.svg"). repeat split; vm_compute; reflexivity. }
  assert (Hr3 : readable Demo.env (lit "/srv/www/public/logo.svg") (blit "<svg/>")
                         Demo.style_mtime).
  { repeat split; try (vm_compute; reflexivity); vm_compute; discriminate. }
  assert (Hs4 : serves Demo.env (Demo.get "/LICENSE" []) (lit "/srv/www/public/LICENSE")).
  { split; [reflexivity|]. exists (lit "LICENSE"). repeat split; vm_compute; reflexivity. }
  assert (Hr4 : readable Demo.env (lit "/srv/www/public/LICENSE") (blit "MIT")
                         Demo.style_mtime).
  { repeat split; try (vm_compute; reflexivity); vm_compute; discriminate. }
  assert (G1 : guess_type Demo.env Demo.style_css = Some "text/css"%string)
    by (vm_compute; reflexivity).
  assert (T1 : startswith (lit "text/css") (lit "text/") = true)
    by (vm_compute; reflexivity).
  assert (G2 : guess_type Demo.env (lit "/srv/www/public/app.js")
               = Some "application/javascript"%string) by (vm_compute; reflexivity).
  assert (G3 : guess_type Demo.env (lit "/srv/www/public/logo.svg")
               = Some "image/svg+xml"%string) by (vm_compute; reflexivity).
  assert (X3 : endswith (lit "image/svg+xml") (lit "+xml") = true)
    by (vm_compute; reflexivity).
  assert (T3 : startswith (lit "image/svg+xml") (lit "text/") = false)
    by (vm_compute; reflexivity).
  assert (G4 : guess_type Demo.env (lit "/srv/www/public/LICENSE") = None)
    by (vm_compute; reflexivity).
  destruct (C10_content_type_header Demo.env (Demo.get "/style.css" []) false
              Demo.style_css Demo.style_data Demo.style_mtime Hs Hr)
    as (Htext & _).
  destruct (C10_content_type_header Demo.env (Demo.get "/app.js" []) false
              (lit "/srv/www/public/app.js") (blit "go()") Demo.style_mtime Hs2 Hr2)
    as (_ & _ & Hjs & _).
  destruct (C10_content_type_header Demo.env (Demo.get "/logo.svg" []) false
              (lit "/srv/www/public/logo.svg") (blit "<svg/>") Demo.style_mtime Hs3 Hr3)
    as (_ & _ & _ & Hxml & _).
  destruct (C10_content_type_header Demo.env (Demo.get "/LICENSE" []) false
              (lit "/srv/www/public/LICENSE") (blit "MIT") Demo.style_mtime Hs4 Hr4)
    as (_ & _ & _ & _ & Hnone).
  exact (conj (conj Hs (conj Hr (conj G1 (conj T1 (Htext _ G1 (or_introl T1))))))
        (conj (conj Hs2 (conj Hr2 (conj G2 (Hjs G2))))
        (conj (conj Hs3 (conj Hr3 (conj G3 (conj X3 (conj T3 (Hxml _ G3 X3 T3))))))
              (conj Hs4 (conj Hr4 (conj G4 (Hnone (or_introl G4)))))))).
Defined.

(** C6: two requests for the same static file that differ only in their
    Accept-Encoding header receive the same ETag and the same Last-Modified:
    the ETag is the SHA-1 of the file bytes as read, whatever the
    compression decision. *)
Theorem C6_validators_ignore_accept_encoding (E : Env) (a b : request)
        (head_only : bool) (file : pystr) (data : bytes) (mtime : Z) :
  serves E a file -> readable E file data mtime ->
  differ_only_in_accept_encoding a b ->
  header_values (lit "ETag") (response_headers (response E a head_only))
  = [Sha1.hexdigest data]
  /\ header_values (lit "ETag") (response_headers (response E b head_only))
     = [Sha1.hexdigest data]
  /\ header_values (lit "Last-Modified") (response_headers (response E a head_only))
     = header_values (lit "Last-Modified") (response_headers (response E b head_only)).
Proof.
  intros Ha Hr Hdiff. pose proof (serves_differ E a b file Hdiff Ha) as Hb.
  destruct (response_serves E a file head_only data mtime Ha Hr) as [-> _].
  destruct (response_serves E b file head_only data mtime Hb Hr) as [-> _].
  rewrite !static_wire_etag, !static_wire_last_modified. now repeat split.
Qed.

Lemma C6_validators_ignore_accept_encoding_witness :
  let a := Demo.get "/style.css" [("Accept-Encoding", "gzip, br")]%string in
  let b := Demo.get "/style.css" [("accept-encoding", "identity")]%string in
  serves Demo.env a Demo.style_css
  /\ readable Demo.env Demo.style_css Demo.style_data Demo.style_mtime
  /\ differ_only_in_accept_encoding a b
  /\ header_values (lit "ETag") (response_headers (response Demo.env a false))
     = [Sha1.hexdigest Demo.style_data]
  /\ header_values (lit "ETag") (response_headers (response Demo.env b false))
     = [Sha1.hexdigest Demo.style_data]
  /\ header_values (lit "Last-Modified") (response_headers (response Demo.env a false))
     = header_values (lit "Last-Modified") (response_headers (response Demo.env b false)).
Proof.
  intros a b.
  pose proof (demo_serves_style [("Accept-Encoding", "gzip, br")]%string) as Hs.
  pose proof demo_readable_style as Hr.
  assert (Hd : differ_only_in_accept_encoding a b) by (repeat split).
  exact (conj Hs (conj Hr (conj Hd
           (C6_validators_ignore_accept_encoding Demo.env a b false Demo.style_css
              Demo.style_data Demo.style_mtime Hs Hr Hd)))).
Defined.

(** C7: for a compressible type, the body sent to a client whose
    Accept-Encoding lists gzip decompresses to exactly the body sent for the
    same request without gzip, and its Content-Length is the length of the
    compressed body.  [gunzip] is any decoder that inverts the compressor on
    the bytes of this file. *)
Theorem C7_gzip_round_trip (E : Env) (gunzip : bytes -> option bytes)
        (zipped plain : request) (file : pystr) (data : bytes) (mtime : Z) :
  serves E zipped file -> readable E file data mtime ->
  differ_only_in_accept_encoding zipped plain ->
  accepts_gzip zipped = true -> accepts_gzip plain = false ->
  is_compressible (served_mime E file) = true ->
  revalidated E zipped data mtime = false ->
  gunzip (gzip_compress E data) = Some data ->
  gunzip (response_body (response E zipped false))
  = Some (response_body (response E plain false))
  /\ header_values (lit "Content-Length") (response_headers (response E zipped false))
     = [str_of_N (N.of_nat (length (response_body (response E zipped false))))]
  /\ header_values (lit "Content-Encoding") (response_headers (response E zipped false))
     = [lit "gzip"]
  /\ header_values (lit "Content-Encoding") (response_headers (response E plain false))
     = [].
Proof.
  intros Hz Hr Hdiff Hgz Hplain Hmime Hfull Hcodec.
  pose proof (serves_differ E zipped plain file Hdiff Hz) as Hp.
  pose proof (revalidated_differ E zipped plain data mtime Hdiff) as Hsame.
  rewrite Hfull in Hsame. symmetry in Hsame.
  destruct (response_serves E zipped file false data mtime Hz Hr) as [-> _].
  destruct (response_serves E plain file false data mtime Hp Hr) as [-> _].
  rewrite !static_wire_body, !static_wire_content_length, !static_wire_content_encoding.
  rewrite Hfull, Hsame. unfold static_body.
  assert (Hzip : should_gzip E zipped file = true).
  { unfold should_gzip. fold (accepts_gzip zipped). now rewrite Hgz, Hmime. }
  assert (Hid : should_gzip E plain file = false).
  { unfold should_gzip. fold (accepts_gzip plain). now rewrite Hplain. }
  rewrite Hzip, Hid. cbn [orb negb andb]. now repeat split.
Qed.

Lemma C7_gzip_round_trip_witness :
  let zipped := Demo.get "/style.css" [("Accept-Encoding", "gzip, br")]%string in
  let plain := Demo.get "/style.css" [] in
  serves Demo.env zipped Demo.style_css
  /\ readable Demo.env Demo.style_css Demo.style_data Demo.style_mtime
  /\ differ_only_in_accept_encoding zipped plain
  /\ accepts_gzip zipped = true /\ accepts_gzip plain = false
  /\ is_compressible (served_mime Demo.env Demo.style_css) = true
  /\ revalidated Demo.env zipped Demo.style_data Demo.style_mtime = false
  /\ Gzip.decompress (gzip_compress Demo.env Demo.style_data) = Some Demo.style_data
  /\ Gzip.decompress (response_body (response Demo.env zipped false))
     = Some (response_body (response Demo.env plain false)).
Proof.
  intros zipped plain.
  pose proof (demo_serves_style [("Accept-Encoding", "gzip, br")]%string) as Hs.
  pose proof demo_readable_style as Hr.
  assert (Hd : differ_only_in_accept_encoding zipped plain) by (repeat split).
  assert (H1 : accepts_gzip zipped = true) by (vm_compute; reflexivity).
  assert (H2 : accepts_gzip plain = false) by (vm_compute; reflexivity).
  assert (H3 : is_compressible (served_mime Demo.env Demo.style_css) = true)
    by (vm_compute; reflexivity).
  assert (H4 : revalidated Demo.env zipped Demo.style_data Demo.style_mtime = false)
    by (vm_compute; reflexivity).
  assert (H5 : Gzip.decompress (gzip_compress Demo.env Demo.style_data)
               = Some Demo.style_data) by (vm_compute; reflexivity).
  exact (conj Hs (conj Hr (conj Hd (conj H1 (conj H2 (conj H3 (conj H4 (conj H5
           (proj1 (C7_gzip_round_trip Demo.env Gzip.decompress zipped plain
                     Demo.style_css Demo.style_data Demo.style_mtime
                     Hs Hr Hd H1 H2 H3 H4 H5)))))))))).
Defined.

Lemma fallback_is_html (root : pystr) :
  endswith (PosixPath.join root (lit "index.html")) (lit ".html") = true.
Proof.
  unfold PosixPath.join.
  change (startswith (lit "index.html") [PosixPath.sep]) with false. cbv iota.
  destruct (is_empty root || endswith root [PosixPath.sep]);
    unfold endswith; rewrite rev_app_distr; reflexivity.
Qed.




(** ** Frames: what the handler leaves alone *)

Create HintDb keeps.

Section Frames.

Variable R : hstate -> hstate -> Prop.
Hypothesis R_refl : forall st, R st st.
Hypothesis R_trans : forall a b c, R a b -> R b c -> R a c.
Hypothesis R_buffer : forall l st, R st (snd (buffer_append l st)).
Hypothesis R_flush : forall st, R st (snd (flush_headers st)).
Hypothesis R_write : forall b st, R st (snd (wfile_write b st)).

Lemma keeps_ret {A} (a : A) : keeps R (ret a).
Proof. intros st; apply R_refl. Qed.

Lemma keeps_raise {A} (e : exn) : keeps R (@raise A e).
Proof. intros st; apply R_refl. Qed.

Lemma keeps_lift {A} (r : result A) : keeps R (lift r).
Proof. intros st; apply R_refl. Qed.

Lemma keeps_bind {A B} (m : M A) (k : A -> M B) :
  keeps R m -> (forall a, keeps R (k a)) -> keeps R (bind m k).
Proof.
  intros Hm Hk st. unfold bind. specialize (Hm st).
  destruct (m st) as [[a|e] st']; cbn [snd] in *; [|exact Hm].
  eapply R_trans; [exact Hm | apply Hk].
Qed.

Lemma keeps_try_except {A} (m : M A) (handler : exn -> M A) :
  keeps R m -> (forall e, keeps R (handler e)) -> keeps R (try_except m handler).
Proof.
  intros Hm Hh st. unfold try_except. specialize (Hm st).
  destruct (m st) as [[a|e] st']; cbn [snd] in *; [exact Hm|].
  eapply R_trans; [exact Hm | apply Hh].
Qed.

Lemma keeps_buffer_append (l : hline) : keeps R (buffer_append l).
Proof. intros st; apply R_buffer. Qed.

Lemma keeps_flush_headers : keeps R flush_headers.
Proof. intros st; apply R_flush. Qed.

Lemma keeps_wfile_write (b : bytes) : keeps R (wfile_write b).
Proof. intros st; apply R_write. Qed.

Lemma keeps_encode_line (text : pystr) (l : hline) : keeps R (encode_line text l).
Proof.
  unfold encode_line. destruct (latin1_error 0 text);
    [apply keeps_raise | apply keeps_buffer_append].
Qed.

Hint Resolve keeps_ret keeps_raise keeps_lift keeps_buffer_append keeps_flush_headers
     keeps_wfile_write keeps_encode_line : keeps.

Ltac keeps_steps :=
  repeat first
    [ apply keeps_bind
    | apply keeps_try_except
    | progress intros
    | solve [auto with keeps]
    | match goal with
      | |- keeps _ (if ?b then _ else _) => destruct b
      | |- keeps _ (match ?x with _ => _ end) => destruct x
      end ].

Lemma keeps_send_header (k v : pystr) : keeps R (send_header k v).
Proof. unfold send_header. auto with keeps. Qed.

Lemma keeps_send_response_only (code : Z) (m : option pystr) :
  keeps R (send_response_only code m).
Proof. unfold send_response_only. auto with keeps. Qed.

Lemma keeps_end_headers : keeps R end_headers.
Proof. unfold end_headers. keeps_steps. Qed.

Hint Resolve keeps_send_header keeps_send_response_only keeps_end_headers : keeps.

Lemma keeps_send_response (vs ds : string) (code : Z) (m : option pystr) :
  keeps R (send_response vs ds code m).
Proof. unfold send_response. keeps_steps. Qed.

Hint Resolve keeps_send_response : keeps.

Lemma keeps_send_error (vs ds : string) (cmd : pystr) (code : Z) (m : pystr) :
  keeps R (send_error vs ds cmd code m).
Proof. unfold send_error. keeps_steps. Qed.

Hint Resolve keeps_send_error : keeps.

Variable E : Env.
Variable self : request.

Lemma keeps_internal_error (e : exn) : keeps R (internal_error E self e).
Proof. unfold internal_error, send_error'. keeps_steps. Qed.

Lemma keeps_bad_gateway (e : exn) : keeps R (bad_gateway E self e).
Proof. unfold bad_gateway, send_error'. keeps_steps. Qed.

Lemma keeps_relay_headers (hs : list (string * string)) : keeps R (relay_headers hs).
Proof.
  induction hs as [|[k v] hs IH]; cbn [relay_headers]; [auto with keeps|].
  apply keeps_bind; [|intros; exact IH]. destruct (hop_by_hop (lit k)); auto with keeps.
Qed.

Lemma keeps_stream_response (reads : list bytes) (failure : option exn) :
  keeps R (stream_response reads failure).
Proof.
  induction reads as [|chunk reads IH]; cbn [stream_response].
  - destruct failure; auto with keeps.
  - destruct (is_empty chunk); [auto with keeps|].
    apply keeps_bind; [auto with keeps | intros; exact IH].
Qed.

Hint Resolve keeps_internal_error keeps_bad_gateway keeps_relay_headers
     keeps_stream_response : keeps.

(** the part of [_handle_proxy] after the request is sent *)
Lemma keeps_relay (status : Z) (reason : string) (hs : list (string * string))
      (reads : list bytes) (failure : option exn) :
  keeps R (bind (send_response' E status (Some (lit reason))) (fun _ =>
           bind (relay_headers hs) (fun _ =>
           bind (send_header (lit "Vary") (lit "Accept-Encoding")) (fun _ =>
           bind end_headers (fun _ => stream_response reads failure))))).
Proof. unfold send_response'. keeps_steps. Qed.

Lemma keeps_handle_status : keeps R (_handle_status E).
Proof. unfold _handle_status, send_response'. keeps_steps. Qed.

(** [_handle_proxy], given that logging the request and reading its body
    keep [R] *)
Lemma keeps_handle_proxy :
  (forall o, keeps R (log_sent o)) -> (forall a n, keeps R (rfile_read a n)) ->
  keeps R (_handle_proxy E self).
Proof.
  intros Hlog Hread. unfold _handle_proxy, send_response'.
  apply keeps_try_except; [|apply keeps_bad_gateway].
  repeat first
    [ apply keeps_bind
    | progress intros
    | apply Hlog | apply Hread
    | solve [auto with keeps]
    | match goal with
      | |- keeps _ (match ?x with _ => _ end) => destruct x
      end ].
Qed.

(** [_serve_static], given that its two file-system calls keep [R] *)
Lemma keeps_serve_static (full_path : pystr) (head_only : bool) :
  keeps R (log_fs (OpenRead full_path)) -> keeps R (log_fs (Stat full_path)) ->
  keeps R (_serve_static E self full_path head_only).
Proof.
  intros Hopen Hstat.
  unfold _serve_static, read_file_bytes, stat_mtime, send_response', self_headers_get.
  repeat first
    [ apply keeps_bind
    | apply keeps_try_except
    | progress intros
    | exact Hopen | exact Hstat
    | solve [auto with keeps]
    | match goal with
      | |- keeps _ (if ?b then _ else _) => destruct b
      | |- keeps _ (match ?x with _ => _ end) => destruct x
      end ].
Qed.

(** [do_GET] on a path that is not proxied, given that every file-system
    call keeps [R] *)
Lemma keeps_do_GET_unproxied (head_only : bool) :
  (forall c, keeps R (log_fs c)) ->
  startswith (self_path self) (lit "/api") = false ->
  keeps R (do_GET E self head_only).
Proof.
  intros Hlog Hapi. unfold do_GET. rewrite Hapi.
  apply keeps_try_except; [|apply keeps_internal_error].
  destruct (str_eqb (self_path self) (lit "/_status")); [apply keeps_handle_status|].
  unfold isdir, exists_, send_error'.
  repeat first
    [ apply keeps_serve_static
    | apply Hlog
    | apply keeps_bind
    | progress intros
    | progress cbv zeta
    | solve [auto with keeps]
    | match goal with
      | |- keeps _ (if ?b then _ else _) => destruct b
      | |- keeps _ (match ?x with _ => _ end) => destruct x
      end ].
Qed.

End Frames.

(** ** The proxy and the status endpoint make no file-system call *)

Section Quiet.

Variable E : Env.
Variable self : request.

Lemma same_calls_refl (st : hstate) : same_calls st st.
Proof. reflexivity. Qed.

Lemma same_calls_trans (a b c : hstate) :
  same_calls a b -> same_calls b c -> same_calls a c.
Proof. unfold same_calls. congruence. Qed.

Lemma quiet_internal_error (e : exn) : quiet (internal_error E self e).
Proof.
  apply keeps_internal_error;
    first [exact same_calls_refl | exact same_calls_trans | intros; reflexivity].
Qed.

Lemma quiet_handle_proxy : quiet (_handle_proxy E self).
Proof.
  apply keeps_handle_proxy;
    try first [exact same_calls_refl | exact same_calls_trans
              | intros ? ?; reflexivity].
  intros a n st. unfold same_calls, rfile_read.
  destruct (read_refusal a n); [reflexivity|]. now destruct (n =? -1)%Z.
Qed.

Lemma quiet_handle_status : quiet (_handle_status E).
Proof.
  apply keeps_handle_status;
    first [exact same_calls_refl | exact same_calls_trans | intros; reflexivity].
Qed.

Lemma quiet_try_except {A} (m : M A) (handler : exn -> M A) :
  quiet m -> (forall e, quiet (handler e)) -> quiet (try_except m handler).
Proof. apply keeps_try_except. exact same_calls_trans. Qed.

End Quiet.

(** ** Parsing a path followed by a query string *)

Section Query.

Local Open Scope N_scope.

Lemma lit_app (a b : string) : lit (a ++ b)%string = lit a ++ lit b.
Proof.
  unfold lit. induction a as [|x a IH]; [reflexivity|].
  cbn [String.append list_ascii_of_string map app]. f_equal. exact IH.
Qed.

Lemma filter_keeps {A} (f : A -> bool) (l : list A) :
  forallb f l = true -> filter f l = l.
Proof.
  induction l as [|x l IH]; [reflexivity|]. cbn [forallb filter]. intros H.
  apply andb_true_iff in H as [Hx Hl]. now rewrite Hx, IH.
Qed.

Lemma before_app (sep : N) (p q : pystr) :
  has_char sep p = false -> before sep (p ++ q) = p ++ before sep q.
Proof.
  unfold before. induction p as [|c p IH]; intros H; [reflexivity|].
  cbn [has_char existsb] in H. apply orb_false_iff in H as [Hc Hp].
  cbn [app split1]. rewrite (N.eqb_sym c sep), Hc. specialize (IH Hp).
  destruct (split1 sep (p ++ q)) as [[a b]|], (split1 sep q) as [[a' b']|];
    cbn [app]; congruence.
Qed.

Lemma before_here (sep : N) (q : pystr) : before sep (sep :: q) = [].
Proof. unfold before. cbn [split1]. now rewrite N.eqb_refl. Qed.

Lemma split_scheme_none (c : N) (s : pystr) :
  is_ascii_alpha c = false -> UrlParse.split_scheme (c :: s) = ([], c :: s).
Proof.
  intros Hc. unfold UrlParse.split_scheme. cbn [split1].
  destruct (c =? ch ":"); [reflexivity|].
  destruct (split1 (ch ":") s) as [[a b]|]; [|reflexivity].
  now rewrite Hc.
Qed.

(** [urlparse] drops the query string of a plain path. *)
Lemma urlparse_path_query (check : pystr -> option exn) (p q : pystr) :
  plain_path p = true ->
  UrlParse.urlparse_path check (p ++ ch "?" :: q) = Ret p.
Proof.
  intros Hp. destruct p as [|c [|d p]]; try discriminate.
  unfold plain_path in Hp.
  repeat (apply andb_true_iff in Hp as [Hp ?]).
  repeat match goal with H : negb _ = true |- _ => apply negb_true_iff in H end.
  unfold UrlParse.urlparse_path. cbv zeta. cbn [app lstrip]. rewrite Hp.
  set (keep := fun x => negb ((x =? 9) || (x =? 13) || (x =? 10))).
  assert (Hf : filter keep (c :: d :: p ++ ch "?" :: q)
               = c :: d :: p ++ ch "?" :: filter keep q).
  { change (c :: d :: p ++ ch "?" :: q) with ((c :: d :: p) ++ ch "?" :: q).
    rewrite filter_app, filter_keeps by assumption. reflexivity. }
  rewrite Hf. rewrite split_scheme_none by assumption.
  assert (Hss : startswith (c :: d :: p ++ ch "?" :: filter keep q) (lit "//") = false).
  { match goal with H : startswith (c :: d :: p) _ = false |- _ => exact H end. }
  rewrite Hss. cbv iota.
  change (c :: d :: p ++ ch "?" :: filter keep q)
    with ((c :: d :: p) ++ ch "?" :: filter keep q).
  rewrite (before_app (ch "#") (c :: d :: p) (ch "?" :: filter keep q) H1).
  change (ch "?" :: filter keep q) with ([ch "?"] ++ filter keep q).
  rewrite (before_app (ch "#") [ch "?"]) by reflexivity.
  rewrite (before_app (ch "?") (c :: d :: p)) by assumption.
  cbn [app]. rewrite before_here, app_nil_r, H.
  now rewrite andb_false_r.
Qed.

End Query.

(** ** File-system calls made along the way *)

Section Among.

Variable ok : fs_call -> bool.

Lemma calls_among_refl (st : hstate) : calls_among ok st st.
Proof. exists []. now rewrite app_nil_r. Qed.

Lemma calls_among_trans (a b c : hstate) :
  calls_among ok a b -> calls_among ok b c -> calls_among ok a c.
Proof.
  intros (x & Hx & Hokx) (y & Hy & Hoky). exists (x ++ y).
  rewrite Hy, Hx, <- app_assoc, forallb_app, Hokx, Hoky. now split.
Qed.

Lemma calls_among_logged (cs : list fs_call) (st : hstate) :
  forallb ok cs = true -> calls_among ok st (logged cs st).
Proof. intros H. now exists cs. Qed.

Lemma calls_among_log (c : fs_call) :
  ok c = true -> keeps (calls_among ok) (log_fs c).
Proof. intros H st. exists [c]. cbn. now rewrite H. Qed.

Lemma calls_among_same (st st' : hstate) :
  fs_log st' = fs_log st -> calls_among ok st st'.
Proof. intros H. exists []. now rewrite app_nil_r. Qed.

End Among.

Ltac among_frame :=
  first [ exact (calls_among_refl _) | exact (calls_among_trans _)
        | intros; apply calls_among_same; reflexivity ].

(** [do_GET] on a path that is neither the status endpoint nor proxied is
    static-file resolution under the handler's [except] clause. *)
Lemma do_GET_resolution (E : Env) (self : request) (head_only : bool) (st : hstate) :
  static_route self = true ->
  do_GET E self head_only st
  = try_except (static_resolution E self head_only) (internal_error E self) st.
Proof.
  intros Hroute. unfold static_resolution.
  destruct (decoded_path E self) as [decoded|e] eqn:Hdec.
  - exact (do_GET_static E self head_only decoded st Hroute Hdec).
  - unfold static_route in Hroute.
    apply andb_true_iff in Hroute as [H1 H2]. apply negb_true_iff in H1, H2.
    unfold do_GET. rewrite H1, H2. unfold decoded_path in Hdec.
    unfold try_except, bind at 1.
    destruct (UrlParse.urlparse_path (check_bracketed_netloc E) (self_path self))
      as [p|e']; [discriminate|]. injection Hdec as ->. reflexivity.
Qed.

(** Static-file resolution of a path that is not refused starts by looking
    the path up in the file system. *)
Lemma resolution_looks_up (E : Env) (self : request) (head_only : bool)
      (decoded : pystr) (st : hstate) :
  static_route self = true ->
  decoded_path E self = Ret decoded ->
  startswith (normalized_path decoded) (lit "..") = false ->
  exists rest,
    fs_log (snd (do_GET E self head_only st))
    = fs_log st
      ++ Isdir (PosixPath.join (PUBLIC_DIR E) (normalized_path decoded)) :: rest.
Proof.
  intros Hroute Hdec Hdots.
  set (ok := fun _ : fs_call => true). set (n := normalized_path decoded) in *.
  assert (Hserve : forall file,
             keeps (calls_among ok) (_serve_static E self file head_only)).
  { intros file. apply keeps_serve_static; try among_frame; now apply calls_among_log. }
  assert (Herror : keeps (calls_among ok) (send_error' E self 404 (lit "Not Found")))
    by (apply keeps_send_error; among_frame).
  assert (Hhandler : forall e, keeps (calls_among ok) (internal_error E self e))
    by (intros e; apply keeps_internal_error; among_frame).
  rewrite (do_GET_static E self head_only decoded st Hroute Hdec).
  unfold try_except. cbv zeta. fold n. rewrite Hdots.
  assert (Hbody : exists calls,
             fs_log (snd (match resolved_file E n with
                          | Some file =>
                              _serve_static E self file head_only (logged (lookups E n) st)
                          | None =>
                              send_error' E self 404 (lit "Not Found")
                                          (logged (lookups E n) st)
                          end))
             = fs_log st ++ lookups E n ++ calls).
  { destruct (resolved_file E n) as [file|].
    - destruct (Hserve file (logged (lookups E n) st)) as (calls & Hcalls & _).
      exists calls. rewrite Hcalls. cbn [logged fs_log]. now rewrite <- app_assoc.
    - destruct (Herror (logged (lookups E n) st)) as (calls & Hcalls & _).
      exists calls. rewrite Hcalls. cbn [logged fs_log]. now rewrite <- app_assoc. }
  destruct Hbody as (calls & Hcalls).
  destruct (match resolved_file E n with
            | Some file => _ | None => _ end) as [[[]|e] st1]; cbn [snd] in *.
  - exists (tl (lookups E n) ++ calls). rewrite Hcalls. unfold lookups. reflexivity.
  - destruct (Hhandler e st1) as (more & Hmore & _).
    exists (tl (lookups E n) ++ calls ++ more). rewrite Hmore, Hcalls.
    unfold lookups. cbn [app tl]. rewrite <- app_assoc. cbn [app].
    now rewrite <- app_assoc.
Qed.

(** ** Routing by prefix *)

(** C9: the route is chosen by two tests on the path as it was sent.  A
    path that begins with [/api] (such as [/apifoo]) is handed to the reverse
    proxy and makes no file-system call.  The exact path [/_status] is the
    status endpoint, which makes no file-system call either.  Every other
    path, whatever it looks like ([/_STATUS], [/_status/], [/_status]
    followed by a query string), goes to static-file resolution, which
    looks the path up in the file system unless it refuses it; [/_status]
    followed by a query string is resolved as the static file [_status]. *)
Theorem C9_prefix_routing (E : Env) (self : request) (head_only : bool) (st : hstate) :
  (startswith (lit (path self)) (lit "/api") = true ->
   do_GET E self head_only st
   = try_except (_handle_proxy E self) (internal_error E self) st
   /\ fs_log (snd (do_GET E self head_only st)) = fs_log st)
  /\ (path self = "/_status"%string ->
      do_GET E self head_only st
      = try_except (_handle_status E) (internal_error E self) st
      /\ fs_log (snd (do_GET E self head_only st)) = fs_log st)
  /\ (path self <> "/_status"%string ->
      startswith (lit (path self)) (lit "/api") = false ->
      do_GET E self head_only st
      = try_except (static_resolution E self head_only) (internal_error E self) st
      /\ (forall decoded,
            decoded_path E self = Ret decoded ->
            startswith (normalized_path decoded) (lit "..") = false ->
            exists rest,
              fs_log (snd (do_GET E self head_only st))
              = fs_log st
                ++ Isdir (PosixPath.join (PUBLIC_DIR E) (normalized_path decoded))
                   :: rest))
  /\ (forall query,
        path self = ("/_status?" ++ query)%string ->
        do_GET E self head_only st
        = try_except
            (fun st0 =>
               match resolved_file E (lit "_status") with
               | Some file =>
                   _serve_static E self file head_only
                                 (logged (lookups E (lit "_status")) st0)
               | None =>
                   send_error' E self 404 (lit "Not Found")
                               (logged (lookups E (lit "_status")) st0)
               end)
            (internal_error E self) st).
Proof.
  split; [|split; [|split]].
  - intros Hapi. rewrite (do_GET_proxy E self head_only st Hapi). split; [reflexivity|].
    apply quiet_try_except; [apply quiet_handle_proxy | apply quiet_internal_error].
  - intros Hpath.
    assert (Hstatus : str_eqb (self_path self) (lit "/_status") = true)
      by (unfold self_path; now rewrite Hpath).
    rewrite (do_GET_status E self head_only st Hstatus). split; [reflexivity|].
    apply quiet_try_except; [apply quiet_handle_status | apply quiet_internal_error].
  - intros Hpath Hapi.
    assert (Hroute : static_route self = true).
    { unfold static_route, self_path. rewrite Hapi.
      assert (Hne : str_eqb (lit (path self)) (lit "/_status") = false).
      { apply str_eqb_neq. intros Heq. apply Hpath. now apply lit_inj. }
      now rewrite Hne. }
    split; [exact (do_GET_resolution E self head_only st Hroute)|].
    intros decoded Hdec Hdots.
    exact (resolution_looks_up E self head_only decoded st Hroute Hdec Hdots).
  - intros query Hpath.
    assert (Hparsed : UrlParse.urlparse_path (check_bracketed_netloc E) (self_path self)
                      = Ret (lit "/_status")).
    { unfold self_path. rewrite Hpath.
      change (lit ("/_status?" ++ query)) with (lit ("/_status" ++ "?" ++ query)).
      rewrite !lit_app. now apply urlparse_path_query. }
    assert (Hroute : static_route self = true).
    { unfold static_route, self_path. rewrite Hpath.
      change (lit ("/_status?" ++ query)) with (lit ("/_status" ++ "?" ++ query)).
      rewrite !lit_app. reflexivity. }
    assert (Hdec : decoded_path E self = Ret (lit "_status")).
    { unfold decoded_path. now rewrite Hparsed. }
    now rewrite (do_GET_static E self head_only (lit "_status") st Hroute Hdec).
Qed.

Lemma C9_prefix_routing_witness :
  (startswith (lit (path (Demo.get "/apifoo" []))) (lit "/api") = true
   /\ fs_log (snd (do_GET Demo.env (Demo.get "/apifoo" []) false
                          (start (Demo.get "/apifoo" [])))) = []
   /\ response_status (response Demo.env (Demo.get "/apifoo" []) false) = Some 201%Z)
  /\ (path (Demo.get "/_status" []) = "/_status"%string
      /\ header_values (lit "Content-Type")
                       (response_headers (response Demo.env (Demo.get "/_status" []) false))
         = [lit "application/json"])
  /\ (path (Demo.get "/_status?verbose=1" []) = ("/_status?" ++ "verbose=1")%string
      /\ response_status (response Demo.env (Demo.get "/_status?verbose=1" []) false)
         = Some 200%Z
      /\ response_body (response Demo.env (Demo.get "/_status?verbose=1" []) false)
         = Demo.index_data)
  /\ (path (Demo.get "/_STATUS" []) <> "/_status"%string
      /\ startswith (lit (path (Demo.get "/_STATUS" []))) (lit "/api") = false
      /\ response_body (response Demo.env (Demo.get "/_STATUS" []) false)
         = Demo.index_data
      /\ exists rest,
           fs_calls Demo.env (Demo.get "/_STATUS" []) false
           = Isdir (lit "/srv/www/public/_STATUS") :: rest)
  /\ (path (Demo.get "/_status/" []) <> "/_status"%string
      /\ startswith (lit (path (Demo.get "/_status/" []))) (lit "/api") = false
      /\ response_body (response Demo.env (Demo.get "/_status/" []) false)
         = Demo.index_data
      /\ exists rest,
           fs_calls Demo.env (Demo.get "/_status/" []) false
           = Isdir (lit "/srv/www/public/_status") :: rest).
Proof.
  assert (H1 : startswith (lit (path (Demo.get "/apifoo" []))) (lit "/api") = true)
    by reflexivity.
  assert (H2 : path (Demo.get "/_status?verbose=1" []) = ("/_status?" ++ "verbose=1")%string)
    by reflexivity.
  assert (H3 : path (Demo.get "/_status" []) = "/_status"%string) by reflexivity.
  assert (H4 : path (Demo.get "/_STATUS" []) <> "/_status"%string) by discriminate.
  assert (H5 : startswith (lit (path (Demo.get "/_STATUS" []))) (lit "/api") = false)
    by reflexivity.
  assert (H6 : path (Demo.get "/_status/" []) <> "/_status"%string) by discriminate.
  assert (H7 : startswith (lit (path (Demo.get "/_status/" []))) (lit "/api") = false)
    by reflexivity.
  pose proof (C9_prefix_routing Demo.env (Demo.get "/apifoo" []) false
                (start (Demo.get "/apifoo" []))) as (Hproxy & _ & _ & _).
  pose proof (C9_prefix_routing Demo.env (Demo.get "/_status" []) false
                (start (Demo.get "/_status" []))) as (_ & Hstatus & _ & _).
  pose proof (C9_prefix_routing Demo.env (Demo.get "/_status?verbose=1" []) false
                (start (Demo.get "/_status?verbose=1" []))) as (_ & _ & _ & Hquery).
  pose proof (C9_prefix_routing Demo.env (Demo.get "/_STATUS" []) false
                (start (Demo.get "/_STATUS" []))) as (_ & _ & Hupper & _).
  pose proof (C9_prefix_routing Demo.env (Demo.get "/_status/" []) false
                (start (Demo.get "/_status/" []))) as (_ & _ & Hslash & _).
  specialize (Hquery "verbose=1"%string H2).
  destruct (Hstatus H3) as [Hstatus' _].
  destruct (Hproxy H1) as [Hrun Hquiet].
  destruct (Hupper H4 H5) as [Hupper_run Hupper_calls].
  destruct (Hslash H6 H7) as [Hslash_run Hslash_calls].
  destruct (Hupper_calls (lit "_STATUS")) as [rest1 Hrest1];
    [vm_compute; reflexivity | vm_compute; reflexivity |].
  destruct (Hslash_calls (lit "_status/")) as [rest2 Hrest2];
    [vm_compute; reflexivity | vm_compute; reflexivity |].
  refine (conj (conj H1 (conj Hquiet _))
            (conj (conj H3 _)
               (conj (conj H2 _)
                  (conj (conj H4 (conj H5 (conj _ (ex_intro _ rest1 Hrest1))))
                        (conj H6 (conj H7 (conj _ (ex_intro _ rest2 Hrest2)))))))).
  - unfold response. rewrite Hrun. vm_compute. reflexivity.
  - unfold response. rewrite Hstatus'. vm_compute. reflexivity.
  - unfold response. rewrite Hquery. vm_compute. split; reflexivity.
  - unfold response. rewrite Hupper_run. vm_compute. reflexivity.
  - unfold response. rewrite Hslash_run. vm_compute. reflexivity.
Defined.

(** ** Conditional requests *)

Section Conditional.

Variable E : Env.
Variable self : request.
Variable head_only : bool.
Variable file : pystr.
Variable data : bytes.
Variable mtime : Z.

Hypothesis Hserves : serves E self file.
Hypothesis Hreadable : readable E file data mtime.

(** When a validator holds, the handler adds the 304 status line to a head
    that already starts with 200: the client reads status 200, no body and
    no Content-Length. *)
Lemma not_modified_exit :
  revalidated E self data mtime = true ->
  response E self head_only
  = map Head (static_head E file data mtime
              ++ StatusLine 304 (lit "Not Modified") :: server_date E ++ [BlankLine])
  /\ response_status (response E self head_only) = Some 200%Z
  /\ response_body (response E self head_only) = []
  /\ header_values (lit "Content-Length") (response_headers (response E self head_only))
     = [].
Proof.
  intros Hrev.
  destruct (response_serves E self file head_only data mtime Hserves Hreadable) as [Hw _].
  rewrite Hw, static_wire_body, static_wire_content_length, Hrev.
  repeat split. unfold static_wire, static_extra. rewrite Hrev. cbn [orb].
  now rewrite app_nil_r.
Qed.

(** The validators hold exactly when If-None-Match equals the entity tag, or
    If-Modified-Since is present, parses, and is not before the file's
    modification time. *)
Lemma revalidated_iff :
  revalidated E self data mtime = true <->
  headers_get (headers self) (lit "If-None-Match") = Some (Sha1.hexdigest data)
  \/ exists t, modified_since E self = Some t /\ (mtime <= t)%Z.
Proof.
  unfold revalidated, etag_matches, not_modified_since, generate_etag_bytes.
  rewrite orb_true_iff. split; intros [H|H].
  - left. destruct (headers_get (headers self) (lit "If-None-Match")) as [v|];
      [|discriminate]. apply str_eqb_eq in H. now subst.
  - right. destruct (modified_since E self) as [t|]; [|discriminate].
    exists t. split; [reflexivity|]. now apply Z.leb_le.
  - left. rewrite H. apply str_eqb_refl.
  - right. destruct H as (t & -> & Hle). now apply Z.leb_le.
Qed.

(** When no validator holds, the full response is sent: status 200, the body
    (none for HEAD) and its length. *)
Lemma full_response :
  revalidated E self data mtime = false ->
  outcome E self head_only = Ret tt
  /\ response_status (response E self head_only) = Some 200%Z
  /\ response_body (response E self head_only)
     = (if head_only then [] else static_body E self file data)
  /\ header_values (lit "Content-Length") (response_headers (response E self head_only))
     = [str_of_N (N.of_nat (length (static_body E self file data)))].
Proof.
  intros Hrev.
  destruct (response_serves E self file head_only data mtime Hserves Hreadable)
    as [Hw Hout].
  rewrite Hw, static_wire_body, static_wire_content_length, Hrev. now repeat split.
Qed.

(** An If-Modified-Since that is absent, empty or does not parse leaves the
    decision to If-None-Match alone: without a matching entity tag the full
    response is sent, never an error. *)
Lemma unparsable_date_fails_open :
  modified_since E self = None ->
  etag_matches self (generate_etag_bytes data) = false ->
  outcome E self head_only = Ret tt
  /\ response_status (response E self head_only) = Some 200%Z
  /\ response_body (response E self head_only)
     = (if head_only then [] else static_body E self file data)
  /\ header_values (lit "Content-Length") (response_headers (response E self head_only))
     = [str_of_N (N.of_nat (length (static_body E self file data)))].
Proof.
  intros Hnone Hetag. apply full_response.
  unfold revalidated, not_modified_since. now rewrite Hetag, Hnone.
Qed.

(** A date that parses and is before the file's modification time does not
    stop the full response either. *)
Lemma modified_since_then (t : Z) :
  modified_since E self = Some t -> (t < mtime)%Z ->
  etag_matches self (generate_etag_bytes data) = false ->
  response_status (response E self head_only) = Some 200%Z
  /\ response_body (response E self head_only)
     = (if head_only then [] else static_body E self file data).
Proof.
  intros Ht Hlt Hetag.
  assert (Hrev : revalidated E self data mtime = false).
  { unfold revalidated, not_modified_since. rewrite Hetag, Ht. now apply Z.leb_gt. }
  destruct (full_response Hrev) as (_ & Hstatus & Hbody & _). now split.
Qed.

End Conditional.

(** C1 (defect in the code): [style.css] is requested with If-None-Match equal
    to the SHA-1 of its bytes.  The handler has already buffered the status
    line [200 OK]; the [304 Not Modified] line it then sends lands among the
    headers, so the response on the wire has status 200 where the claim says
    304.  The rest of the claim holds there: no body, no Content-Length, and
    the caching headers of the full response. *)
Theorem C1_etag_match_status_line :
  let w := response Demo.env Demo.revalidate_by_tag false in
  headers_get (headers Demo.revalidate_by_tag) (lit "If-None-Match")
  = Some (Sha1.hexdigest Demo.style_data)
  /\ response_status w = Some 200%Z
  /\ nth_error w 8 = Some (Head (StatusLine 304 (lit "Not Modified")))
  /\ response_body w = []
  /\ header_values (lit "Content-Length") (response_headers w) = [].
Proof. vm_compute. repeat split. Qed.

(** C4 (defect in the code): [style.css] is requested with an If-Modified-Since
    equal to its modification time and no If-None-Match.  The date parses and
    the file is not newer, so the handler takes its not-modified exit, but
    the status line [200 OK] is already buffered and the response on the wire
    has status 200 where the claim says 304. *)
Theorem C4_not_modified_since_status_line :
  let w := response Demo.env Demo.revalidate_by_date false in
  modified_since Demo.env Demo.revalidate_by_date = Some Demo.style_mtime
  /\ not_modified_since Demo.env Demo.revalidate_by_date Demo.style_mtime = true
  /\ response_status w = Some 200%Z
  /\ nth_error w 8 = Some (Head (StatusLine 304 (lit "Not Modified")))
  /\ response_body w = [].
Proof. vm_compute. repeat split. Qed.

(** ** Paths that begin with a separator, and paths that do not *)

Section Paths.

Import PosixPath.

(** A decoded path that begins with a separator keeps it through
    [normpath], and [os.path.join] then discards the document root. *)
Lemma normpath_absolute (p : pystr) :
  startswith p [sep] = true -> startswith (normpath p) [sep] = true.
Proof.
  intros Habs. unfold normpath. destruct p as [|c p]; [discriminate|].
  cbn [is_empty]. rewrite Habs.
  destruct (startswith (c :: p) [sep; sep] && negb (startswith (c :: p) [sep; sep; sep]));
    cbn [repeat app is_empty startswith]; now rewrite N.eqb_refl.
Qed.

Lemma join_absolute (root p : pystr) :
  startswith p [sep] = true -> join root p = p.
Proof. intros H. unfold join. now rewrite H. Qed.

Lemma absolute_path_ignores_root (root decoded : pystr) :
  startswith decoded [sep] = true ->
  startswith (normalized_path decoded) (lit "..") = false
  /\ join root (normalized_path decoded) = normpath decoded.
Proof.
  intros Habs. unfold normalized_path.
  destruct decoded as [|c d]; [discriminate|]. cbn [is_empty].
  pose proof (normpath_absolute (c :: d) Habs) as Hn. split.
  - destruct (normpath (c :: d)) as [|x n]; [discriminate|].
    cbn [startswith] in Hn. apply andb_true_iff in Hn as [Hx _].
    apply N.eqb_eq in Hx. subst x. reflexivity.
  - now apply join_absolute.
Qed.

Lemma split_without (x : N) (s comp : pystr) :
  In comp (split x s) -> has_char x comp = false.
Proof.
  revert comp; induction s as [|c s IH]; intros comp Hin; cbn [split] in Hin.
  - destruct Hin as [<- | []]. reflexivity.
  - destruct (N.eqb c x) eqn:Hc.
    + destruct Hin as [<- | Hin]; [reflexivity | now apply IH].
    + destruct (split x s) as [|w ws] eqn:Hs.
      * destruct Hin as [<- | []]. cbn [has_char existsb].
        now rewrite (N.eqb_sym x c), Hc.
      * destruct Hin as [<- | Hin].
        -- cbn [has_char existsb]. rewrite (N.eqb_sym x c), Hc. cbn [orb].
           apply IH. now left.
        -- apply IH. now right.
Qed.

Lemma split_no_sep (s comp : pystr) :
  In comp (split sep s) -> has_char sep comp = false.
Proof. apply split_without. Qed.

Lemma last_app_nonempty {A} (l l' : list A) (d : A) :
  l' <> [] -> last (l ++ l') d = last l' d.
Proof.
  intros Hne. induction l as [|x l IH]; [reflexivity|].
  cbn [app]. destruct (l ++ l') as [|y t] eqn:Happ.
  - apply app_eq_nil in Happ as [_ ->]. contradiction.
  - change (last (x :: y :: t) d) with (last (y :: t) d). exact IH.
Qed.

Lemma last_repeat {A} (x d : A) (k : nat) : last (repeat x (S k)) d = x.
Proof. induction k as [|k IH]; [reflexivity|]. exact IH. Qed.

Lemma repeat_snoc {A} (x : A) (k : nat) : repeat x k ++ [x] = repeat x (S k).
Proof. induction k as [|k IH]; [reflexivity|]. cbn [repeat app]. now rewrite IH. Qed.

Lemma proper_last (rest : list pystr) :
  rest <> [] -> forallb proper rest = true -> str_eqb (last rest []) dotdot = false.
Proof.
  intros Hne Hall. assert (Hin : In (last rest []) rest).
  { destruct rest as [|r rest]; [contradiction|]. apply (@exists_last pystr) in Hne.
    destruct Hne as (l & a & ->). rewrite last_last. apply in_or_app. right. now left. }
  rewrite forallb_forall in Hall. specialize (Hall _ Hin). unfold proper in Hall.
  repeat (apply andb_true_iff in Hall as [Hall ?]).
  now apply negb_true_iff.
Qed.

Lemma forallb_removelast {A} (f : A -> bool) (l : list A) :
  forallb f l = true -> forallb f (removelast l) = true.
Proof.
  induction l as [|x l IH]; [reflexivity|]. cbn [forallb removelast]. intros H.
  apply andb_true_iff in H as [Hx Hl]. destruct l; [reflexivity|].
  cbn [forallb]. rewrite Hx. now apply IH.
Qed.

(** One step of [normpath] on a relative path keeps the shape: some levels
    up, then only entries. *)
Lemma norm_step_climbs (k : nat) (comps : list pystr) (comp : pystr) :
  climbs k comps -> has_char sep comp = false ->
  exists k', climbs k' (norm_step 0 comps comp).
Proof.
  intros (rest & -> & Hrest) Hsep. unfold norm_step.
  destruct (str_eqb comp [] || str_eqb comp dot) eqn:Hskip.
  { exists k, rest. now split. }
  apply orb_false_iff in Hskip as [Hempty Hdot].
  destruct (str_eqb comp dotdot) eqn:Hdd; cbn [negb orb].
  - apply str_eqb_eq in Hdd. subst comp. cbn [Nat.eqb andb].
    destruct rest as [|r rest].
    + rewrite app_nil_r. destruct k as [|k].
      * exists 1%nat, []. now split.
      * assert (Hlast : str_eqb (last (repeat dotdot (S k)) []) dotdot = true)
          by (rewrite last_repeat; apply str_eqb_refl).
        rewrite Hlast. cbn [is_empty repeat negb andb orb].
        exists (S (S k)), []. split; [|reflexivity].
        rewrite app_nil_r. change (dotdot :: repeat dotdot k) with (repeat dotdot (S k)).
        apply repeat_snoc.
    + assert (Hne : repeat dotdot k ++ r :: rest <> [])
        by (intros H; apply app_eq_nil in H as [_ H]; discriminate).
      assert (Hempty' : is_empty (repeat dotdot k ++ r :: rest) = false)
        by (destruct (repeat dotdot k ++ r :: rest); [contradiction|reflexivity]).
      rewrite Hempty'. cbn [negb andb orb].
      rewrite last_app_nonempty by discriminate.
      rewrite proper_last by (discriminate || assumption).
      exists k, (removelast (r :: rest)). split.
      * now rewrite removelast_app by discriminate.
      * now apply forallb_removelast.
  - exists k, (rest ++ [comp]). split; [now rewrite app_assoc|].
    rewrite forallb_app, Hrest. cbn [forallb andb]. unfold proper.
    rewrite Hdot, Hdd, Hsep. cbn [negb andb].
    destruct comp; [discriminate Hempty | reflexivity].
Qed.

Lemma normpath_steps_climb (parts comps : list pystr) (k : nat) :
  climbs k comps ->
  (forall comp, In comp parts -> has_char sep comp = false) ->
  exists k', climbs k' (fold_left (norm_step 0) parts comps).
Proof.
  revert comps k; induction parts as [|comp parts IH]; intros comps k Hc Hparts.
  - now exists k.
  - cbn [fold_left].
    destruct (norm_step_climbs k comps comp Hc (Hparts comp (or_introl eq_refl))) as [k' Hk'].
    apply (IH _ k' Hk'). intros c Hin. apply Hparts. now right.
Qed.

Lemma join_not_empty (c : pystr) (cs : list pystr) :
  is_empty c = false -> is_empty (PyStr.join [sep] (c :: cs)) = false.
Proof. destruct c; [discriminate|]. now destruct cs. Qed.

Lemma startswith_join (c : pystr) (cs : list pystr) (p : pystr) :
  startswith c p = true -> startswith (PyStr.join [sep] (c :: cs)) p = true.
Proof.
  intros H. apply startswith_prefix in H as [t ->].
  destruct cs; cbn [PyStr.join]; rewrite <- ?app_assoc; apply startswith_app.
Qed.

(** A decoded path that does not begin with a separator, and whose
    normalized form does not begin with two dots, normalizes to [.] or to
    entries joined by separators; joined to the document root it stays
    below it. *)
Lemma relative_path_stays_inside (root decoded : pystr) :
  startswith decoded [sep] = false ->
  startswith (normalized_path decoded) (lit "..") = false ->
  (normalized_path decoded = dot
   \/ exists comps, comps <> [] /\ forallb proper comps = true
                    /\ normalized_path decoded = PyStr.join [sep] comps)
  /\ startswith (join root (normalized_path decoded)) root = true.
Proof.
  intros Hrel Hdots.
  assert (Hshape : normalized_path decoded = dot
                   \/ exists comps, comps <> [] /\ forallb proper comps = true
                                    /\ normalized_path decoded = PyStr.join [sep] comps).
  { unfold normalized_path in *. destruct decoded as [|c d].
    - right. exists [lit "index.html"]. repeat split. discriminate.
    - cbn [is_empty] in *. unfold normpath in *. cbn [is_empty] in *.
      rewrite Hrel in *. cbn [repeat app] in *.
      destruct (normpath_steps_climb (split sep (c :: d)) [] 0) as (k & rest & Hcomps & Hrest).
      + exists []. now split.
      + apply split_no_sep.
      + rewrite Hcomps in *. destruct k as [|k].
        * cbn [repeat app] in *. destruct rest as [|r rest]; [now left|].
          right. exists (r :: rest). split; [discriminate|]. split; [exact Hrest|].
          rewrite join_not_empty; [reflexivity|].
          cbn [forallb] in Hrest. apply andb_true_iff in Hrest as [Hr _].
          unfold proper in Hr. repeat (apply andb_true_iff in Hr as [Hr ?]).
          now apply negb_true_iff.
        * exfalso. cbn [repeat app] in Hdots.
          rewrite join_not_empty in Hdots by reflexivity.
          rewrite startswith_join in Hdots by reflexivity. discriminate. }
  split; [exact Hshape|].
  assert (Hnosep : startswith (normalized_path decoded) [sep] = false).
  { destruct Hshape as [-> | (comps & Hne & Hall & ->)]; [reflexivity|].
    destruct comps as [|c cs]; [contradiction|].
    cbn [forallb] in Hall. apply andb_true_iff in Hall as [Hc _].
    unfold proper in Hc. repeat (apply andb_true_iff in Hc as [Hc ?]).
    repeat match goal with H : negb _ = true |- _ => apply negb_true_iff in H end.
    destruct c as [|x c]; [discriminate|].
    match goal with H : has_char sep (x :: c) = false |- _ =>
      cbn [has_char existsb] in H; apply orb_false_iff in H as [Hx _] end.
    destruct cs; cbn [PyStr.join app startswith]; now rewrite N.eqb_sym, Hx. }
  unfold join. rewrite Hnosep.
  destruct (is_empty root || endswith root [sep]); apply startswith_app.
Qed.

End Paths.

(** ** Path traversal *)

(** A normalized path that begins with two dots is answered 403, and the
    file system is not consulted. *)
Lemma traversal_is_forbidden (E : Env) (self : request) (head_only : bool)
      (decoded : pystr) :
  static_route self = true ->
  decoded_path E self = Ret decoded ->
  startswith (normalized_path decoded) (lit "..") = true ->
  response_status (response E self head_only) = Some 403%Z
  /\ fs_calls E self head_only = []
  /\ outcome E self head_only = Ret tt.
Proof.
  intros Hroute Hdec Hdots. unfold response, fs_calls, outcome.
  rewrite (do_GET_forbidden E self head_only decoded (start self) Hroute Hdec Hdots).
  repeat split.
Qed.

(** C2 (defect in the code): the request [GET /%2Fetc/passwd].  After
    percent-decoding the path is [/etc/passwd]; its normalized form does not
    begin with two dots, so the check lets it pass, and joining an absolute
    path to the document root yields [/etc/passwd] itself.  The handler
    opens and serves that file, which lies outside the document root, where
    the claim says no file outside the root is ever read. *)
Theorem C2_encoded_slash_leaves_root :
  decoded_path Demo.env Demo.encoded_slash = Ret (lit "/etc/passwd")
  /\ startswith (normalized_path (lit "/etc/passwd")) (lit "..") = false
  /\ PosixPath.join (PUBLIC_DIR Demo.env) (normalized_path (lit "/etc/passwd"))
     = lit "/etc/passwd"
  /\ startswith (lit "/etc/passwd") (PUBLIC_DIR Demo.env) = false
  /\ fs_calls Demo.env Demo.encoded_slash false
     = [Isdir (lit "/etc/passwd"); Exists (lit "/etc/passwd");
        OpenRead (lit "/etc/passwd"); Stat (lit "/etc/passwd")]
  /\ response_status (response Demo.env Demo.encoded_slash false) = Some 200%Z
  /\ response_body (response Demo.env Demo.encoded_slash false) = Demo.passwd_data.
Proof. vm_compute. repeat split. Qed.

(** ** Error responses *)

(** C3, as the specification states it, fails on the request for the file
    the server may not read: the handler answers 500 with a page that quotes
    the text of the exception, the path of the file on disk included, and
    the exception leaves [do_GET]; with the backend down, the 502 page quotes
    the text of the connection error. *)
Lemma C3_error_page_quotes_exception :
  open_read Demo.env (lit "/srv/www/public/secret.txt")
  = Raise (Exn "PermissionError"
               (lit "[Errno 13] Permission denied: '/srv/www/public/secret.txt'"))
  /\ response_status (response Demo.env Demo.unreadable false) = Some 500%Z
  /\ body_mentions (lit "/srv/www/public/secret.txt")
                   (response Demo.env Demo.unreadable false) = true
  /\ outcome Demo.env Demo.unreadable false
     = Raise (Exn "PermissionError"
                  (lit "[Errno 13] Permission denied: '/srv/www/public/secret.txt'"))
  /\ response_status (response Demo.env_backend_down (Demo.get "/api/events" []) false)
     = Some 502%Z
  /\ body_mentions (lit "[Errno 111] Connection refused")
                   (response Demo.env_backend_down (Demo.get "/api/events" []) false)
     = true.
Proof. vm_compute. repeat split. Qed.

(** ** The reverse proxy *)

Section Proxy.

Variable E : Env.
Variable self : request.

Lemma only_written_refl (st : hstate) : only_written st st.
Proof. split; [reflexivity|]. exists []. now rewrite app_nil_r. Qed.

Lemma only_written_trans (a b c : hstate) :
  only_written a b -> only_written b c -> only_written a c.
Proof.
  intros [Hs1 [r1 Hw1]] [Hs2 [r2 Hw2]]. split; [congruence|].
  exists (r1 ++ r2). now rewrite Hw2, Hw1, app_assoc.
Qed.

Lemma only_written_buffer (l : hline) (st : hstate) :
  only_written st (snd (buffer_append l st)).
Proof. split; [reflexivity|]. exists []. cbn. now rewrite app_nil_r. Qed.

Lemma only_written_flush (st : hstate) : only_written st (snd (flush_headers st)).
Proof. split; [reflexivity|]. now exists (map Head (headers_buffer st)). Qed.

Lemma only_written_write (b : bytes) (st : hstate) :
  only_written st (snd (wfile_write b st)).
Proof. split; [reflexivity|]. now exists [Body b]. Qed.

(** Up to the call of the backend, [_handle_proxy] only reads the body and
    records the request. *)
Lemma handle_proxy_request (st : hstate) :
  rfile st = content self ->
  exists st',
    headers_buffer st' = headers_buffer st /\ wfile st' = wfile st /\
    fs_log st' = fs_log st /\
    match proxy_request E self with
    | Raise e => sent st' = sent st /\ _handle_proxy E self st = bad_gateway E self e st'
    | Ret req =>
        sent st' = sent st ++ [req] /\
        _handle_proxy E self st
        = try_except
            (match backend E req with
             | Unreachable e => raise e
             | Response status reason resp_headers reads failure =>
                 bind (send_response' E status (Some (lit reason))) (fun _ =>
                 bind (relay_headers resp_headers) (fun _ =>
                 bind (send_header (lit "Vary") (lit "Accept-Encoding")) (fun _ =>
                 bind end_headers (fun _ => stream_response reads failure))))
             end)
            (bad_gateway E self) st'
    end.
Proof.
  intros Hrfile. unfold proxy_request, forwarded_body.
  destruct (connection_error E) as [e|] eqn:Hconn.
  { exists st. repeat split.
    unfold _handle_proxy, try_except, bind, raise. now rewrite Hconn. }
  destruct (headers_get (headers self) (lit "content-length")) as [v|] eqn:Hlen.
  - destruct (int v) as [n|e] eqn:Hint.
    + destruct (read_refusal (can_allocate E) n) as [e|] eqn:Hread;
        [|destruct (n =? -1)%Z eqn:Hall].
      * exists st. repeat split.
        unfold _handle_proxy, try_except, self_headers_get, bind, ret, lift, rfile_read.
        now rewrite Hconn, Hlen, Hint, Hread.
      * exists {| headers_buffer := headers_buffer st; wfile := wfile st; rfile := [];
                  fs_log := fs_log st;
                  sent := sent st ++
                    [{| out_method := self_command self; out_url := self_path self;
                        out_body := Some (content self);
                        out_headers := dict_set (forwarded_headers self) (lit "Host")
                                                (BACKEND_HOST E) |}] |}.
        repeat split.
        unfold _handle_proxy, try_except, self_headers_get, bind, ret, lift, rfile_read,
          log_sent.
        now rewrite Hconn, Hlen, Hint, Hread, Hall, Hrfile.
      * exists {| headers_buffer := headers_buffer st; wfile := wfile st;
                  rfile := skipn (Z.to_nat n) (content self);
                  fs_log := fs_log st;
                  sent := sent st ++
                    [{| out_method := self_command self; out_url := self_path self;
                        out_body := Some (firstn (Z.to_nat n) (content self));
                        out_headers := dict_set (forwarded_headers self) (lit "Host")
                                                (BACKEND_HOST E) |}] |}.
        repeat split.
        unfold _handle_proxy, try_except, self_headers_get, bind, ret, lift, rfile_read,
          log_sent.
        now rewrite Hconn, Hlen, Hint, Hread, Hall, Hrfile.
    + exists st. repeat split.
      unfold _handle_proxy, try_except, self_headers_get, bind, ret, lift.
      now rewrite Hconn, Hlen, Hint.
  - exists {| headers_buffer := headers_buffer st; wfile := wfile st; rfile := rfile st;
              fs_log := fs_log st;
              sent := sent st ++
                [{| out_method := self_command self; out_url := self_path self;
                    out_body := None;
                    out_headers := dict_set (forwarded_headers self) (lit "Host")
                                            (BACKEND_HOST E) |}] |}.
    repeat split.
    unfold _handle_proxy, try_except, self_headers_get, bind, ret, log_sent.
    now rewrite Hconn, Hlen.
Qed.

(** The backend cannot be contacted: 502 with the text of the exception,
    and [_handle_proxy] returns. *)
Lemma handle_proxy_failure (e : exn) (st : hstate) :
  rfile st = content self ->
  proxy_failure E self = Some e ->
  is_latin1 (exn_text e) = true ->
  exists st',
    _handle_proxy E self st = (Ret tt, st') /\
    wfile st' = wfile st ++ map Head (headers_buffer st)
                ++ error_wire E self 502 (lit "Proxy error: " ++ exn_text e).
Proof.
  intros Hrfile Hfail Hlatin. unfold proxy_failure in Hfail.
  assert (Hmsg : is_latin1 (lit "Proxy error: " ++ exn_text e) = true)
    by now rewrite is_latin1_app, is_latin1_lit, Hlatin.
  destruct (handle_proxy_request st Hrfile) as (st' & Hbuf & Hw & _ & Hrun).
  destruct (proxy_request E self) as [req|e'].
  - destruct Hrun as [_ Hrun]. rewrite Hrun.
    destruct (backend E req) as [e'|]; [|discriminate]. injection Hfail as ->.
    unfold try_except, raise, bad_gateway.
    rewrite send_error_run by (exact Hmsg || reflexivity).
    eexists. split; [reflexivity|]. cbn [wfile]. now rewrite Hbuf, Hw.
  - injection Hfail as ->. destruct Hrun as [_ Hrun]. rewrite Hrun.
    unfold bad_gateway. rewrite send_error_run by (exact Hmsg || reflexivity).
    eexists. split; [reflexivity|]. cbn [wfile]. now rewrite Hbuf, Hw.
Qed.

Lemma relay_headers_run (hs : list (string * string)) (st : hstate) :
  relay_headers hs st
  = (Ret tt, pushed (map (fun kv => HeaderLine (fst kv) (snd kv)) (relayed hs)) st).
Proof.
  revert st; induction hs as [|[k v] hs IH]; intros st.
  - unfold pushed. cbn. rewrite app_nil_r. now destruct st.
  - cbn [relay_headers]. unfold bind, relayed. cbn [filter fst snd].
    destruct (hop_by_hop (lit k)); cbn [negb].
    + unfold ret. apply IH.
    + rewrite send_header_run by apply is_latin1_lit. rewrite IH.
      rewrite pushed_pushed. reflexivity.
Qed.

(** the head of a relayed response *)
Lemma handle_proxy_response (req : outbound) (status : Z) (reason : string)
      (hs : list (string * string)) (reads : list bytes) (failure : option exn)
      (st : hstate) :
  rfile st = content self -> headers_buffer st = [] ->
  proxy_request E self = Ret req ->
  backend E req = Response status reason hs reads failure ->
  exists r st' rest,
    _handle_proxy E self st = (r, st')
    /\ wfile st'
       = wfile st
         ++ map Head ((StatusLine status (lit reason) :: server_date E
                       ++ map (fun kv => HeaderLine (fst kv) (snd kv)) (relayed hs)
                       ++ [HeaderLine (lit "Vary") (lit "Accept-Encoding")])
                      ++ [BlankLine])
         ++ rest
    /\ sent st' = sent st ++ [req].
Proof.
  intros Hrfile Hempty Hreq Hresp.
  destruct (handle_proxy_request st Hrfile) as (st' & Hbuf & Hw & _ & Hrun).
  rewrite Hreq in Hrun. destruct Hrun as [Hsent Hrun]. rewrite Hrun, Hresp.
  unfold try_except, bind at 1.
  rewrite send_response_run by apply is_latin1_lit.
  unfold bind at 1. rewrite relay_headers_run.
  unfold bind at 1. rewrite send_header_run by apply is_latin1_lit.
  unfold bind at 1. rewrite end_headers_run, !pushed_pushed.
  set (st2 := flushed _).
  assert (Hw2 : wfile st2 = wfile st ++ map Head
              ((StatusLine status (lit reason) :: server_date E
                ++ map (fun kv => HeaderLine (fst kv) (snd kv)) (relayed hs)
                ++ [HeaderLine (lit "Vary") (lit "Accept-Encoding")]) ++ [BlankLine])).
  { subst st2. unfold flushed, pushed. cbn [wfile headers_buffer].
    rewrite Hbuf, Hw, Hempty. cbn [app]. now rewrite <- !app_assoc. }
  assert (Hs2 : sent st2 = sent st ++ [req]) by (subst st2; exact Hsent).
  pose proof (keeps_stream_response only_written only_written_refl only_written_trans
                only_written_write reads failure st2) as [Hs3 [r3 Hw3]].
  destruct (stream_response reads failure st2) as [[[]|e] st3]; cbn [snd] in *.
  - exists (Ret tt), st3, r3. split; [reflexivity|].
    now rewrite Hw3, Hw2, Hs3, <- !app_assoc.
  - pose proof (keeps_bad_gateway only_written only_written_refl only_written_trans
                  only_written_buffer only_written_flush only_written_write
                  E self e st3) as [Hs4 [r4 Hw4]].
    destruct (bad_gateway E self e st3) as [r st4]; cbn [snd] in *.
    exists r, st4, (r3 ++ r4). split; [reflexivity|].
    now rewrite Hw4, Hw3, Hw2, Hs4, Hs3, <- !app_assoc.
Qed.

End Proxy.

(** C3, amended: when serving a static file fails with an exception whose
    text fits ISO-8859-1, the response is the 500 page whose reason phrase
    and body quote [Server error: ] followed by that text, and the exception
    leaves [do_GET]; when contacting the backend fails, the response is the
    502 page quoting [Proxy error: ] followed by the text, and the handler
    returns. *)
Theorem C3_error_pages (E : Env) (self : request) (head_only : bool) (e : exn) :
  is_latin1 (exn_text e) = true ->
  (forall file,
      serves E self file -> static_failure E file = Some e ->
      response E self head_only
      = error_wire E self 500 (lit "Server error: " ++ exn_text e)
      /\ outcome E self head_only = Raise e)
  /\ (static_route self = true -> decoded_path E self = Raise e ->
      response E self head_only
      = error_wire E self 500 (lit "Server error: " ++ exn_text e)
      /\ outcome E self head_only = Raise e)
  /\ (startswith (lit (path self)) (lit "/api") = true ->
      proxy_failure E self = Some e ->
      response E self head_only
      = error_wire E self 502 (lit "Proxy error: " ++ exn_text e)
      /\ outcome E self head_only = Ret tt).
Proof.
  intros Hlatin. split; [|split].
  - intros file Hs Hfail. unfold response, outcome.
    destruct (do_GET_static_failure E self head_only file e (start self) Hs Hfail Hlatin)
      as [calls ->]. now split.
  - intros Hroute Hdec. unfold response, outcome.
    rewrite (do_GET_parse_failure E self head_only e (start self) Hroute Hdec Hlatin).
    now split.
  - intros Hapi Hfail. unfold response, outcome.
    rewrite (do_GET_proxy E self head_only (start self) Hapi).
    destruct (handle_proxy_failure E self e (start self) eq_refl Hfail Hlatin)
      as (st' & Hrun & Hw).
    unfold try_except. rewrite Hrun. now split.
Qed.

Lemma C3_error_pages_witness :
  let refused := Exn "ConnectionRefusedError" (lit "[Errno 111] Connection refused") in
  let denied :=
    Exn "PermissionError"
        (lit "[Errno 13] Permission denied: '/srv/www/public/secret.txt'") in
  (is_latin1 (exn_text refused) = true
   /\ startswith (lit (path (Demo.get "/api/events" []))) (lit "/api") = true
   /\ proxy_failure Demo.env_backend_down (Demo.get "/api/events" []) = Some refused
   /\ response Demo.env_backend_down (Demo.get "/api/events" []) false
      = error_wire Demo.env_backend_down (Demo.get "/api/events" []) 502
                   (lit "Proxy error: " ++ exn_text refused)
   /\ outcome Demo.env_backend_down (Demo.get "/api/events" []) false = Ret tt)
  /\ (is_latin1 (exn_text denied) = true
      /\ serves Demo.env Demo.unreadable (lit "/srv/www/public/secret.txt")
      /\ static_failure Demo.env (lit "/srv/www/public/secret.txt") = Some denied
      /\ response Demo.env Demo.unreadable false
         = error_wire Demo.env Demo.unreadable 500
                      (lit "Server error: " ++ exn_text denied)
      /\ outcome Demo.env Demo.unreadable false = Raise denied).
Proof.
  intros refused denied.
  assert (H1 : is_latin1 (exn_text refused) = true) by (vm_compute; reflexivity).
  assert (H2 : startswith (lit (path (Demo.get "/api/events" []))) (lit "/api") = true)
    by (vm_compute; reflexivity).
  assert (H3 : proxy_failure Demo.env_backend_down (Demo.get "/api/events" [])
               = Some refused) by (vm_compute; reflexivity).
  assert (H4 : is_latin1 (exn_text denied) = true) by (vm_compute; reflexivity).
  assert (H5 : serves Demo.env Demo.unreadable (lit "/srv/www/public/secret.txt")).
  { split; [reflexivity|]. exists (lit "secret.txt").
    repeat split; vm_compute; reflexivity. }
  assert (H6 : static_failure Demo.env (lit "/srv/www/public/secret.txt") = Some denied)
    by (vm_compute; reflexivity).
  exact (conj
           (conj H1 (conj H2 (conj H3
              (proj2 (proj2 (C3_error_pages Demo.env_backend_down
                               (Demo.get "/api/events" []) false refused H1)) H2 H3))))
           (conj H4 (conj H5 (conj H6
              (proj1 (C3_error_pages Demo.env Demo.unreadable false denied H4)
                     (lit "/srv/www/public/secret.txt") H5 H6))))).
Defined.

(** ** What the proxy forwards *)

Section Dict.

Lemma dict_get_set_same (d : list (pystr * pystr)) (k v : pystr) :
  dict_get (dict_set d k v) k = Some v.
Proof.
  unfold dict_get. induction d as [|[k' v'] d IH]; cbn [dict_set find fst].
  - now rewrite str_eqb_refl.
  - destruct (str_eqb k' k) eqn:Hk; cbn [find fst]; rewrite Hk; [reflexivity | exact IH].
Qed.

Lemma dict_get_set_other (d : list (pystr * pystr)) (k k' v : pystr) :
  str_eqb k k' = false -> dict_get (dict_set d k v) k' = dict_get d k'.
Proof.
  intros Hne. unfold dict_get. induction d as [|[k0 v0] d IH]; cbn [dict_set find fst].
  - now rewrite Hne.
  - destruct (str_eqb k0 k) eqn:Hk; cbn [find fst].
    + apply str_eqb_eq in Hk. subst k0. now rewrite Hne.
    + destruct (str_eqb k0 k'); [reflexivity | exact IH].
Qed.

Lemma forwarded_other (hs : list (string * string)) (d : list (pystr * pystr))
      (k : pystr) :
  str_eqb (lower k) (lit "host") = false ->
  dict_get (fold_left forward_step hs d) k
  = fold_left (fun acc kv => if str_eqb (lit (fst kv)) k then Some (lit (snd kv)) else acc)
              hs (dict_get d k).
Proof.
  intros Hk. revert d; induction hs as [|[n v] hs IH]; intros d; [reflexivity|].
  cbn [fold_left]. rewrite IH. f_equal. unfold forward_step. cbn [fst snd].
  destruct (str_eqb (lit n) k) eqn:Hn.
  - apply str_eqb_eq in Hn. subst k. rewrite Hk. cbn [negb]. apply dict_get_set_same.
  - destruct (str_eqb (lower (lit n)) (lit "host")); cbn [negb]; [reflexivity|].
    now apply dict_get_set_other.
Qed.

Lemma forwarded_host (hs : list (string * string)) (d : list (pystr * pystr))
      (k : pystr) :
  str_eqb (lower k) (lit "host") = true ->
  dict_get (fold_left forward_step hs d) k = dict_get d k.
Proof.
  intros Hk. revert d; induction hs as [|[n v] hs IH]; intros d; [reflexivity|].
  cbn [fold_left]. rewrite IH. unfold forward_step. cbn [fst snd].
  destruct (str_eqb (lower (lit n)) (lit "host")) eqn:Hn; cbn [negb]; [reflexivity|].
  apply dict_get_set_other. apply str_eqb_neq. intros Heq. rewrite Heq in Hn.
  congruence.
Qed.

End Dict.

Lemma header_fields_lines (l : list (pystr * pystr)) :
  header_fields (map (fun kv => HeaderLine (fst kv) (snd kv)) l) = l.
Proof.
  induction l as [|[k v] l IH]; [reflexivity|]. cbn [map header_fields flat_map app fst snd].
  f_equal. exact IH.
Qed.

Lemma header_lines_not_blank (l : list (pystr * pystr)) :
  forallb not_blank (map (fun kv => HeaderLine (fst kv) (snd kv)) l) = true.
Proof. induction l as [|kv l IH]; [reflexivity|exact IH]. Qed.

(** C8, as the specification states it, fails on a request that repeats a
    header name: of the two [X-Tag] headers only the last one is forwarded,
    because the forwarded headers are collected in a dict. *)
Lemma C8_repeated_header_is_dropped :
  In ("X-Tag", "a")%string (headers Demo.repeated_header)
  /\ sent (snd (do_GET Demo.env Demo.repeated_header false (start Demo.repeated_header)))
     = [{| out_method := lit "GET";
           out_url := lit "/api/events?since=7";
           out_body := None;
           out_headers := [(lit "X-Tag", lit "b"); (lit "Host", lit "backend")] |}].
Proof. split; [right; left; reflexivity | vm_compute; reflexivity]. Qed.

(** The lengths the request stream accepts: -1, 0, and the positive lengths
    up to [bytes_max] for which memory is found. *)
Lemma read_refusal_none (allocates : Z -> bool) (n : Z) :
  read_refusal allocates n = None ->
  (n = -1 \/ n = 0 \/ (0 < n <= bytes_max /\ allocates n = true))%Z.
Proof.
  unfold read_refusal, ssize_min, ssize_max, bytes_max.
  destruct (Z.ltb_spec n (-9223372036854775808)); [discriminate|].
  destruct (Z.ltb_spec 9223372036854775807 n); [discriminate|]. cbv [orb].
  destruct (Z.eqb_spec n (-1)); [now left|].
  destruct (Z.ltb_spec n 0); [discriminate|].
  destruct (Z.ltb_spec 9223372036854775774 n); [discriminate|].
  destruct (Z.ltb_spec 0 n); cbv [andb].
  - destruct (allocates n); [|discriminate]. intros _. right; right. repeat split; lia.
  - intros _. right; left. lia.
Qed.

(** C8, amended: a proxied request that reaches the backend is forwarded
    once, with its method and its full path and query.  It carries no body
    when the request has no Content-Length; otherwise Content-Length is an
    integer the request stream accepts as a read length (-1, 0, or a
    positive number up to [bytes_max], which is [2 ^ 63 - 34], for which
    memory is found), and the body is the first Content-Length bytes of
    what the client sent, or all of it for -1.  Its headers are a dict that
    holds, for every header name other than Host, the last value sent under
    that spelling, and the backend host under [Host]; the relayed response
    has the backend's status and its headers without Transfer-Encoding and
    Connection, between the server's own Server and Date and a final Vary. *)
Theorem C8_proxy_forwarding (E : Env) (self : request) (head_only : bool)
        (req : outbound) (status : Z) (reason : string)
        (hs : list (string * string)) (reads : list bytes) (failure : option exn) :
  startswith (lit (path self)) (lit "/api") = true ->
  proxy_request E self = Ret req ->
  backend E req = Response status reason hs reads failure ->
  sent (snd (do_GET E self head_only (start self))) = [req]
  /\ out_method req = lit (command self)
  /\ out_url req = lit (path self)
  /\ (headers_get (headers self) (lit "content-length") = None -> out_body req = None)
  /\ (forall v,
         headers_get (headers self) (lit "content-length") = Some v ->
         exists n,
           int v = Ret n
           /\ (n = -1 \/ n = 0 \/ (0 < n <= bytes_max /\ can_allocate E n = true))%Z
           /\ out_body req
              = Some (if (n =? -1)%Z then content self
                      else firstn (Z.to_nat n) (content self)))
  /\ (forall k, str_eqb (lower k) (lit "host") = false ->
                dict_get (out_headers req) k = last_value (headers self) k)
  /\ dict_get (out_headers req) (lit "Host") = Some (BACKEND_HOST E)
  /\ (forall k, str_eqb (lower k) (lit "host") = true -> k <> lit "Host" ->
                dict_get (out_headers req) k = None)
  /\ response_status (response E self head_only) = Some status
  /\ response_headers (response E self head_only)
     = header_fields (server_date E) ++ relayed hs
       ++ [(lit "Vary", lit "Accept-Encoding")].
Proof.
  intros Hapi Hreq Hresp.
  assert (Hwire : exists rest,
             response E self head_only
             = map Head ((StatusLine status (lit reason) :: server_date E
                          ++ map (fun kv => HeaderLine (fst kv) (snd kv)) (relayed hs)
                          ++ [HeaderLine (lit "Vary") (lit "Accept-Encoding")])
                         ++ [BlankLine]) ++ rest
             /\ sent (snd (do_GET E self head_only (start self))) = [req]).
  { unfold response. rewrite (do_GET_proxy E self head_only (start self) Hapi).
    destruct (handle_proxy_response E self req status reason hs reads failure
                (start self) eq_refl eq_refl Hreq Hresp)
      as (r & st' & rest & Hrun & Hw & Hs).
    unfold try_except. rewrite Hrun. cbn [wfile sent start app] in Hw, Hs.
    destruct r as [[]|e]; cbn [snd].
    - exists rest. now rewrite Hw, Hs.
    - pose proof (keeps_internal_error only_written only_written_refl only_written_trans
                    only_written_buffer only_written_flush only_written_write
                    E self e st') as [Hs' [r' Hw']].
      exists (rest ++ r'). rewrite Hw', Hs', Hw, Hs.
      split; [symmetry; apply app_assoc | reflexivity]. }
  destruct Hwire as (rest & Hw & Hsent).
  unfold proxy_request in Hreq. destruct (connection_error E); [discriminate|].
  unfold forwarded_body in Hreq.
  split; [exact Hsent|].
  assert (Hfields : out_method req = lit (command self)
                    /\ out_url req = lit (path self)
                    /\ out_headers req
                       = dict_set (forwarded_headers self) (lit "Host") (BACKEND_HOST E)).
  { destruct (headers_get (headers self) (lit "content-length")) as [v|].
    - destruct (int v) as [n|]; [|discriminate].
      destruct (read_refusal (can_allocate E) n); [discriminate|].
      destruct (n =? -1)%Z; injection Hreq as <-; repeat split.
    - injection Hreq as <-. repeat split. }
  destruct Hfields as (Hm & Hu & Hh).
  split; [exact Hm|]. split; [exact Hu|].
  split.
  { intros Hnone. rewrite Hnone in Hreq. now injection Hreq as <-. }
  split.
  { intros v Hv. rewrite Hv in Hreq.
    destruct (int v) as [n|]; [|discriminate]. exists n.
    destruct (read_refusal (can_allocate E) n) eqn:Hread; [discriminate|].
    split; [reflexivity|]. split; [exact (read_refusal_none _ _ Hread)|].
    destruct (n =? -1)%Z; now injection Hreq as <-. }
  split.
  { intros k Hk. rewrite Hh.
    rewrite dict_get_set_other.
    - unfold forwarded_headers. apply (forwarded_other (headers self) [] k Hk).
    - apply str_eqb_neq. intros <-. discriminate Hk. }
  split.
  { rewrite Hh. apply dict_get_set_same. }
  split.
  { intros k Hk Hne. rewrite Hh. rewrite dict_get_set_other.
    - unfold forwarded_headers. apply (forwarded_host (headers self) [] k Hk).
    - apply str_eqb_neq. congruence. }
  rewrite Hw. split; [reflexivity|].
  unfold response_headers. rewrite head_lines_app.
  - cbn [header_fields flat_map app]. fold (header_fields (server_date E
      ++ map (fun kv => HeaderLine (fst kv) (snd kv)) (relayed hs)
      ++ [HeaderLine (lit "Vary") (lit "Accept-Encoding")])).
    now rewrite !header_fields_app, header_fields_lines.
  - cbn [forallb not_blank]. rewrite !forallb_app, header_lines_not_blank. reflexivity.
Qed.

Lemma C8_proxy_forwarding_witness :
  (startswith (lit (path Demo.repeated_header)) (lit "/api") = true
   /\ proxy_request Demo.env Demo.repeated_header
      = Ret {| out_method := lit "GET";
               out_url := lit "/api/events?since=7";
               out_body := None;
               out_headers := [(lit "X-Tag", lit "b"); (lit "Host", lit "backend")] |}
   /\ response_status (response Demo.env Demo.repeated_header false) = Some 201%Z
   /\ header_values (lit "Connection")
                    (response_headers (response Demo.env Demo.repeated_header false)) = []
   /\ header_values (lit "X-Request-Id")
                    (response_headers (response Demo.env Demo.repeated_header false))
      = [lit "7"])
  /\ (startswith (lit (path Cases.with_body)) (lit "/api") = true
      /\ headers_get (headers Cases.with_body) (lit "content-length") = Some (lit "3")
      /\ exists req n,
           proxy_request Demo.env Cases.with_body = Ret req
           /\ sent (snd (do_GET Demo.env Cases.with_body false (start Cases.with_body)))
              = [req]
           /\ int (lit "3") = Ret n
           /\ out_body req
              = Some (if (n =? -1)%Z then content Cases.with_body
                      else firstn (Z.to_nat n) (content Cases.with_body))).
Proof.
  assert (H1 : startswith (lit (path Demo.repeated_header)) (lit "/api") = true)
    by (vm_compute; reflexivity).
  assert (H2 : proxy_request Demo.env Demo.repeated_header
               = Ret {| out_method := lit "GET";
                        out_url := lit "/api/events?since=7";
                        out_body := None;
                        out_headers := [(lit "X-Tag", lit "b"); (lit "Host", lit "backend")] |})
    by (vm_compute; reflexivity).
  destruct (C8_proxy_forwarding Demo.env Demo.repeated_header false _ 201 "Created"
              [("Content-Type", "application/json"); ("Connection", "close");
               ("Transfer-Encoding", "chunked"); ("X-Request-Id", "7")]%string
              [blit "{}"] None H1 H2 eq_refl)
    as (_ & _ & _ & _ & _ & _ & _ & _ & Hstatus & Hheaders).
  assert (G1 : startswith (lit (path Cases.with_body)) (lit "/api") = true)
    by reflexivity.
  assert (G2 : proxy_request Demo.env Cases.with_body
               = Ret {| out_method := lit "GET"; out_url := lit "/api/events";
                        out_body := Some (blit "abc");
                        out_headers := [(lit "Content-Length", lit "3");
                                        (lit "Host", lit "backend")] |})
    by (vm_compute; reflexivity).
  assert (G3 : headers_get (headers Cases.with_body) (lit "content-length")
               = Some (lit "3")) by reflexivity.
  destruct (C8_proxy_forwarding Demo.env Cases.with_body false _ 201 "Created"
              [("Content-Type", "application/json"); ("Connection", "close");
               ("Transfer-Encoding", "chunked"); ("X-Request-Id", "7")]%string
              [blit "{}"] None G1 G2 eq_refl)
    as (Gsent & _ & _ & _ & Gbody & _).
  destruct (Gbody (lit "3") G3) as (n & Gint & _ & Gout).
  refine (conj (conj H1 (conj H2 (conj Hstatus _)))
               (conj G1 (conj G3
                  (ex_intro _ _ (ex_intro _ n (conj G2 (conj Gsent (conj Gint Gout)))))))).
  rewrite Hheaders. split; vm_compute; reflexivity.
Defined.

(** ** End to end *)

(** Every static response carries the caching headers computed from the
    file alone, whether or not a validator holds. *)
Lemma caching_headers (E : Env) (self : request) (head_only : bool)
      (file : pystr) (data : bytes) (mtime : Z) :
  serves E self file -> readable E file data mtime ->
  let hs := response_headers (response E self head_only) in
  header_values (lit "Cache-Control") hs = [cache_control file]
  /\ header_values (lit "ETag") hs = [Sha1.hexdigest data]
  /\ header_values (lit "Last-Modified") hs = [format_datetime (Aware mtime)]
  /\ header_values (lit "Vary") hs = [lit "Accept-Encoding"].
Proof.
  intros Hs Hr hs. subst hs.
  destruct (response_serves E self file head_only data mtime Hs Hr) as [-> _].
  now rewrite static_wire_cache_control, static_wire_etag, static_wire_last_modified,
    static_wire_vary.
Qed.

(** An unconditional GET of the style sheet. *)
Example get_style_sheet :
  response Demo.env (Demo.get "/style.css" []) false
  = map Head
        [StatusLine 200 (lit "OK");
         HeaderLine (lit "Server") (lit "MiniNginx/0.1 Python/3.11.2");
         HeaderLine (lit "Date") (lit "Tue, 03 Nov 2026 14:15:25 GMT");
         HeaderLine (lit "Content-Type") (lit "text/css; charset=utf-8");
         HeaderLine (lit "Cache-Control") (lit "public, max-age=2592000");
         HeaderLine (lit "ETag") (lit Demo.style_etag);
         HeaderLine (lit "Last-Modified") (lit Demo.style_date);
         HeaderLine (lit "Vary") (lit "Accept-Encoding");
         HeaderLine (lit "Content-Length") (lit "6");
         BlankLine]
    ++ [Body Demo.style_data].
Proof. vm_compute. reflexivity. Qed.

(** A path that climbs out of the document root is refused. *)
Example get_dot_dot :
  response_status (response Demo.env (Demo.get "/..%2f..%2fetc/passwd" []) false)
  = Some 403%Z
  /\ fs_calls Demo.env (Demo.get "/..%2f..%2fetc/passwd" []) false = [].
Proof. vm_compute. split; reflexivity. Qed.

(** A HEAD request gets the head of the GET response and no body. *)
Example head_style_sheet :
  let self := {| command := "HEAD"; path := "/style.css"; headers := []; content := [] |} in
  wfile (snd (do_HEAD Demo.env self (start self)))
  = removelast (response Demo.env (Demo.get "/style.css" []) false).
Proof. vm_compute. reflexivity. Qed.

(** * Further properties *)

(** ** HEAD, caching policy and the body of a static response *)

Lemma do_HEAD_response (E : Env) (self : request) :
  wfile (snd (do_HEAD E self (start self))) = response E self true.
Proof. reflexivity. Qed.

(** X1: for a static file, HEAD is answered with the status line and the
    header fields of the GET response and with no body; when no validator
    holds, the GET response is the HEAD response followed by the body, and
    the Content-Length of the HEAD response is the length of that body. *)
Theorem X1_head_mirrors_get (E : Env) (self : request)
        (file : pystr) (data : bytes) (mtime : Z) :
  serves E self file -> readable E file data mtime ->
  let head := wfile (snd (do_HEAD E self (start self))) in
  let full := response E self false in
  response_status head = response_status full
  /\ response_headers head = response_headers full
  /\ response_body head = []
  /\ (revalidated E self data mtime = false ->
      full = head ++ [Body (static_body E self file data)]
      /\ header_values (lit "Content-Length") (response_headers head)
         = [str_of_N (N.of_nat (length (response_body full)))]).
Proof.
  intros Hs Hr head full. subst head full. rewrite do_HEAD_response.
  destruct (response_serves E self file true data mtime Hs Hr) as [-> _].
  destruct (response_serves E self file false data mtime Hs Hr) as [-> _].
  split; [now rewrite !static_wire_status|].
  split; [unfold response_headers; now rewrite !static_wire_head|].
  split; [rewrite static_wire_body; now rewrite orb_true_r|].
  intros Hfull. rewrite static_wire_content_length, static_wire_body, Hfull.
  split; [|reflexivity].
  unfold static_wire. rewrite Hfull. cbn [orb]. now rewrite app_nil_r.
Qed.

Ltac serves_at decoded :=
  split; [reflexivity|]; exists decoded; repeat split; vm_compute; reflexivity.

Ltac is_readable :=
  repeat split; try (vm_compute; reflexivity); vm_compute; discriminate.

Lemma X1_head_mirrors_get_witness :
  let self := Cases.head "/style.css" [] in
  serves Demo.env self Demo.style_css
  /\ readable Demo.env Demo.style_css Demo.style_data Demo.style_mtime
  /\ revalidated Demo.env self Demo.style_data Demo.style_mtime = false
  /\ response Demo.env self false
     = wfile (snd (do_HEAD Demo.env self (start self)))
       ++ [Body (static_body Demo.env self Demo.style_css Demo.style_data)]
  /\ header_values (lit "Content-Length")
       (response_headers (wfile (snd (do_HEAD Demo.env self (start self)))))
     = [str_of_N (N.of_nat (length (response_body (response Demo.env self false))))].
Proof.
  intros self.
  assert (Hs : serves Demo.env self Demo.style_css) by serves_at (lit "style.css").
  pose proof demo_readable_style as Hr.
  assert (Hf : revalidated Demo.env self Demo.style_data Demo.style_mtime = false)
    by (vm_compute; reflexivity).
  exact (conj Hs (conj Hr (conj Hf
           (proj2 (proj2 (proj2 (X1_head_mirrors_get Demo.env self Demo.style_css
                                   Demo.style_data Demo.style_mtime Hs Hr))) Hf)))).
Defined.

(** X2: the Cache-Control of a static response is decided by the end of the
    name of the file that is served, compared with case: [no-cache] for
    [.html], thirty days for the style sheet, script and image suffixes,
    one hour for everything else; it is sent exactly once. *)
Theorem X2_cache_control_policy (E : Env) (self : request) (head_only : bool)
        (file : pystr) (data : bytes) (mtime : Z) :
  serves E self file -> readable E file data mtime ->
  let policy :=
    header_values (lit "Cache-Control") (response_headers (response E self head_only)) in
  (endswith file (lit ".html") = true -> policy = [lit "no-cache"])
  /\ (forall ext, In ext long_lived -> endswith file ext = true ->
                  endswith file (lit ".html") = false ->
                  policy = [lit "public, max-age=2592000"])
  /\ ((forall ext, In ext long_lived -> endswith file ext = false) ->
      endswith file (lit ".html") = false ->
      policy = [lit "public, max-age=3600"]).
Proof.
  intros Hs Hr policy. subst policy.
  destruct (caching_headers E self head_only file data mtime Hs Hr) as [-> _].
  unfold cache_control. split; [|split].
  - now intros ->.
  - intros ext Hin Hext ->.
    assert (H : existsb (endswith file) long_lived = true)
      by (apply existsb_exists; now exists ext).
    now rewrite H.
  - intros Hnone ->.
    assert (H : existsb (endswith file) long_lived = false).
    { apply not_true_is_false. intros H. apply existsb_exists in H as (ext & Hin & Hext).
      rewrite (Hnone ext Hin) in Hext. discriminate. }
    now rewrite H.
Qed.

Lemma X2_cache_control_policy_witness :
  let policy (p : string) :=
    header_values (lit "Cache-Control")
                  (response_headers (response Demo.env (Demo.get p []) false)) in
  (endswith Demo.index_html (lit ".html") = true /\ policy "/index.html"%string = [lit "no-cache"])
  /\ (In (lit ".css") long_lived /\ endswith Demo.style_css (lit ".css") = true
      /\ policy "/style.css"%string = [lit "public, max-age=2592000"])
  /\ ((forall ext, In ext long_lived -> endswith (lit "/srv/www/public/LICENSE") ext = false)
      /\ policy "/LICENSE"%string = [lit "public, max-age=3600"]).
Proof.
  intros policy.
  assert (Hs1 : serves Demo.env (Demo.get "/index.html" []) Demo.index_html)
    by serves_at (lit "index.html").
  assert (Hs3 : serves Demo.env (Demo.get "/LICENSE" []) (lit "/srv/www/public/LICENSE"))
    by serves_at (lit "LICENSE").
  assert (Hr3 : readable Demo.env (lit "/srv/www/public/LICENSE") (blit "MIT") Demo.style_mtime)
    by is_readable.
  assert (H1 : endswith Demo.index_html (lit ".html") = true) by reflexivity.
  assert (H2 : In (lit ".css") long_lived) by (left; reflexivity).
  assert (H2' : endswith Demo.style_css (lit ".css") = true) by reflexivity.
  assert (H3 : forall ext, In ext long_lived ->
                           endswith (lit "/srv/www/public/LICENSE") ext = false).
  { intros ext Hin. cbn in Hin.
    repeat (destruct Hin as [<-|Hin]; [reflexivity|]). contradiction. }
  refine (conj (conj H1 _) (conj (conj H2 (conj H2' _)) (conj H3 _))).
  - exact (proj1 (X2_cache_control_policy Demo.env (Demo.get "/index.html" []) false
                    Demo.index_html Demo.index_data Demo.index_mtime
                    Hs1 demo_readable_index) H1).
  - exact (proj1 (proj2 (X2_cache_control_policy Demo.env (Demo.get "/style.css" []) false
                           Demo.style_css Demo.style_data Demo.style_mtime
                           (demo_serves_style []) demo_readable_style))
             (lit ".css") H2 H2' eq_refl).
  - exact (proj2 (proj2 (X2_cache_control_policy Demo.env (Demo.get "/LICENSE" []) false
                           (lit "/srv/www/public/LICENSE") (blit "MIT") Demo.style_mtime
                           Hs3 Hr3))
             H3 eq_refl).
Defined.

(** X3: unless the request's Accept-Encoding mentions gzip and the type is
    compressible, the body of a full static response is the file, byte for
    byte, with its length as Content-Length and no Content-Encoding. *)
Theorem X3_identity_body (E : Env) (self : request)
        (file : pystr) (data : bytes) (mtime : Z) :
  serves E self file -> readable E file data mtime ->
  revalidated E self data mtime = false ->
  accepts_gzip self = false \/ is_compressible (served_mime E file) = false ->
  response_body (response E self false) = data
  /\ header_values (lit "Content-Length") (response_headers (response E self false))
     = [str_of_N (N.of_nat (length data))]
  /\ header_values (lit "Content-Encoding") (response_headers (response E self false))
     = [].
Proof.
  intros Hs Hr Hfull Hplain.
  destruct (response_serves E self file false data mtime Hs Hr) as [-> _].
  rewrite static_wire_body, static_wire_content_length, static_wire_content_encoding.
  rewrite Hfull. cbn [orb negb andb].
  assert (Hz : should_gzip E self file = false).
  { unfold should_gzip. unfold accepts_gzip in Hplain.
    destruct Hplain as [-> | ->]; [reflexivity | apply andb_false_r]. }
  unfold static_body. now rewrite Hz.
Qed.

Lemma X3_identity_body_witness :
  let self := Demo.get "/photo.png" [("Accept-Encoding", "gzip, deflate")]%string in
  serves Cases.env self (lit "/srv/www/public/photo.png")
  /\ readable Cases.env (lit "/srv/www/public/photo.png") (blit "PNG") Demo.style_mtime
  /\ accepts_gzip self = true
  /\ is_compressible (served_mime Cases.env (lit "/srv/www/public/photo.png")) = false
  /\ response_body (response Cases.env self false) = blit "PNG"
  /\ header_values (lit "Content-Length") (response_headers (response Cases.env self false))
     = [str_of_N (N.of_nat (length (blit "PNG")))]
  /\ header_values (lit "Content-Encoding") (response_headers (response Cases.env self false))
     = [].
Proof.
  intros self.
  assert (Hs : serves Cases.env self (lit "/srv/www/public/photo.png"))
    by serves_at (lit "photo.png").
  assert (Hr : readable Cases.env (lit "/srv/www/public/photo.png") (blit "PNG")
                        Demo.style_mtime) by is_readable.
  assert (Hf : revalidated Cases.env self (blit "PNG") Demo.style_mtime = false)
    by (vm_compute; reflexivity).
  assert (Hg : accepts_gzip self = true) by (vm_compute; reflexivity).
  assert (Hc : is_compressible (served_mime Cases.env (lit "/srv/www/public/photo.png"))
               = false) by (vm_compute; reflexivity).
  exact (conj Hs (conj Hr (conj Hg (conj Hc
           (X3_identity_body Cases.env self (lit "/srv/www/public/photo.png") (blit "PNG")
              Demo.style_mtime Hs Hr Hf (or_intror Hc)))))).
Defined.

(** ** Validators *)

Lemma hex_word_length (w : N) : length (Sha1.hex_word w) = 8%nat.
Proof. unfold Sha1.hex_word. now rewrite length_map. Qed.

Lemma hex_digit_lower (v : N) : is_lower_hex (Sha1.hex_digit (N.land v 0xF)) = true.
Proof.
  change 0xF%N with (N.ones 4). rewrite N.land_ones.
  pose proof (N.mod_lt v (2 ^ 4) ltac:(discriminate)) as H.
  generalize dependent (v mod 2 ^ 4)%N. intros d H. change (2 ^ 4)%N with 16%N in H.
  unfold Sha1.hex_digit, is_lower_hex, in_range.
  destruct (d <? 10)%N eqn:Hlt.
  - apply N.ltb_lt in Hlt. apply orb_true_iff. left.
    apply andb_true_iff. split; apply N.leb_le; lia.
  - apply N.ltb_ge in Hlt. apply orb_true_iff. right.
    apply andb_true_iff. split; apply N.leb_le; lia.
Qed.

Lemma hex_word_lower (w : N) : forallb is_lower_hex (Sha1.hex_word w) = true.
Proof.
  unfold Sha1.hex_word. apply forallb_forall. intros c Hc.
  apply in_map_iff in Hc as [i [<- _]]. apply hex_digit_lower.
Qed.

Lemma digest_words_length (data : bytes) : length (Sha1.digest_words data) = 5%nat.
Proof.
  unfold Sha1.digest_words. cbv zeta.
  generalize (fold_left Sha1.compress
                (Sha1.blocks (length (Sha1.pad (map Byte.to_N data)) / 64)
                             (Sha1.pad (map Byte.to_N data))) Sha1.init).
  now intros [[[[h0 h1] h2] h3] h4].
Qed.

Lemma etag_format (data : bytes) :
  length (generate_etag_bytes data) = 40%nat
  /\ forallb is_lower_hex (generate_etag_bytes data) = true.
Proof.
  unfold generate_etag_bytes, Sha1.hexdigest.
  pose proof (digest_words_length data) as Hlen.
  generalize dependent (Sha1.digest_words data). intros ws Hlen. split.
  - destruct ws as [|a [|b [|c [|d [|e [|f ws]]]]]]; try discriminate.
    cbn [flat_map]. rewrite !length_app, !hex_word_length. reflexivity.
  - clear Hlen. induction ws as [|w ws IH]; cbn [flat_map]; [reflexivity|].
    now rewrite forallb_app, hex_word_lower.
Qed.

(** X4: the entity tag of any content is forty characters, each one of
    [0-9a-f]; in particular it fits a header line, whatever the file holds. *)
Theorem X4_etag_format (data : bytes) :
  length (generate_etag_bytes data) = 40%nat
  /\ forallb is_lower_hex (generate_etag_bytes data) = true
  /\ is_latin1 (generate_etag_bytes data) = true.
Proof.
  destruct (etag_format data) as [Hlen Hhex].
  repeat split; [exact Hlen | exact Hhex | apply is_latin1_etag].
Qed.

Section Validators.

Variable E : Env.
Variable self : request.
Variable file : pystr.
Variable data : bytes.
Variable mtime : Z.

Hypothesis Hserves : serves E self file.
Hypothesis Hreadable : readable E file data mtime.

(** A value that is not forty characters of [0-9a-f] is no entity tag of
    this server. *)
Lemma foreign_tag (v : pystr) :
  headers_get (headers self) (lit "If-None-Match") = Some v ->
  length v <> 40%nat \/ forallb is_lower_hex v = false ->
  etag_matches self (generate_etag_bytes data) = false.
Proof.
  intros Hv Hforeign. unfold etag_matches. rewrite Hv.
  apply str_eqb_neq. intros ->.
  destruct (etag_format data) as [Hlen Hhex].
  destruct Hforeign as [H | H]; [now apply H | congruence].
Qed.

End Validators.

Lemma format_datetime_cons (dt : datetime) :
  exists c v, format_datetime dt = c :: v.
Proof.
  unfold format_datetime.
  destruct (civil_from_days (instant dt / 1000000 / 86400)) as [[y m] d].
  destruct (nth (Z.to_nat ((instant dt / 1000000 / 86400 + 3) mod 7)) day_names [])
    as [|c v]; cbn [app]; eauto.
  change (lit ", ") with [44%N; 32%N]. cbn [app]. eauto.
Qed.

(** X5: If-None-Match is compared with the entity tag as one string.  A
    value that is not forty characters of [0-9a-f] (an asterisk, a quoted or
    weak tag, a list of tags, a tag in capitals) matches no file: without a
    usable If-Modified-Since the full response is sent. *)
Theorem X5_if_none_match_is_exact (E : Env) (self : request) (head_only : bool)
        (file : pystr) (data : bytes) (mtime : Z) (v : pystr) :
  serves E self file -> readable E file data mtime ->
  headers_get (headers self) (lit "If-None-Match") = Some v ->
  length v <> 40%nat \/ forallb is_lower_hex v = false ->
  modified_since E self = None ->
  outcome E self head_only = Ret tt
  /\ response_status (response E self head_only) = Some 200%Z
  /\ response_body (response E self head_only)
     = (if head_only then [] else static_body E self file data)
  /\ header_values (lit "Content-Length") (response_headers (response E self head_only))
     = [str_of_N (N.of_nat (length (static_body E self file data)))].
Proof.
  intros Hs Hr Hv Hforeign Hdate.
  apply (unparsable_date_fails_open E self head_only file data mtime Hs Hr Hdate).
  exact (foreign_tag self data v Hv Hforeign).
Qed.

Lemma X5_if_none_match_is_exact_witness :
  let self := Demo.get "/style.css" [("If-None-Match", "*")]%string in
  serves Demo.env self Demo.style_css
  /\ readable Demo.env Demo.style_css Demo.style_data Demo.style_mtime
  /\ headers_get (headers self) (lit "If-None-Match") = Some (lit "*")
  /\ length (lit "*") <> 40%nat
  /\ modified_since Demo.env self = None
  /\ response_status (response Demo.env self false) = Some 200%Z
  /\ response_body (response Demo.env self false)
     = static_body Demo.env self Demo.style_css Demo.style_data.
Proof.
  intros self.
  pose proof (demo_serves_style [("If-None-Match", "*")]%string) as Hs.
  pose proof demo_readable_style as Hr.
  assert (Hv : headers_get (headers self) (lit "If-None-Match") = Some (lit "*"))
    by reflexivity.
  assert (Hlen : length (lit "*") <> 40%nat) by discriminate.
  assert (Hd : modified_since Demo.env self = None) by reflexivity.
  pose proof (X5_if_none_match_is_exact Demo.env self false Demo.style_css Demo.style_data
                Demo.style_mtime (lit "*") Hs Hr Hv (or_introl Hlen) Hd)
    as (_ & Hstatus & Hbody & _).
  exact (conj Hs (conj Hr (conj Hv (conj Hlen (conj Hd (conj Hstatus Hbody)))))).
Defined.

(** X6: a tag that does not match does not end the revalidation: when
    If-None-Match differs from the entity tag and If-Modified-Since parses to
    an instant not before the file's modification time, the handler still
    takes its not-modified exit, with no body and no Content-Length. *)
Theorem X6_date_checked_after_tag_mismatch (E : Env) (self : request)
        (head_only : bool) (file : pystr) (data : bytes) (mtime : Z)
        (v : pystr) (t : Z) :
  serves E self file -> readable E file data mtime ->
  headers_get (headers self) (lit "If-None-Match") = Some v ->
  v <> generate_etag_bytes data ->
  modified_since E self = Some t -> (mtime <= t)%Z ->
  response E self head_only
  = map Head (static_head E file data mtime
              ++ StatusLine 304 (lit "Not Modified") :: server_date E ++ [BlankLine])
  /\ response_body (response E self head_only) = []
  /\ header_values (lit "Content-Length") (response_headers (response E self head_only))
     = [].
Proof.
  intros Hs Hr Hv Hne Hdate Hle.
  assert (Hre : revalidated E self data mtime = true).
  { apply revalidated_iff. right. now exists t. }
  destruct (not_modified_exit E self head_only file data mtime Hs Hr Hre)
    as (Hwire & _ & Hbody & Hlen).
  now split; [|split].
Qed.

Lemma X6_date_checked_after_tag_mismatch_witness :
  let self :=
    Demo.get "/style.css"
             [("If-None-Match", "0000"); ("If-Modified-Since", Demo.style_date)]%string in
  serves Demo.env self Demo.style_css
  /\ readable Demo.env Demo.style_css Demo.style_data Demo.style_mtime
  /\ headers_get (headers self) (lit "If-None-Match") = Some (lit "0000")
  /\ lit "0000" <> generate_etag_bytes Demo.style_data
  /\ modified_since Demo.env self = Some Demo.style_mtime
  /\ (Demo.style_mtime <= Demo.style_mtime)%Z
  /\ response_body (response Demo.env self false) = []
  /\ header_values (lit "Content-Length") (response_headers (response Demo.env self false))
     = [].
Proof.
  intros self.
  pose proof (demo_serves_style (headers self)) as Hs.
  pose proof demo_readable_style as Hr.
  assert (Hv : headers_get (headers self) (lit "If-None-Match") = Some (lit "0000"))
    by reflexivity.
  assert (Hne : lit "0000" <> generate_etag_bytes Demo.style_data)
    by (vm_compute; discriminate).
  assert (Hd : modified_since Demo.env self = Some Demo.style_mtime)
    by (vm_compute; reflexivity).
  assert (Hle : (Demo.style_mtime <= Demo.style_mtime)%Z) by lia.
  exact (conj Hs (conj Hr (conj Hv (conj Hne (conj Hd (conj Hle
           (proj2 (X6_date_checked_after_tag_mismatch Demo.env self false Demo.style_css
                     Demo.style_data Demo.style_mtime (lit "0000") Demo.style_mtime
                     Hs Hr Hv Hne Hd Hle)))))))).
Defined.

(** X7: Last-Modified shows the modification time cut to the second, and
    the comparison with If-Modified-Since uses the time as it is.  A client
    that sends back the Last-Modified it was given, read as that second, is
    told the file is not modified when the modification time is a whole
    second, and is sent the whole file again when it is not. *)
Theorem X7_last_modified_drops_fraction (E : Env) (self : request)
        (file : pystr) (data : bytes) (mtime : Z) (dt : datetime) :
  serves E self file -> readable E file data mtime ->
  etag_matches self (generate_etag_bytes data) = false ->
  headers_get (headers self) (lit "If-Modified-Since")
  = Some (format_datetime (Aware mtime)) ->
  parsedate_to_datetime E (format_datetime (Aware mtime)) = Ret dt ->
  instant dt = (mtime / 1000000 * 1000000)%Z ->
  header_values (lit "Last-Modified") (response_headers (response E self false))
  = [format_datetime (Aware mtime)]
  /\ ((mtime mod 1000000 = 0)%Z ->
      response_body (response E self false) = []
      /\ header_values (lit "Content-Length") (response_headers (response E self false))
         = [])
  /\ ((mtime mod 1000000 <> 0)%Z ->
      response_body (response E self false) = static_body E self file data
      /\ header_values (lit "Content-Length") (response_headers (response E self false))
         = [str_of_N (N.of_nat (length (static_body E self file data)))]).
Proof.
  intros Hs Hr Htag Hims Hparse Hsecond.
  assert (Hms : modified_since E self = Some (mtime / 1000000 * 1000000)%Z).
  { unfold modified_since. rewrite Hims.
    destruct (format_datetime_cons (Aware mtime)) as (c & v & Heq).
    rewrite Heq in *. rewrite Hparse. now rewrite Hsecond. }
  pose proof (Z.div_mod mtime 1000000 ltac:(lia)) as Hdm.
  pose proof (Z.mod_pos_bound mtime 1000000 ltac:(lia)) as Hbound.
  split; [|split].
  - now destruct (caching_headers E self false file data mtime Hs Hr) as (_ & _ & -> & _).
  - intros Hwhole.
    assert (Hre : revalidated E self data mtime = true).
    { apply revalidated_iff. right.
      exists (mtime / 1000000 * 1000000)%Z. split; [exact Hms | lia]. }
    destruct (not_modified_exit E self false file data mtime Hs Hr Hre)
      as (_ & _ & Hbody & Hlen).
    now split.
  - intros Hfrac.
    assert (Hre : revalidated E self data mtime = false).
    { unfold revalidated, not_modified_since. rewrite Htag, Hms. cbn [orb].
      apply Z.leb_gt. lia. }
    destruct (full_response E self false file data mtime Hs Hr Hre)
      as (_ & _ & Hbody & Hlen).
    now split.
Qed.

Lemma X7_last_modified_drops_fraction_witness :
  let stale := Demo.get "/index.html" [("If-Modified-Since", Demo.style_date)]%string in
  (serves Demo.env stale Demo.index_html
   /\ readable Demo.env Demo.index_html Demo.index_data Demo.index_mtime
   /\ headers_get (headers stale) (lit "If-Modified-Since")
      = Some (format_datetime (Aware Demo.index_mtime))
   /\ parsedate_to_datetime Demo.env (format_datetime (Aware Demo.index_mtime))
      = Ret (Aware 784111777000000)
   /\ (Demo.index_mtime mod 1000000 <> 0)%Z
   /\ response_body (response Demo.env stale false)
      = static_body Demo.env stale Demo.index_html Demo.index_data)
  /\ (serves Demo.env Demo.revalidate_by_date Demo.style_css
      /\ headers_get (headers Demo.revalidate_by_date) (lit "If-Modified-Since")
         = Some (format_datetime (Aware Demo.style_mtime))
      /\ (Demo.style_mtime mod 1000000 = 0)%Z
      /\ response_body (response Demo.env Demo.revalidate_by_date false) = []).
Proof.
  intros stale.
  assert (Hs : serves Demo.env stale Demo.index_html) by serves_at (lit "index.html").
  pose proof demo_readable_index as Hr.
  assert (Ht : etag_matches stale (generate_etag_bytes Demo.index_data) = false)
    by reflexivity.
  assert (Hh : headers_get (headers stale) (lit "If-Modified-Since")
               = Some (format_datetime (Aware Demo.index_mtime)))
    by (vm_compute; reflexivity).
  assert (Hp : parsedate_to_datetime Demo.env (format_datetime (Aware Demo.index_mtime))
               = Ret (Aware 784111777000000)) by (vm_compute; reflexivity).
  assert (Hi : instant (Aware 784111777000000)
               = (Demo.index_mtime / 1000000 * 1000000)%Z) by (vm_compute; reflexivity).
  assert (Hf : (Demo.index_mtime mod 1000000 <> 0)%Z) by (vm_compute; discriminate).
  pose proof (demo_serves_style (headers Demo.revalidate_by_date)) as Hs'.
  pose proof demo_readable_style as Hr'.
  assert (Ht' : etag_matches Demo.revalidate_by_date (generate_etag_bytes Demo.style_data)
                = false) by reflexivity.
  assert (Hh' : headers_get (headers Demo.revalidate_by_date) (lit "If-Modified-Since")
                = Some (format_datetime (Aware Demo.style_mtime)))
    by (vm_compute; reflexivity).
  assert (Hp' : parsedate_to_datetime Demo.env (format_datetime (Aware Demo.style_mtime))
                = Ret (Aware 784111777000000)) by (vm_compute; reflexivity).
  assert (Hi' : instant (Aware 784111777000000)
                = (Demo.style_mtime / 1000000 * 1000000)%Z) by (vm_compute; reflexivity).
  assert (Hw : (Demo.style_mtime mod 1000000 = 0)%Z) by reflexivity.
  pose proof (X7_last_modified_drops_fraction Demo.env stale Demo.index_html
                Demo.index_data Demo.index_mtime _ Hs Hr Ht Hh Hp Hi) as (_ & _ & Hfull).
  pose proof (X7_last_modified_drops_fraction Demo.env Demo.revalidate_by_date
                Demo.style_css Demo.style_data Demo.style_mtime _ Hs' Hr' Ht' Hh' Hp' Hi')
    as (_ & Hnot & _).
  exact (conj (conj Hs (conj Hr (conj Hh (conj Hp (conj Hf (proj1 (Hfull Hf)))))))
              (conj Hs' (conj Hh' (conj Hw (proj1 (Hnot Hw)))))).
Defined.

(** ** The file system as the static branch uses it *)

Section Footprint.

Variable E : Env.
Variable self : request.
Variable head_only : bool.
Variable decoded : pystr.

Hypothesis Hroute : static_route self = true.
Hypothesis Hdecoded : decoded_path E self = Ret decoded.
Hypothesis Hdots : startswith (normalized_path decoded) (lit "..") = false.

Lemma serves_resolved (file : pystr) :
  resolved_file E (normalized_path decoded) = Some file -> serves E self file.
Proof. intros Hres. split; [exact Hroute|]. now exists decoded. Qed.

(** the calls of a request whose file is served *)
Lemma static_calls (file : pystr) (data : bytes) (mtime : Z) :
  resolved_file E (normalized_path decoded) = Some file ->
  readable E file data mtime ->
  fs_calls E self head_only
  = lookups E (normalized_path decoded) ++ [OpenRead file; Stat file].
Proof.
  intros Hres Hr. unfold fs_calls.
  rewrite (do_GET_static E self head_only decoded (start self) Hroute Hdecoded).
  unfold try_except. cbv zeta. rewrite Hdots, Hres.
  rewrite (serve_static_run E self file head_only data mtime _ Hr). reflexivity.
Qed.

End Footprint.

(** X8: a static request that ends in a file being served makes four or
    five file-system calls, all of them reads, in this order: is the joined
    path a directory, does the target exist, does the fallback exist (when
    the target does not), open and read the file, stat it.  The file is
    read in full whether or not a body is sent (HEAD, not modified). *)
Theorem X8_static_file_system_calls (E : Env) (self : request) (head_only : bool)
        (decoded file : pystr) (data : bytes) (mtime : Z) :
  static_route self = true -> decoded_path E self = Ret decoded ->
  startswith (normalized_path decoded) (lit "..") = false ->
  resolved_file E (normalized_path decoded) = Some file ->
  readable E file data mtime ->
  fs_calls E self head_only
  = [Isdir (PosixPath.join (PUBLIC_DIR E) (normalized_path decoded));
     Exists (target E (normalized_path decoded))]
    ++ (if os_path_exists E (target E (normalized_path decoded)) then []
        else [Exists (fallback E)])
    ++ [OpenRead file; Stat file].
Proof.
  intros Hroute Hdec Hdots Hres Hr.
  rewrite (static_calls E self head_only decoded Hroute Hdec Hdots file data mtime Hres Hr).
  unfold lookups. now rewrite <- app_assoc.
Qed.

Lemma X8_static_file_system_calls_witness :
  let self := Cases.head "/style.css" [("If-None-Match", Demo.style_etag)]%string in
  static_route self = true
  /\ decoded_path Demo.env self = Ret (lit "style.css")
  /\ startswith (normalized_path (lit "style.css")) (lit "..") = false
  /\ resolved_file Demo.env (normalized_path (lit "style.css")) = Some Demo.style_css
  /\ readable Demo.env Demo.style_css Demo.style_data Demo.style_mtime
  /\ fs_calls Demo.env self true
     = [Isdir Demo.style_css; Exists Demo.style_css;
        OpenRead Demo.style_css; Stat Demo.style_css].
Proof.
  intros self.
  assert (H1 : static_route self = true) by reflexivity.
  assert (H2 : decoded_path Demo.env self = Ret (lit "style.css"))
    by (vm_compute; reflexivity).
  assert (H3 : startswith (normalized_path (lit "style.css")) (lit "..") = false)
    by (vm_compute; reflexivity).
  assert (H4 : resolved_file Demo.env (normalized_path (lit "style.css"))
               = Some Demo.style_css) by (vm_compute; reflexivity).
  pose proof demo_readable_style as H5.
  exact (conj H1 (conj H2 (conj H3 (conj H4 (conj H5
           (X8_static_file_system_calls Demo.env self true (lit "style.css")
              Demo.style_css Demo.style_data Demo.style_mtime H1 H2 H3 H4 H5)))))).
Defined.

(** ** Calls that stay under the document root *)

Lemma join_keeps_prefix (a b root : pystr) :
  startswith b [PosixPath.sep] = false -> startswith a root = true ->
  startswith (PosixPath.join a b) root = true.
Proof.
  intros Hb Ha. unfold PosixPath.join. rewrite Hb.
  apply startswith_prefix in Ha as [t ->].
  destruct (is_empty (root ++ t) || endswith (root ++ t) [PosixPath.sep]);
    rewrite <- app_assoc; apply startswith_app.
Qed.

Lemma startswith_refl (s : pystr) : startswith s s = true.
Proof. rewrite <- (app_nil_r s) at 1. apply startswith_app. Qed.

(** X9: when the percent-decoded path does not begin with a separator,
    every file-system call of the request, whatever its outcome, is made on
    a path that begins with the document root. *)
Theorem X9_relative_paths_stay_in_root (E : Env) (self : request) (head_only : bool)
        (decoded : pystr) :
  static_route self = true -> decoded_path E self = Ret decoded ->
  startswith decoded [PosixPath.sep] = false ->
  forallb (under_root E) (fs_calls E self head_only) = true.
Proof.
  intros Hroute Hdec Hrel.
  destruct (startswith (normalized_path decoded) (lit "..")) eqn:Hdots.
  { unfold fs_calls.
    now rewrite (do_GET_forbidden E self head_only decoded (start self) Hroute Hdec Hdots). }
  destruct (relative_path_stays_inside (PUBLIC_DIR E) decoded Hrel Hdots) as [_ Hin].
  set (n := normalized_path decoded) in *.
  assert (Hfallback : startswith (fallback E) (PUBLIC_DIR E) = true)
    by (apply join_keeps_prefix; [reflexivity | apply startswith_refl]).
  assert (Htarget : startswith (target E n) (PUBLIC_DIR E) = true).
  { unfold target. cbv zeta. destruct (os_path_isdir E _); [|exact Hin].
    now apply join_keeps_prefix. }
  assert (Hlook : forallb (under_root E) (lookups E n) = true).
  { unfold lookups, under_root. destruct (os_path_exists E (target E n));
      cbn [app forallb call_path]; now rewrite Hin, Htarget, ?Hfallback. }
  assert (Hfile : forall file, resolved_file E n = Some file ->
                               startswith file (PUBLIC_DIR E) = true).
  { unfold resolved_file. intros file.
    destruct (os_path_exists E (target E n)); [now intros [= <-]|].
    destruct (os_path_exists E (fallback E)); [now intros [= <-] | discriminate]. }
  assert (Hserve : forall file, resolved_file E n = Some file ->
             keeps (calls_among (under_root E)) (_serve_static E self file head_only)).
  { intros file Hres. apply keeps_serve_static; try among_frame;
      apply calls_among_log; unfold under_root; cbn [call_path]; now apply Hfile. }
  assert (Herror : keeps (calls_among (under_root E))
                         (send_error' E self 404 (lit "Not Found")))
    by (apply keeps_send_error; among_frame).
  assert (Hkeeps : calls_among (under_root E) (start self)
                     (snd (do_GET E self head_only (start self)))).
  { rewrite (do_GET_static E self head_only decoded (start self) Hroute Hdec).
    apply (keeps_try_except (calls_among (under_root E)));
      [exact (calls_among_trans _) | | intros e; apply keeps_internal_error; among_frame].
    intros st. cbv zeta. fold n. rewrite Hdots.
    apply calls_among_trans with (b := logged (lookups E n) st);
      [now apply calls_among_logged|].
    destruct (resolved_file E n) as [file|]; [now apply Hserve | apply Herror]. }
  destruct Hkeeps as (calls & Hcalls & Hok). unfold fs_calls. now rewrite Hcalls.
Qed.

Lemma X9_relative_paths_stay_in_root_witness :
  let self := Demo.get "/docs/../secret.txt" [] in
  static_route self = true
  /\ decoded_path Demo.env self = Ret (lit "docs/../secret.txt")
  /\ startswith (lit "docs/../secret.txt") [PosixPath.sep] = false
  /\ forallb (under_root Demo.env) (fs_calls Demo.env self false) = true.
Proof.
  intros self.
  assert (H1 : static_route self = true) by reflexivity.
  assert (H2 : decoded_path Demo.env self = Ret (lit "docs/../secret.txt"))
    by (vm_compute; reflexivity).
  assert (H3 : startswith (lit "docs/../secret.txt") [PosixPath.sep] = false)
    by reflexivity.
  exact (conj H1 (conj H2 (conj H3
           (X9_relative_paths_stay_in_root Demo.env self false (lit "docs/../secret.txt")
              H1 H2 H3)))).
Defined.

(** ** Query strings *)

Lemma before_absent (sep : N) (p : pystr) : has_char sep p = false -> before sep p = p.
Proof.
  intros H. rewrite <- (app_nil_r p) at 1. rewrite (before_app sep p [] H).
  apply app_nil_r.
Qed.

(** [urlparse] returns a plain path as it is. *)
Lemma urlparse_path_plain (check : pystr -> option exn) (p : pystr) :
  plain_path p = true -> UrlParse.urlparse_path check p = Ret p.
Proof.
  intros Hp. destruct p as [|c [|d p]]; try discriminate.
  unfold plain_path in Hp.
  repeat (apply andb_true_iff in Hp as [Hp ?]).
  repeat match goal with H : negb _ = true |- _ => apply negb_true_iff in H end.
  unfold UrlParse.urlparse_path. cbv zeta. cbn [lstrip]. rewrite Hp.
  rewrite filter_keeps by assumption.
  rewrite split_scheme_none by assumption.
  match goal with H : startswith (c :: d :: p) _ = false |- _ => rewrite H end.
  cbv iota.
  rewrite (before_absent (ch "#")) by assumption.
  rewrite (before_absent (ch "?")) by assumption.
  match goal with H : has_char (ch ";") _ = false |- _ => rewrite H end.
  now rewrite andb_false_r.
Qed.







(** ** Names that begin with two dots, and directories *)

Lemma split_single (sep : N) (s : pystr) :
  has_char sep s = false -> split sep s = [s].
Proof.
  induction s as [|c s IH]; intros H; [reflexivity|].
  cbn [has_char existsb] in H. apply orb_false_iff in H as [Hc Hs].
  cbn [split]. rewrite (N.eqb_sym c sep), Hc. now rewrite (IH Hs).
Qed.

Lemma two_dots_shape (name : pystr) :
  startswith name (lit "..") = true -> exists r, name = ch "." :: ch "." :: r.
Proof. intros H. apply startswith_prefix in H as [t ->]. now exists t. Qed.

(** a single component that begins with two dots is its own normal form *)
Lemma normpath_two_dots (name : pystr) :
  has_char PosixPath.sep name = false ->
  startswith name (lit "..") = true ->
  PosixPath.normpath name = name.
Proof.
  intros Hsep Hdots. destruct (two_dots_shape name Hdots) as [r ->].
  unfold PosixPath.normpath. cbn [is_empty].
  change (startswith (ch "." :: ch "." :: r) [PosixPath.sep]) with false. cbv iota zeta.
  rewrite (split_single _ _ Hsep). cbn [fold_left].
  unfold PosixPath.norm_step.
  change (str_eqb (ch "." :: ch "." :: r) []) with false.
  change (str_eqb (ch "." :: ch "." :: r) PosixPath.dot) with false.
  cbn [orb is_empty Nat.eqb andb]. rewrite orb_true_r. cbn [orb negb app repeat PyStr.join].
  reflexivity.
Qed.

(** X11: the traversal check looks at the first two characters of the
    normalized path.  A request for a name that begins with two dots, such
    as [/..data], is answered 403 without a file-system call, whether or not
    a file of that name lies in the document root. *)
Theorem X11_names_with_two_dots (E : Env) (self : request) (head_only : bool)
        (name : string) :
  path self = ("/" ++ name)%string ->
  plain_path (lit (path self)) = true ->
  has_char PosixPath.sep (lit name) = false ->
  has_char (ch "%") (lit name) = false ->
  startswith (lit name) (lit "..") = true ->
  response E self head_only = error_wire E self 403 (lit "Forbidden")
  /\ outcome E self head_only = Ret tt
  /\ fs_calls E self head_only = [].
Proof.
  intros Hpath Hplain Hsep Hpct Hdots.
  assert (Hself : self_path self = ch "/" :: lit name).
  { unfold self_path. rewrite Hpath. now rewrite lit_app. }
  pose proof (two_dots_shape (lit name) Hdots) as Hshape.
  destruct Hshape as [r Hr].
  assert (Hroute : static_route self = true).
  { unfold static_route. rewrite Hself, Hr. reflexivity. }
  assert (Hdec : decoded_path E self = Ret (lit name)).
  { unfold decoded_path. fold (self_path self).
    rewrite (urlparse_path_plain _ _ Hplain).
    unfold self_path in Hself. rewrite Hself. cbn [lstrip]. rewrite N.eqb_refl.
    assert (Hstrip : lstrip (N.eqb (ch "/")) (lit name) = lit name)
      by (rewrite Hr; reflexivity).
    rewrite Hstrip. unfold UrlParse.unquote. now rewrite Hpct. }
  assert (Hnorm : startswith (normalized_path (lit name)) (lit "..") = true).
  { unfold normalized_path.
    assert (Hne : is_empty (lit name) = false) by (rewrite Hr; reflexivity).
    rewrite Hne. now rewrite (normpath_two_dots _ Hsep Hdots). }
  unfold response, outcome, fs_calls.
  rewrite (do_GET_forbidden E self head_only (lit name) (start self) Hroute Hdec Hnorm).
  repeat split; reflexivity.
Qed.

Lemma X11_names_with_two_dots_witness :
  let self := Demo.get "/..data" [] in
  path self = ("/" ++ "..data")%string
  /\ plain_path (lit (path self)) = true
  /\ has_char PosixPath.sep (lit "..data") = false
  /\ has_char (ch "%") (lit "..data") = false
  /\ startswith (lit "..data") (lit "..") = true
  /\ os_path_exists Cases.env (lit "/srv/www/public/..data") = true
  /\ response Cases.env self false = error_wire Cases.env self 403 (lit "Forbidden")
  /\ fs_calls Cases.env self false = [].
Proof.
  intros self.
  assert (H1 : path self = ("/" ++ "..data")%string) by reflexivity.
  assert (H2 : plain_path (lit (path self)) = true) by reflexivity.
  assert (H3 : has_char PosixPath.sep (lit "..data") = false) by reflexivity.
  assert (H4 : has_char (ch "%") (lit "..data") = false) by reflexivity.
  assert (H5 : startswith (lit "..data") (lit "..") = true) by reflexivity.
  assert (H6 : os_path_exists Cases.env (lit "/srv/www/public/..data") = true)
    by (vm_compute; reflexivity).
  pose proof (X11_names_with_two_dots Cases.env self false "..data" H1 H2 H3 H4 H5)
    as (Hw & _ & Hc).
  exact (conj H1 (conj H2 (conj H3 (conj H4 (conj H5 (conj H6 (conj Hw Hc))))))).
Defined.

(** X12: a request whose path resolves to a directory that holds an
    [index.html] is answered with that file, as [no-cache]; the directory
    itself is never opened or listed. *)
Theorem X12_directory_index (E : Env) (self : request) (head_only : bool)
        (decoded : pystr) (data : bytes) (mtime : Z) :
  static_route self = true -> decoded_path E self = Ret decoded ->
  startswith (normalized_path decoded) (lit "..") = false ->
  let dir := PosixPath.join (PUBLIC_DIR E) (normalized_path decoded) in
  let index := PosixPath.join dir (lit "index.html") in
  os_path_isdir E dir = true -> os_path_exists E index = true ->
  readable E index data mtime ->
  response E self head_only = static_wire E self index head_only data mtime
  /\ header_values (lit "Cache-Control") (response_headers (response E self head_only))
     = [lit "no-cache"]
  /\ fs_calls E self head_only = [Isdir dir; Exists index; OpenRead index; Stat index].
Proof.
  intros Hroute Hdec Hdots dir index Hdir Hex Hr.
  assert (Htarget : target E (normalized_path decoded) = index).
  { unfold target. cbv zeta. fold dir. now rewrite Hdir. }
  assert (Hres : resolved_file E (normalized_path decoded) = Some index).
  { unfold resolved_file. now rewrite Htarget, Hex. }
  pose proof (serves_resolved E self decoded Hroute Hdec Hdots index Hres) as Hs.
  split; [|split].
  - exact (proj1 (response_serves E self index head_only data mtime Hs Hr)).
  - destruct (caching_headers E self head_only index data mtime Hs Hr) as [-> _].
    unfold cache_control, index. now rewrite fallback_is_html.
  - rewrite (static_calls E self head_only decoded Hroute Hdec Hdots index data mtime Hres Hr).
    unfold lookups. fold dir. now rewrite Htarget, Hex.
Qed.

Lemma X12_directory_index_witness :
  let self := Demo.get "/docs/" [] in
  static_route self = true
  /\ decoded_path Cases.env self = Ret (lit "docs/")
  /\ startswith (normalized_path (lit "docs/")) (lit "..") = false
  /\ os_path_isdir Cases.env (lit "/srv/www/public/docs") = true
  /\ os_path_exists Cases.env Cases.docs_index = true
  /\ readable Cases.env Cases.docs_index Cases.docs_data Demo.style_mtime
  /\ response_body (response Cases.env self false) = Cases.docs_data
  /\ fs_calls Cases.env self false
     = [Isdir (lit "/srv/www/public/docs"); Exists Cases.docs_index;
        OpenRead Cases.docs_index; Stat Cases.docs_index].
Proof.
  intros self.
  assert (H1 : static_route self = true) by reflexivity.
  assert (H2 : decoded_path Cases.env self = Ret (lit "docs/")) by (vm_compute; reflexivity).
  assert (H3 : startswith (normalized_path (lit "docs/")) (lit "..") = false)
    by (vm_compute; reflexivity).
  assert (H4 : os_path_isdir Cases.env (lit "/srv/www/public/docs") = true)
    by (vm_compute; reflexivity).
  assert (H5 : os_path_exists Cases.env Cases.docs_index = true) by (vm_compute; reflexivity).
  assert (H6 : readable Cases.env Cases.docs_index Cases.docs_data Demo.style_mtime)
    by is_readable.
  pose proof (X12_directory_index Cases.env self false (lit "docs/") Cases.docs_data
                Demo.style_mtime H1 H2 H3 H4 H5 H6) as (Hw & _ & Hc).
  refine (conj H1 (conj H2 (conj H3 (conj H4 (conj H5 (conj H6 (conj _ Hc))))))).
  rewrite Hw. vm_compute. reflexivity.
Defined.

(** ** What a request that is not proxied leaves alone *)

Lemma untouched_refl (st : hstate) : untouched st st.
Proof. now split. Qed.

Lemma untouched_trans (a b c : hstate) :
  untouched a b -> untouched b c -> untouched a c.
Proof. unfold untouched. intros [-> ->] [-> ->]. now split. Qed.

(** X13: a request whose path does not begin with [/api] is never forwarded
    to the backend and its body is never read, whatever the outcome. *)
Theorem X13_unproxied_requests_stay_local (E : Env) (self : request)
        (head_only : bool) (st : hstate) :
  startswith (lit (path self)) (lit "/api") = false ->
  sent (snd (do_GET E self head_only st)) = sent st
  /\ rfile (snd (do_GET E self head_only st)) = rfile st.
Proof.
  intros Hapi.
  apply (keeps_do_GET_unproxied untouched);
    first [ exact untouched_refl | exact untouched_trans | exact Hapi
          | intros; split; reflexivity ].
Qed.

Lemma X13_unproxied_requests_stay_local_witness :
  let self := Cases.post "/secret.txt" [("Content-Length", "3")]%string (blit "abc") in
  startswith (lit (path self)) (lit "/api") = false
  /\ sent (snd (do_GET Demo.env self false (start self))) = []
  /\ rfile (snd (do_GET Demo.env self false (start self))) = blit "abc".
Proof.
  intros self.
  assert (H : startswith (lit (path self)) (lit "/api") = false) by reflexivity.
  exact (conj H (X13_unproxied_requests_stay_local Demo.env self false (start self) H)).
Defined.

(** ** Methods other than GET and HEAD *)

Lemma is_latin1_hex_pad (width : nat) (v : N) : is_latin1 (hex_pad width v) = true.
Proof.
  unfold is_latin1, hex_pad. apply forallb_forall. intros c Hc.
  apply in_map_iff in Hc as [i [<- _]]. apply hex_digit_latin1.
Qed.

Lemma is_latin1_repr (s : pystr) : is_latin1 s = true -> is_latin1 (repr s) = true.
Proof.
  intros Hs. unfold repr.
  set (quote := if has_char (ch "'") s && negb (has_char 34 s) then 34%N else ch "'").
  assert (Hq : latin1_char quote = true) by (subst quote; now destruct (_ && _)).
  rewrite !is_latin1_app. cbn [is_latin1 forallb]. rewrite Hq. cbn [andb].
  rewrite andb_true_r. clear Hq. generalize quote. clear quote. intros quote.
  induction s as [|c s IH]; [reflexivity|].
  cbn [is_latin1 forallb] in Hs. apply andb_true_iff in Hs as [Hc Hs'].
  cbn [flat_map]. rewrite is_latin1_app. fold (is_latin1 s) in Hs'.
  rewrite (IH Hs'), andb_true_r.
  destruct ((c =? quote)%N || (c =? ch "\")%N);
    [cbn [is_latin1 forallb]; now rewrite Hc|].
  destruct (c =? 9)%N; [reflexivity|].
  destruct (c =? 10)%N; [reflexivity|].
  destruct (c =? 13)%N; [reflexivity|].
  destruct (printable c); [cbn [is_latin1 forallb]; now rewrite Hc|].
  now rewrite is_latin1_app, is_latin1_lit, is_latin1_hex_pad.
Qed.

Lemma lit_neq (a b : string) : a <> b -> str_eqb (lit a) (lit b) = false.
Proof. intros H. apply str_eqb_neq. intros Heq. apply H. now apply lit_inj. Qed.

(** X14: only GET and HEAD reach the handler.  A request with any other
    method, whatever its path, is answered [501 Unsupported method]; no file
    is looked up, nothing is forwarded to the backend and the request body
    is left unread. *)
Theorem X14_other_methods_not_implemented (E : Env) (self : request) :
  command self <> "GET"%string -> command self <> "HEAD"%string ->
  let run := handle_one_request E self (start self) in
  fst run = Ret tt
  /\ wfile (snd run)
     = error_wire E self 501
         (lit "Unsupported method (" ++ repr (lit (command self)) ++ lit ")")
  /\ fs_log (snd run) = []
  /\ sent (snd run) = []
  /\ rfile (snd run) = content self.
Proof.
  intros Hget Hhead run. subst run. unfold handle_one_request, self_command.
  rewrite (lit_neq _ _ Hget), (lit_neq _ _ Hhead). unfold try_except.
  fold (self_command self).
  rewrite send_error_run.
  - cbn [fst snd wfile fs_log sent rfile start headers_buffer map app]. now repeat split.
  - rewrite !is_latin1_app, !is_latin1_lit. unfold self_command.
    now rewrite is_latin1_repr by apply is_latin1_lit.
  - reflexivity.
Qed.

Lemma X14_other_methods_not_implemented_witness :
  let self :=
    Cases.post "/api/events" [("Content-Length", "3")]%string (blit "abc") in
  command self <> "GET"%string
  /\ command self <> "HEAD"%string
  /\ response_status (wfile (snd (handle_one_request Demo.env self (start self))))
     = Some 501%Z
  /\ sent (snd (handle_one_request Demo.env self (start self))) = [].
Proof.
  intros self.
  assert (H1 : command self <> "GET"%string) by discriminate.
  assert (H2 : command self <> "HEAD"%string) by discriminate.
  pose proof (X14_other_methods_not_implemented Demo.env self H1 H2)
    as (_ & Hw & _ & Hs & _).
  refine (conj H1 (conj H2 (conj _ Hs))).
  rewrite Hw. reflexivity.
Defined.

(** X15: an exception raised while a file is served is answered with the
    500 page and raised again by [do_GET]; the dispatcher lets it pass,
    unless it is a TimeoutError, which it swallows after the page was
    sent. *)
Theorem X15_timeouts_are_swallowed (E : Env) (self : request) (file : pystr) (e : exn) :
  command self = "GET"%string ->
  serves E self file ->
  static_failure E file = Some e ->
  is_latin1 (exn_text e) = true ->
  let run := handle_one_request E self (start self) in
  wfile (snd run) = error_wire E self 500 (lit "Server error: " ++ exn_text e)
  /\ fst run = (if is_timeout e then Ret tt else Raise e).
Proof.
  intros Hget Hs Hfail Hlatin run. subst run.
  unfold handle_one_request, self_command. rewrite Hget.
  change (str_eqb (lit "GET") (lit "GET")) with true. cbv iota.
  destruct (do_GET_static_failure E self false file e (start self) Hs Hfail Hlatin)
    as [calls Hrun].
  unfold try_except. rewrite Hrun.
  destruct (is_timeout e); now split.
Qed.

Lemma X15_timeouts_are_swallowed_witness :
  let self := Demo.get "/style.css" [] in
  (command self = "GET"%string
   /\ serves Cases.env_stalled self Demo.style_css
   /\ static_failure Cases.env_stalled Demo.style_css = Some Cases.timed_out
   /\ is_latin1 (exn_text Cases.timed_out) = true
   /\ fst (handle_one_request Cases.env_stalled self (start self)) = Ret tt
   /\ response_status (wfile (snd (handle_one_request Cases.env_stalled self (start self))))
      = Some 500%Z)
  /\ (exists denied,
        static_failure Demo.env (lit "/srv/www/public/secret.txt") = Some denied
        /\ fst (handle_one_request Demo.env Demo.unreadable (start Demo.unreadable))
           = Raise denied).
Proof.
  intros self.
  assert (H1 : command self = "GET"%string) by reflexivity.
  assert (H2 : serves Cases.env_stalled self Demo.style_css)
    by serves_at (lit "style.css").
  assert (H3 : static_failure Cases.env_stalled Demo.style_css = Some Cases.timed_out)
    by reflexivity.
  assert (H4 : is_latin1 (exn_text Cases.timed_out) = true) by reflexivity.
  pose proof (X15_timeouts_are_swallowed Cases.env_stalled self Demo.style_css
                Cases.timed_out H1 H2 H3 H4) as [Hw Hr].
  assert (G2 : serves Demo.env Demo.unreadable (lit "/srv/www/public/secret.txt"))
    by serves_at (lit "secret.txt").
  set (denied := Demo.os_error "PermissionError" "[Errno 13] Permission denied"
                               (lit "/srv/www/public/secret.txt")).
  assert (G3 : static_failure Demo.env (lit "/srv/www/public/secret.txt") = Some denied)
    by (vm_compute; reflexivity).
  assert (G4 : is_latin1 (exn_text denied) = true) by (vm_compute; reflexivity).
  pose proof (X15_timeouts_are_swallowed Demo.env Demo.unreadable
                (lit "/srv/www/public/secret.txt") denied eq_refl G2 G3 G4) as [_ Gr].
  refine (conj (conj H1 (conj H2 (conj H3 (conj H4 (conj Hr _)))))
               (ex_intro _ denied (conj G3 Gr))).
  rewrite Hw. reflexivity.
Defined.

(** ** The status endpoint *)

Lemma handle_status_run (E : Env) (st : hstate) :
  _handle_status E st
  = (Ret tt,
     written (status_body E)
       (flushed (pushed (StatusLine 200 (lit "OK") :: server_date E
                         ++ [HeaderLine (lit "Content-Type") (lit "application/json");
                             HeaderLine (lit "Content-Length")
                                        (str_of_N (N.of_nat (length (status_body E))));
                             BlankLine]) st))).
Proof.
  unfold _handle_status. cbv zeta. fold (status_body E).
  unfold bind. rewrite send_response_ok.
  repeat rewrite send_header_run by first [apply is_latin1_lit | apply is_latin1_str_of_N].
  rewrite end_headers_run, !pushed_pushed. unfold wfile_write, written.
  repeat f_equal; now rewrite <- ?app_assoc.
Qed.

Lemma body_of_chunks (chunks : list bytes) :
  flat_map (fun x => match x with
                     | Head l => map byte_of_N (render l)
                     | Body b => b
                     end) (map Body chunks)
  = concat chunks.
Proof. induction chunks as [|c cs IH]; [reflexivity|]. cbn [map flat_map concat]. now f_equal. Qed.

(** X16: the exact path [/_status] is answered 200 with a JSON object that
    holds the time, typed [application/json], with the number of its bytes
    as Content-Length and no caching header.  The body is written for HEAD
    as well, and neither the file system nor the backend is used. *)
Theorem X16_status_endpoint (E : Env) (self : request) (head_only : bool) :
  path self = "/_status"%string ->
  outcome E self head_only = Ret tt
  /\ response E self head_only
     = map Head (StatusLine 200 (lit "OK") :: server_date E
                 ++ [HeaderLine (lit "Content-Type") (lit "application/json");
                     HeaderLine (lit "Content-Length")
                                (str_of_N (N.of_nat (length (status_body E))));
                     BlankLine])
       ++ [Body (status_body E)]
  /\ response_body (response E self head_only) = status_body E
  /\ fs_calls E self head_only = []
  /\ sent (snd (do_GET E self head_only (start self))) = [].
Proof.
  intros Hpath.
  assert (Hrun : do_GET E self head_only (start self) = _handle_status E (start self)).
  { rewrite do_GET_status by (unfold self_path; now rewrite Hpath).
    unfold try_except. now rewrite handle_status_run. }
  unfold outcome, response, fs_calls. rewrite Hrun, handle_status_run.
  cbn [fst snd written flushed pushed wfile fs_log sent headers_buffer start app map].
  assert (Hbody : response_body
                    (map Head (StatusLine 200 (lit "OK") :: server_date E
                               ++ [HeaderLine (lit "Content-Type") (lit "application/json");
                                   HeaderLine (lit "Content-Length")
                                     (str_of_N (N.of_nat (length (status_body E))));
                                   BlankLine])
                     ++ [Body (status_body E)]) = status_body E).
  { unfold server_date. cbn [app map]. unfold response_body. cbn [after_head flat_map].
    apply app_nil_r. }
  repeat split; try reflexivity. exact Hbody.
Qed.

Lemma X16_status_endpoint_witness :
  let self := Cases.head "/_status" [] in
  path self = "/_status"%string
  /\ response_body (response Demo.env self true) = status_body Demo.env
  /\ fs_calls Demo.env self true = [].
Proof.
  intros self.
  assert (H : path self = "/_status"%string) by reflexivity.
  pose proof (X16_status_endpoint Demo.env self true H) as (_ & _ & Hb & Hc & _).
  exact (conj H (conj Hb Hc)).
Defined.

(** ** What the proxy relays *)

(** the state after the chunks were written *)
Lemma stream_response_run (reads : list bytes) (failure : option exn) (st : hstate) :
  stream_response reads failure st
  = (match stream_failure reads failure with
     | Some e => Raise e
     | None => Ret tt
     end,
     {| headers_buffer := headers_buffer st;
        wfile := wfile st ++ map Body (delivered reads);
        rfile := rfile st; fs_log := fs_log st; sent := sent st |}).
Proof.
  revert st. induction reads as [|chunk reads IH]; intros st.
  - unfold stream_failure. cbn [stream_response existsb delivered map].
    rewrite app_nil_r. destruct st. now destruct failure.
  - unfold stream_failure in *. cbn [stream_response existsb delivered].
    destruct (is_empty chunk).
    + cbn [orb map]. rewrite app_nil_r. now destruct st.
    + cbn [orb]. unfold bind, wfile_write. rewrite IH.
      cbn [headers_buffer wfile rfile fs_log sent map]. now rewrite <- app_assoc.
Qed.

Section Relay.

Variable E : Env.
Variable self : request.
Variable head_only : bool.
Variable req : outbound.
Variable status : Z.
Variable reason : string.
Variable hs : list (string * string).
Variable reads : list bytes.
Variable failure : option exn.

Hypothesis Hapi : startswith (lit (path self)) (lit "/api") = true.
Hypothesis Hreq : proxy_request E self = Ret req.
Hypothesis Hresp : backend E req = Response status reason hs reads failure.

Lemma relayed_head_not_blank : forallb not_blank (relayed_head E status reason hs) = true.
Proof.
  unfold relayed_head, server_date. cbn [app forallb not_blank andb].
  rewrite forallb_app, header_lines_not_blank. reflexivity.
Qed.

(** the relayed head, the chunks, and the 502 page when the stream fails *)
Lemma handle_proxy_relay :
  (forall e, stream_failure reads failure = Some e -> is_latin1 (exn_text e) = true) ->
  exists st2,
    _handle_proxy E self (start self) = (Ret tt, st2)
    /\ wfile st2
       = map Head (relayed_head E status reason hs ++ [BlankLine])
         ++ map Body (delivered reads)
         ++ match stream_failure reads failure with
            | Some e => error_wire E self 502 (lit "Proxy error: " ++ exn_text e)
            | None => []
            end.
Proof.
  intros Hlatin.
  destruct (handle_proxy_request E self (start self) eq_refl)
    as (st' & Hbuf & Hw & _ & Hrun).
  rewrite Hreq in Hrun. destruct Hrun as [_ Hrun]. rewrite Hrun, Hresp.
  cbn [start headers_buffer wfile] in Hbuf, Hw.
  unfold try_except, bind at 1.
  rewrite send_response_run by apply is_latin1_lit.
  unfold bind at 1. rewrite relay_headers_run.
  unfold bind at 1. rewrite send_header_run by apply is_latin1_lit.
  unfold bind at 1. rewrite end_headers_run, !pushed_pushed.
  rewrite stream_response_run.
  destruct (stream_failure reads failure) as [e|] eqn:Hfail.
  - unfold bad_gateway. rewrite send_error_run;
      [| rewrite is_latin1_app, is_latin1_lit; now apply Hlatin | reflexivity].
    eexists. split; [reflexivity|].
    cbn [wfile headers_buffer flushed pushed map app].
    rewrite Hbuf, Hw. cbn [app]. unfold relayed_head.
    cbn [app]. rewrite <- ?app_assoc. cbn [app]. reflexivity.
  - eexists. split; [reflexivity|].
    cbn [wfile headers_buffer flushed pushed map app].
    rewrite Hbuf, Hw. cbn [app]. unfold relayed_head.
    cbn [app]. rewrite ?app_nil_r, <- ?app_assoc. cbn [app]. reflexivity.
Qed.

Lemma do_GET_relay :
  (forall e, stream_failure reads failure = Some e -> is_latin1 (exn_text e) = true) ->
  outcome E self head_only = Ret tt
  /\ response E self head_only
     = map Head (relayed_head E status reason hs ++ [BlankLine])
       ++ map Body (delivered reads)
       ++ match stream_failure reads failure with
          | Some e => error_wire E self 502 (lit "Proxy error: " ++ exn_text e)
          | None => []
          end.
Proof.
  intros Hlatin. destruct (handle_proxy_relay Hlatin) as (st2 & Hrun & Hwire).
  unfold outcome, response.
  rewrite (do_GET_proxy E self head_only (start self) Hapi).
  unfold try_except. rewrite Hrun. now split.
Qed.

End Relay.

(** X17: when the backend's stream ends without an error, the body relayed
    to the client is the concatenation of the chunks read up to the first
    empty read, byte for byte (the proxy neither compresses nor rewrites
    it), under the backend's status code. *)
Theorem X17_proxy_relays_body (E : Env) (self : request) (head_only : bool)
        (req : outbound) (status : Z) (reason : string)
        (hs : list (string * string)) (reads : list bytes) (failure : option exn) :
  startswith (lit (path self)) (lit "/api") = true ->
  proxy_request E self = Ret req ->
  backend E req = Response status reason hs reads failure ->
  stream_failure reads failure = None ->
  outcome E self head_only = Ret tt
  /\ response_status (response E self head_only) = Some status
  /\ response_body (response E self head_only) = concat (delivered reads).
Proof.
  intros Hapi Hreq Hresp Hok.
  destruct (do_GET_relay E self head_only req status reason hs reads failure
              Hapi Hreq Hresp) as [Hout Hwire].
  { intros e He. rewrite Hok in He. discriminate. }
  rewrite Hwire, Hok, app_nil_r. split; [exact Hout|]. split; [reflexivity|].
  unfold response_body.
  rewrite after_head_app by apply relayed_head_not_blank.
  apply body_of_chunks.
Qed.

Lemma X17_proxy_relays_body_witness :
  let self := Demo.get "/api/events" [("Accept-Encoding", "gzip")]%string in
  startswith (lit (path self)) (lit "/api") = true
  /\ (exists req, proxy_request Cases.env self = Ret req)
  /\ stream_failure [blit "hello "; blit "world"; []] None = None
  /\ response_status (response Cases.env self false) = Some 200%Z
  /\ response_body (response Cases.env self false) = blit "hello world".
Proof.
  intros self.
  assert (H1 : startswith (lit (path self)) (lit "/api") = true) by reflexivity.
  assert (H2 : proxy_request Cases.env self
               = Ret {| out_method := lit "GET"; out_url := lit "/api/events";
                        out_body := None;
                        out_headers := [(lit "Accept-Encoding", lit "gzip");
                                        (lit "Host", lit "backend")] |})
    by (vm_compute; reflexivity).
  assert (H3 : stream_failure [blit "hello "; blit "world"; []] None = None)
    by reflexivity.
  pose proof (X17_proxy_relays_body Cases.env self false _ 200 "OK" _ _ None
                H1 H2 eq_refl H3) as (_ & Hs & Hb).
  exact (conj H1 (conj (ex_intro _ _ H2) (conj H3 (conj Hs Hb)))).
Defined.

(** X18: when the backend's stream fails after the response head was
    relayed, the status the client has read stays the backend's; the chunks
    already read are followed on the wire by a complete 502 response, head
    and page, and the handler returns normally. *)
Theorem X18_proxy_failure_mid_stream (E : Env) (self : request) (head_only : bool)
        (req : outbound) (status : Z) (reason : string)
        (hs : list (string * string)) (reads : list bytes) (failure : option exn)
        (e : exn) :
  startswith (lit (path self)) (lit "/api") = true ->
  proxy_request E self = Ret req ->
  backend E req = Response status reason hs reads failure ->
  stream_failure reads failure = Some e ->
  is_latin1 (exn_text e) = true ->
  outcome E self head_only = Ret tt
  /\ response_status (response E self head_only) = Some status
  /\ response E self head_only
     = map Head (relayed_head E status reason hs ++ [BlankLine])
       ++ map Body (delivered reads)
       ++ error_wire E self 502 (lit "Proxy error: " ++ exn_text e).
Proof.
  intros Hapi Hreq Hresp Hfail Hlatin.
  destruct (do_GET_relay E self head_only req status reason hs reads failure
              Hapi Hreq Hresp) as [Hout Hwire].
  { intros e' He. rewrite Hfail in He. now injection He as <-. }
  rewrite Hwire, Hfail. now repeat split.
Qed.

Lemma X18_proxy_failure_mid_stream_witness :
  let self := Demo.get "/api/events" [] in
  let reset := Exn "ConnectionResetError" (lit "[Errno 104] Connection reset by peer") in
  startswith (lit (path self)) (lit "/api") = true
  /\ (exists req, proxy_request Cases.env_flaky self = Ret req)
  /\ stream_failure [blit "hello "] (Some reset) = Some reset
  /\ is_latin1 (exn_text reset) = true
  /\ response_status (response Cases.env_flaky self false) = Some 200%Z
  /\ body_mentions (lit "Proxy error: [Errno 104] Connection reset by peer")
                   (response Cases.env_flaky self false) = true.
Proof.
  intros self reset.
  assert (H1 : startswith (lit (path self)) (lit "/api") = true) by reflexivity.
  assert (H2 : proxy_request Cases.env_flaky self
               = Ret {| out_method := lit "GET"; out_url := lit "/api/events";
                        out_body := None;
                        out_headers := [(lit "Host", lit "backend")] |})
    by (vm_compute; reflexivity).
  assert (H3 : stream_failure [blit "hello "] (Some reset) = Some reset) by reflexivity.
  assert (H4 : is_latin1 (exn_text reset) = true) by reflexivity.
  pose proof (X18_proxy_failure_mid_stream Cases.env_flaky self false _ 200 "OK" _ _ _ reset
                H1 H2 eq_refl H3 H4) as (_ & Hs & Hw).
  refine (conj H1 (conj (ex_intro _ _ H2) (conj H3 (conj H4 (conj Hs _))))).
  rewrite Hw. vm_compute. reflexivity.
Defined.

(** ** A Content-Length the proxy cannot use *)

Lemma is_latin1_firstn (n : nat) (s : pystr) :
  is_latin1 s = true -> is_latin1 (firstn n s) = true.
Proof.
  revert n. induction s as [|c s IH]; intros [|n] H; try reflexivity.
  cbn [is_latin1 forallb firstn] in *. apply andb_true_iff in H as [Hc Hs].
  rewrite Hc. now apply IH.
Qed.

Lemma int_error_latin1 (s : pystr) (e : exn) :
  is_latin1 s = true -> int s = Raise e -> is_latin1 (exn_text e) = true.
Proof.
  intros Hs H.
  apply (f_equal (fun r => match r with Raise x => exn_text x | Ret _ => [] end)) in H.
  cbv beta iota in H. rewrite <- H. clear H e.
  unfold int. cbv zeta.
  assert (Hinvalid : is_latin1 (lit "invalid literal for int() with base 10: "
                                ++ firstn 200 (repr s)) = true).
  { rewrite is_latin1_app, is_latin1_lit.
    now rewrite is_latin1_firstn by now apply is_latin1_repr. }
  destruct (match lstrip int_space s with
            | [] => (false, lstrip int_space s)
            | c :: t' =>
                if (c =? ch "-")%N then (true, t')
                else if (c =? ch "+")%N then (false, t')
                else (false, lstrip int_space s)
            end) as [negative t].
  destruct (startswith t (lit "_")); [exact Hinvalid|].
  destruct (scan_digits t false 0 0) as [[[value digits] rest]|]; [|exact Hinvalid].
  destruct (4300 <? digits)%N.
  - cbv beta iota delta [exn_text].
    now rewrite !is_latin1_app, !is_latin1_lit, is_latin1_str_of_N.
  - destruct ((digits =? 0)%N || negb (is_empty (lstrip int_space rest)));
      [exact Hinvalid | reflexivity].
Qed.

Lemma headers_get_latin1 (hs : list (string * string)) (name v : pystr) :
  headers_get hs name = Some v -> is_latin1 v = true.
Proof.
  unfold headers_get. destruct (find _ hs) as [[k v0]|]; [|discriminate].
  intros [= <-]. apply is_latin1_lit.
Qed.

(** the refusals of the request stream, by the length asked for *)
Lemma read_refusal_some (allocates : Z -> bool) (n : Z) (e : exn) :
  read_refusal allocates n = Some e ->
  ((n < ssize_min \/ ssize_max < n)%Z ->
   e = Exn "OverflowError" (lit "cannot fit 'int' into an index-sized integer"))
  /\ ((ssize_min <= n < -1)%Z ->
      e = Exn "ValueError" (lit "read length must be non-negative or -1"))
  /\ ((bytes_max < n <= ssize_max)%Z ->
      e = Exn "OverflowError" (lit "byte string is too large"))
  /\ ((0 <= n <= bytes_max)%Z -> e = Exn "MemoryError" [] /\ allocates n = false).
Proof.
  unfold read_refusal, ssize_min, ssize_max, bytes_max.
  destruct (Z.ltb_spec n (-9223372036854775808)); cbv [orb].
  { intros [= <-]. repeat split; intros; try reflexivity; lia. }
  destruct (Z.ltb_spec 9223372036854775807 n).
  { intros [= <-]. repeat split; intros; try reflexivity; lia. }
  destruct (Z.eqb_spec n (-1)); [discriminate|].
  destruct (Z.ltb_spec n 0).
  { intros [= <-]. repeat split; intros; try reflexivity; lia. }
  destruct (Z.ltb_spec 9223372036854775774 n).
  { intros [= <-]. repeat split; intros; try reflexivity; lia. }
  destruct (Z.ltb_spec 0 n); cbv [andb]; [|discriminate].
  destruct (allocates n) eqn:Ha; [discriminate|].
  intros [= <-]. repeat split; intros; try reflexivity; lia.
Qed.

Lemma read_refusal_latin1 (allocates : Z -> bool) (n : Z) (e : exn) :
  read_refusal allocates n = Some e -> is_latin1 (exn_text e) = true.
Proof.
  unfold read_refusal.
  repeat match goal with
         | |- context [if ?b then _ else _] => destruct b
         end; try discriminate; now intros [= <-].
Qed.

(** X19: a proxied request whose Content-Length is not an integer, or is an
    integer that the request stream refuses as a read length, is not
    forwarded: the backend receives nothing and the client is answered 502
    with the text of the conversion error or of the refusal.  The stream
    refuses a length outside [Py_ssize_t] with an OverflowError, a length
    from [- 2 ^ 63] to -2 with a ValueError, a length above [bytes_max]
    with another OverflowError, and a length for which no memory is found
    with a MemoryError, whose text is empty. *)
Theorem X19_bad_content_length (E : Env) (self : request) (head_only : bool)
        (v : pystr) (e : exn) :
  startswith (lit (path self)) (lit "/api") = true ->
  connection_error E = None ->
  headers_get (headers self) (lit "content-length") = Some v ->
  int v = Raise e
  \/ (exists n, int v = Ret n /\ read_refusal (can_allocate E) n = Some e) ->
  outcome E self head_only = Ret tt
  /\ response E self head_only = error_wire E self 502 (lit "Proxy error: " ++ exn_text e)
  /\ sent (snd (do_GET E self head_only (start self))) = []
  /\ (forall n,
        int v = Ret n ->
        ((n < ssize_min \/ ssize_max < n)%Z ->
         e = Exn "OverflowError" (lit "cannot fit 'int' into an index-sized integer"))
        /\ ((ssize_min <= n < -1)%Z ->
            e = Exn "ValueError" (lit "read length must be non-negative or -1"))
        /\ ((bytes_max < n <= ssize_max)%Z ->
            e = Exn "OverflowError" (lit "byte string is too large"))
        /\ ((0 <= n <= bytes_max)%Z ->
            e = Exn "MemoryError" [] /\ can_allocate E n = false)).
Proof.
  intros Hapi Hconn Hv Hbad.
  assert (Hreq : proxy_request E self = Raise e).
  { unfold proxy_request, forwarded_body. rewrite Hconn, Hv.
    destruct Hbad as [-> | (n & -> & ->)]; reflexivity. }
  assert (Hlatin : is_latin1 (lit "Proxy error: " ++ exn_text e) = true).
  { rewrite is_latin1_app, is_latin1_lit.
    destruct Hbad as [Hint | (n & _ & Hread)].
    - exact (int_error_latin1 v e (headers_get_latin1 _ _ _ Hv) Hint).
    - exact (read_refusal_latin1 _ _ _ Hread). }
  assert (Hcases : forall n,
             int v = Ret n -> read_refusal (can_allocate E) n = Some e).
  { intros n Hn. destruct Hbad as [Hint | (n' & Hint & Hread)]; [congruence|].
    rewrite Hn in Hint. now injection Hint as <-. }
  destruct (handle_proxy_request E self (start self) eq_refl)
    as (st' & Hbuf & Hw & _ & Hrun).
  rewrite Hreq in Hrun. destruct Hrun as [Hsent Hrun].
  cbn [start headers_buffer wfile sent] in Hbuf, Hw, Hsent.
  unfold outcome, response.
  rewrite (do_GET_proxy E self head_only (start self) Hapi).
  unfold try_except. rewrite Hrun. unfold bad_gateway.
  rewrite send_error_run by (exact Hlatin || reflexivity).
  cbn [fst snd wfile sent]. rewrite Hbuf, Hw, Hsent.
  split; [reflexivity|]. split; [reflexivity|]. split; [reflexivity|].
  intros n Hn. exact (read_refusal_some _ _ _ (Hcases n Hn)).
Qed.

Lemma X19_bad_content_length_witness :
  let words := Demo.get "/api/events" [("Content-Length", "12 bytes")]%string in
  let minus := Demo.get "/api/events" [("Content-Length", "-5")]%string in
  let huge := Demo.get "/api/events" [("Content-Length", "9223372036854775808")]%string in
  let refused :=
    Exn "ValueError" (lit "invalid literal for int() with base 10: '12 bytes'") in
  let negative := Exn "ValueError" (lit "read length must be non-negative or -1") in
  let overflow :=
    Exn "OverflowError" (lit "cannot fit 'int' into an index-sized integer") in
  (startswith (lit (path words)) (lit "/api") = true
   /\ connection_error Demo.env = None
   /\ headers_get (headers words) (lit "content-length") = Some (lit "12 bytes")
   /\ int (lit "12 bytes") = Raise refused
   /\ response Demo.env words false
      = error_wire Demo.env words 502 (lit "Proxy error: " ++ exn_text refused)
   /\ sent (snd (do_GET Demo.env words false (start words))) = [])
  /\ (headers_get (headers minus) (lit "content-length") = Some (lit "-5")
      /\ int (lit "-5") = Ret (-5)%Z
      /\ read_refusal (can_allocate Demo.env) (-5) = Some negative
      /\ response Demo.env minus false
         = error_wire Demo.env minus 502 (lit "Proxy error: " ++ exn_text negative))
  /\ (headers_get (headers huge) (lit "content-length")
      = Some (lit "9223372036854775808")
      /\ int (lit "9223372036854775808") = Ret 9223372036854775808%Z
      /\ read_refusal (can_allocate Demo.env) 9223372036854775808 = Some overflow
      /\ response Demo.env huge false
         = error_wire Demo.env huge 502 (lit "Proxy error: " ++ exn_text overflow)
      /\ sent (snd (do_GET Demo.env huge false (start huge))) = []).
Proof.
  intros words minus huge refused negative overflow.
  assert (H1 : startswith (lit (path words)) (lit "/api") = true) by reflexivity.
  assert (H2 : connection_error Demo.env = None) by reflexivity.
  assert (H3 : headers_get (headers words) (lit "content-length") = Some (lit "12 bytes"))
    by reflexivity.
  assert (H4 : int (lit "12 bytes") = Raise refused) by (vm_compute; reflexivity).
  assert (G3 : headers_get (headers minus) (lit "content-length") = Some (lit "-5"))
    by reflexivity.
  assert (G4 : int (lit "-5") = Ret (-5)%Z) by (vm_compute; reflexivity).
  assert (G5 : read_refusal (can_allocate Demo.env) (-5) = Some negative)
    by (vm_compute; reflexivity).
  assert (K3 : headers_get (headers huge) (lit "content-length")
               = Some (lit "9223372036854775808")) by reflexivity.
  assert (K4 : int (lit "9223372036854775808") = Ret 9223372036854775808%Z)
    by (vm_compute; reflexivity).
  assert (K5 : read_refusal (can_allocate Demo.env) 9223372036854775808 = Some overflow)
    by (vm_compute; reflexivity).
  pose proof (X19_bad_content_length Demo.env words false (lit "12 bytes") refused
                H1 H2 H3 (or_introl H4)) as (_ & Hw & Hs & _).
  pose proof (X19_bad_content_length Demo.env minus false (lit "-5") negative
                eq_refl H2 G3 (or_intror (ex_intro _ _ (conj G4 G5)))) as (_ & Gw & _).
  pose proof (X19_bad_content_length Demo.env huge false (lit "9223372036854775808")
                overflow eq_refl H2 K3 (or_intror (ex_intro _ _ (conj K4 K5))))
    as (_ & Kw & Ks & _).
  exact (conj (conj H1 (conj H2 (conj H3 (conj H4 (conj Hw Hs)))))
              (conj (conj G3 (conj G4 (conj G5 Gw)))
                    (conj K3 (conj K4 (conj K5 (conj Kw Ks)))))).
Defined.

(** ** An error text that does not fit a status line *)

Lemma latin1_error_class (line : pystr) (pos : N) (e : exn) :
  latin1_error pos line = Some e -> exn_class e = "UnicodeEncodeError"%string.
Proof.
  revert pos. induction line as [|c line IH]; intros pos H; [discriminate|].
  cbn [latin1_error] in H. destruct (latin1_char c); [now apply (IH (pos + 1)%N)|].
  now injection H as <-.
Qed.

(** [send_error] with a message that does not fit ISO-8859-1 raises a
    UnicodeEncodeError and leaves the state as it was. *)
Lemma send_error_raises (E : Env) (self : request) (code : Z) (message : pystr)
      (st : hstate) :
  is_latin1 message = false ->
  exists e, exn_class e = "UnicodeEncodeError"%string
            /\ send_error' E self code message st = (Raise e, st).
Proof.
  intros Hm. unfold send_error', send_error, send_response, send_response_only, bind.
  unfold encode_line.
  destruct (latin1_error_some
              (protocol_version ++ lit " " ++ str_of_Z code ++ lit " " ++ message ++ crlf) 0)
    as [e He].
  { rewrite !is_latin1_app, Hm. now rewrite !andb_false_r. }
  rewrite He. exists e. split; [exact (latin1_error_class _ _ _ He) | reflexivity].
Qed.

(** [_serve_static] on a file that cannot be served raises before anything
    is buffered or written. *)
Lemma serve_static_raises (E : Env) (self : request) (file : pystr) (head_only : bool)
      (e : exn) (st : hstate) :
  static_failure E file = Some e ->
  exists calls, _serve_static E self file head_only st = (Raise e, logged calls st).
Proof.
  intros Hfail. unfold static_failure in Hfail.
  unfold _serve_static, read_file_bytes, stat_mtime.
  unfold bind at 1. unfold bind at 1. cbn [log_fs lift].
  destruct (open_read E file) as [data|e'].
  - unfold bind at 1. unfold bind at 1. cbn [log_fs lift].
    destruct (os_stat_mtime E file) as [t|e'].
    + unfold bind at 1. cbn [lift].
      destruct (fromtimestamp t) as [dt|e']; [discriminate|]. injection Hfail as ->.
      exists [OpenRead file; Stat file]. unfold logged.
      cbn [headers_buffer wfile rfile fs_log sent]. now rewrite <- app_assoc.
    + injection Hfail as ->. exists [OpenRead file; Stat file]. unfold logged.
      cbn [headers_buffer wfile rfile fs_log sent]. now rewrite <- app_assoc.
  - injection Hfail as ->. now exists [OpenRead file].
Qed.

(** X20: when serving a static file fails with an exception whose text
    does not fit ISO-8859-1 (the name of the file is part of the text of an
    I/O error), the 500 response cannot be started: nothing at all is written
    to the client, and the exception that leaves [do_GET] is the
    UnicodeEncodeError of the status line, not the original one. *)
Theorem X20_unencodable_error_text (E : Env) (self : request) (head_only : bool)
        (file : pystr) (e : exn) :
  serves E self file ->
  static_failure E file = Some e ->
  is_latin1 (exn_text e) = false ->
  response E self head_only = []
  /\ exists e', exn_class e' = "UnicodeEncodeError"%string
                /\ outcome E self head_only = Raise e'.
Proof.
  intros (Hroute & decoded & Hdec & Hdots & Hres) Hfail Hlatin.
  unfold response, outcome.
  rewrite (do_GET_static E self head_only decoded (start self) Hroute Hdec).
  unfold try_except. cbv zeta. rewrite Hdots, Hres.
  destruct (serve_static_raises E self file head_only e
              (logged (lookups E (normalized_path decoded)) (start self)) Hfail)
    as [calls ->].
  unfold internal_error, bind.
  destruct (send_error_raises E self 500 (lit "Server error: " ++ exn_text e)
              (logged calls (logged (lookups E (normalized_path decoded)) (start self))))
    as (e' & Hclass & ->).
  { rewrite is_latin1_app, Hlatin. apply andb_false_r. }
  split; [reflexivity|]. now exists e'.
Qed.

Lemma X20_unencodable_error_text_witness :
  let self := Demo.get "/%E2%82%AC.txt" [] in
  let denied :=
    Demo.os_error "PermissionError" "[Errno 13] Permission denied" Cases.euro_txt in
  serves Cases.env self Cases.euro_txt
  /\ static_failure Cases.env Cases.euro_txt = Some denied
  /\ is_latin1 (exn_text denied) = false
  /\ response Cases.env self false = []
  /\ exists e', exn_class e' = "UnicodeEncodeError"%string
                /\ outcome Cases.env self false = Raise e'.
Proof.
  intros self denied.
  assert (H1 : serves Cases.env self Cases.euro_txt)
    by serves_at ([8364%N] ++ lit ".txt").
  assert (H2 : static_failure Cases.env Cases.euro_txt = Some denied)
    by (vm_compute; reflexivity).
  assert (H3 : is_latin1 (exn_text denied) = false) by (vm_compute; reflexivity).
  exact (conj H1 (conj H2 (conj H3
           (X20_unencodable_error_text Cases.env self false Cases.euro_txt denied
              H1 H2 H3)))).
Defined.

(** ** The backend *)

Section BackendRuns.

Variable B : Backend.Env.
Variable self : request.

(** the primitives of the backend handler are those of the front handler
    under the backend's version string and clock *)
Lemma env_with (vs ds : string) :
  exists E : Env, version_string E = vs /\ date_time_string E = ds.
Proof.
  exists {| PUBLIC_DIR := []; BACKEND_HOST := []; BACKEND_PORT := 0;
            version_string := vs; date_time_string := ds; utcnow_isoformat := ds;
            os_path_isdir := fun _ => false; os_path_exists := fun _ => false;
            open_read := fun _ => Ret []; os_stat_mtime := fun _ => Ret 0%Z;
            guess_type := fun _ => None;
            parsedate_to_datetime := fun _ => Ret (Aware 0);
            gzip_compress := fun b => b; can_allocate := fun _ => true;
            check_bracketed_netloc := fun _ => None;
            connection_error := None;
            backend := fun _ => Unreachable (Exn EmptyString []) |}.
  now split.
Qed.

Lemma backend_send_response_ok (st : hstate) :
  Backend.send_response' B 200 None st
  = (Ret tt,
     pushed [StatusLine 200 (lit "OK");
             HeaderLine (lit "Server") (lit (Backend.version_string B));
             HeaderLine (lit "Date") (lit (Backend.date_time_string B))] st).
Proof.
  unfold Backend.send_response'.
  destruct (env_with (Backend.version_string B) (Backend.date_time_string B))
    as (E & Hv & Hd).
  rewrite <- Hv, <- Hd. exact (send_response_ok E st).
Qed.

Lemma backend_send_response_not_modified (st : hstate) :
  Backend.send_response' B 304 None st
  = (Ret tt,
     pushed [StatusLine 304 (lit "Not Modified");
             HeaderLine (lit "Server") (lit (Backend.version_string B));
             HeaderLine (lit "Date") (lit (Backend.date_time_string B))] st).
Proof.
  unfold Backend.send_response'.
  destruct (env_with (Backend.version_string B) (Backend.date_time_string B))
    as (E & Hv & Hd).
  rewrite <- Hv, <- Hd. exact (send_response_not_modified E st).
Qed.

Lemma backend_send_error_run (code : Z) (message : pystr) (st : hstate) :
  is_latin1 message = true ->
  (200 <=? code)%Z && negb ((code =? 204)%Z || (code =? 205)%Z || (code =? 304)%Z) = true ->
  Backend.send_error' B self code message st
  = (Ret tt,
     {| headers_buffer := [];
        wfile := wfile st ++ map Head (headers_buffer st)
                 ++ backend_error_wire B self code message;
        rfile := rfile st; fs_log := fs_log st; sent := sent st |}).
Proof.
  intros Hm Hcode. unfold Backend.send_error', backend_error_wire.
  destruct (env_with (Backend.version_string B) (Backend.date_time_string B))
    as (E & Hv & Hd).
  rewrite <- Hv, <- Hd. exact (send_error_run E self code message st Hm Hcode).
Qed.

(** [do_GET] on [/api/events] up to the test of If-None-Match *)
Lemma backend_events_run (raw : bytes) (st : hstate) :
  path self = "/api/events"%string ->
  Backend.open_read B (Backend.DATA_PATH B) = Ret raw ->
  Backend.do_GET B self st
  = (if etag_matches self (Backend.compute_etag_bytes raw) then
       Backend.send_response' B 304 None ;; end_headers
     else if accepts_gzip self then
       send_header (lit "Content-Encoding") (lit "gzip") ;;
       send_header (lit "Content-Length")
                   (str_of_N (N.of_nat (length (Backend.gzip_compress B raw)))) ;;
       end_headers ;;
       wfile_write (Backend.gzip_compress B raw)
     else
       send_header (lit "Content-Length") (str_of_N (N.of_nat (length raw))) ;;
       end_headers ;;
       wfile_write raw)%py
      (pushed (events_head B raw) (logged [OpenRead (Backend.DATA_PATH B)] st)).
Proof.
  intros Hpath Hread. unfold Backend.do_GET, self_path. rewrite Hpath.
  change (str_eqb (lit "/api/events") (lit "/api/events")) with true. cbv iota zeta.
  unfold Backend.read_data.
  unfold bind at 1. unfold bind at 1. cbn [log_fs lift]. rewrite Hread.
  unfold bind at 1. rewrite backend_send_response_ok.
  unfold Backend.compute_etag_bytes.
  repeat (unfold bind at 1;
          rewrite send_header_run by first [apply is_latin1_lit | apply is_latin1_etag]).
  rewrite !pushed_pushed. reflexivity.
Qed.

End BackendRuns.

(** X21: the backend answers [/api/events] with the bytes of its data file,
    compressed whenever Accept-Encoding mentions gzip; the Content-Length
    is the length of the body sent, and the ETag is the SHA-1 of the file
    either way. *)
Theorem X21_backend_events (B : Backend.Env) (self : request) (raw : bytes) :
  path self = "/api/events"%string ->
  Backend.open_read B (Backend.DATA_PATH B) = Ret raw ->
  etag_matches self (Backend.compute_etag_bytes raw) = false ->
  let body := if accepts_gzip self then Backend.gzip_compress B raw else raw in
  backend_outcome B self = Ret tt
  /\ backend_response B self
     = map Head (events_head B raw
                 ++ (if accepts_gzip self
                     then [HeaderLine (lit "Content-Encoding") (lit "gzip")] else [])
                 ++ [HeaderLine (lit "Content-Length") (str_of_N (N.of_nat (length body)));
                     BlankLine])
       ++ [Body body]
  /\ fs_log (snd (Backend.do_GET B self (start self))) = [OpenRead (Backend.DATA_PATH B)].
Proof.
  intros Hpath Hread Hfresh body. subst body. unfold backend_outcome, backend_response.
  rewrite (backend_events_run B self raw (start self) Hpath Hread), Hfresh.
  destruct (accepts_gzip self); unfold bind;
    repeat rewrite send_header_run by first [apply is_latin1_lit | apply is_latin1_str_of_N];
    rewrite end_headers_run, !pushed_pushed;
    cbn [fst snd wfile_write flushed pushed logged wfile fs_log headers_buffer start app];
    rewrite map_app; now repeat split.
Qed.

Lemma X21_backend_events_witness :
  let self := Demo.get "/api/events" [("Accept-Encoding", "gzip")]%string in
  path self = "/api/events"%string
  /\ Backend.open_read Cases.backend (Backend.DATA_PATH Cases.backend) = Ret Cases.events_data
  /\ etag_matches self (Backend.compute_etag_bytes Cases.events_data) = false
  /\ accepts_gzip self = true
  /\ Gzip.decompress (response_body (backend_response Cases.backend self))
     = Some Cases.events_data.
Proof.
  intros self.
  assert (H1 : path self = "/api/events"%string) by reflexivity.
  assert (H2 : Backend.open_read Cases.backend (Backend.DATA_PATH Cases.backend)
               = Ret Cases.events_data) by reflexivity.
  assert (H3 : etag_matches self (Backend.compute_etag_bytes Cases.events_data) = false)
    by reflexivity.
  assert (H4 : accepts_gzip self = true) by reflexivity.
  pose proof (X21_backend_events Cases.backend self Cases.events_data H1 H2 H3)
    as (_ & Hw & _).
  refine (conj H1 (conj H2 (conj H3 (conj H4 _)))).
  rewrite Hw. vm_compute. reflexivity.
Defined.

(** X22: when If-None-Match equals the entity tag, the backend, like the
    front server, has already buffered [200 OK]: the [304] line follows the
    headers, and the client reads status 200 with no body. *)
Theorem X22_backend_etag_match (B : Backend.Env) (self : request) (raw : bytes) :
  path self = "/api/events"%string ->
  Backend.open_read B (Backend.DATA_PATH B) = Ret raw ->
  headers_get (headers self) (lit "If-None-Match") = Some (Backend.compute_etag_bytes raw) ->
  backend_response B self
  = map Head (events_head B raw
              ++ [StatusLine 304 (lit "Not Modified");
                  HeaderLine (lit "Server") (lit (Backend.version_string B));
                  HeaderLine (lit "Date") (lit (Backend.date_time_string B));
                  BlankLine])
  /\ response_status (backend_response B self) = Some 200%Z
  /\ response_body (backend_response B self) = [].
Proof.
  intros Hpath Hread Hinm.
  assert (Hmatch : etag_matches self (Backend.compute_etag_bytes raw) = true)
    by (unfold etag_matches; rewrite Hinm; apply str_eqb_refl).
  assert (Hwire : backend_response B self
                  = map Head (events_head B raw
                              ++ [StatusLine 304 (lit "Not Modified");
                                  HeaderLine (lit "Server") (lit (Backend.version_string B));
                                  HeaderLine (lit "Date")
                                             (lit (Backend.date_time_string B));
                                  BlankLine])).
  { unfold backend_response.
    rewrite (backend_events_run B self raw (start self) Hpath Hread), Hmatch.
    unfold bind. rewrite backend_send_response_not_modified, end_headers_run.
    rewrite !pushed_pushed.
    cbn [snd flushed pushed logged wfile headers_buffer start app]. reflexivity. }
  rewrite Hwire. repeat split; reflexivity.
Qed.

Lemma X22_backend_etag_match_witness :
  let self :=
    Demo.get "/api/events"
             [("If-None-Match", "a01eda32e4e0b1393274e91d1b3e9ecfc5eaba85")]%string in
  path self = "/api/events"%string
  /\ Backend.open_read Cases.backend (Backend.DATA_PATH Cases.backend) = Ret Cases.events_data
  /\ headers_get (headers self) (lit "If-None-Match")
     = Some (Backend.compute_etag_bytes Cases.events_data)
  /\ response_status (backend_response Cases.backend self) = Some 200%Z
  /\ response_body (backend_response Cases.backend self) = [].
Proof.
  intros self.
  assert (H1 : path self = "/api/events"%string) by reflexivity.
  assert (H2 : Backend.open_read Cases.backend (Backend.DATA_PATH Cases.backend)
               = Ret Cases.events_data) by reflexivity.
  assert (H3 : headers_get (headers self) (lit "If-None-Match")
               = Some (Backend.compute_etag_bytes Cases.events_data))
    by (vm_compute; reflexivity).
  exact (conj H1 (conj H2 (conj H3
           (proj2 (X22_backend_etag_match Cases.backend self Cases.events_data
                     H1 H2 H3))))).
Defined.

(** X23: the backend compares the whole request target with its two
    paths.  Any other target, [/api/events] followed by a query string
    included, is answered with the 404 page, and the data file is not
    opened. *)
Theorem X23_backend_unknown_path (B : Backend.Env) (self : request) :
  path self <> "/api/events"%string -> path self <> "/_status"%string ->
  backend_outcome B self = Ret tt
  /\ backend_response B self = backend_error_wire B self 404 (lit "Not Found")
  /\ fs_log (snd (Backend.do_GET B self (start self))) = [].
Proof.
  intros Hevents Hstatus. unfold backend_outcome, backend_response.
  unfold Backend.do_GET, self_path.
  rewrite (lit_neq _ _ Hevents), (lit_neq _ _ Hstatus).
  rewrite backend_send_error_run by reflexivity.
  cbn [fst snd wfile fs_log start headers_buffer map app]. now repeat split.
Qed.

Lemma X23_backend_unknown_path_witness :
  let self := Demo.get "/api/events?since=7" [] in
  path self <> "/api/events"%string
  /\ path self <> "/_status"%string
  /\ response_status (backend_response Cases.backend self) = Some 404%Z
  /\ fs_log (snd (Backend.do_GET Cases.backend self (start self))) = [].
Proof.
  intros self.
  assert (H1 : path self <> "/api/events"%string) by discriminate.
  assert (H2 : path self <> "/_status"%string) by discriminate.
  pose proof (X23_backend_unknown_path Cases.backend self H1 H2) as (_ & Hw & Hc).
  refine (conj H1 (conj H2 (conj _ Hc))).
  rewrite Hw. reflexivity.
Defined.

(** X24: the backend's [do_GET] has no exception handler.  When the data
    file cannot be read, the exception leaves [do_GET] as it is and nothing
    is written to the client, not even an error page. *)
Theorem X24_backend_read_failure (B : Backend.Env) (self : request) (e : exn) :
  path self = "/api/events"%string ->
  Backend.open_read B (Backend.DATA_PATH B) = Raise e ->
  backend_outcome B self = Raise e
  /\ backend_response B self = []
  /\ headers_buffer (snd (Backend.do_GET B self (start self))) = [].
Proof.
  intros Hpath Hread. unfold backend_outcome, backend_response.
  unfold Backend.do_GET, self_path. rewrite Hpath.
  change (str_eqb (lit "/api/events") (lit "/api/events")) with true. cbv iota zeta.
  unfold Backend.read_data.
  unfold bind at 1. unfold bind at 1. cbn [log_fs lift]. rewrite Hread.
  now repeat split.
Qed.

Lemma X24_backend_read_failure_witness :
  let self := Demo.get "/api/events" [] in
  let missing :=
    Demo.os_error "FileNotFoundError" "[Errno 2] No such file or directory"
                  Cases.events_json in
  path self = "/api/events"%string
  /\ Backend.open_read Cases.backend_without_data
                       (Backend.DATA_PATH Cases.backend_without_data) = Raise missing
  /\ backend_outcome Cases.backend_without_data self = Raise missing
  /\ backend_response Cases.backend_without_data self = [].
Proof.
  intros self missing.
  assert (H1 : path self = "/api/events"%string) by reflexivity.
  assert (H2 : Backend.open_read Cases.backend_without_data
                 (Backend.DATA_PATH Cases.backend_without_data) = Raise missing)
    by reflexivity.
  pose proof (X24_backend_read_failure Cases.backend_without_data self missing H1 H2)
    as (Ho & Hw & _).
  exact (conj H1 (conj H2 (conj Ho Hw))).
Defined.

(** X25: the backend implements GET only.  HEAD, which the front server
    accepts and forwards for [/api] paths, and every other method are
    answered [501 Unsupported method] by the backend, which then opens no
    file; no page follows the head of the answer to HEAD. *)
Theorem X25_backend_methods (B : Backend.Env) (self : request) :
  command self <> "GET"%string ->
  let run := Backend.handle_one_request B self (start self) in
  fst run = Ret tt
  /\ wfile (snd run)
     = backend_error_wire B self 501
         (lit "Unsupported method (" ++ repr (lit (command self)) ++ lit ")")
  /\ fs_log (snd run) = []
  /\ (command self = "HEAD"%string -> response_body (wfile (snd run)) = []).
Proof.
  intros Hget run. subst run. unfold Backend.handle_one_request, self_command.
  rewrite (lit_neq _ _ Hget). unfold try_except. fold (self_command self).
  rewrite backend_send_error_run.
  - cbn [fst snd wfile fs_log start headers_buffer map app].
    repeat split; try reflexivity.
    intros Hhead. unfold backend_error_wire, self_command. rewrite Hhead. reflexivity.
  - rewrite !is_latin1_app, !is_latin1_lit. unfold self_command.
    now rewrite is_latin1_repr by apply is_latin1_lit.
  - reflexivity.
Qed.

Lemma X25_backend_methods_witness :
  let self := Cases.head "/api/events" [] in
  command self <> "GET"%string
  /\ response_status (wfile (snd (Backend.handle_one_request Cases.backend self
                                    (start self)))) = Some 501%Z
  /\ fs_log (snd (Backend.handle_one_request Cases.backend self (start self))) = [].
Proof.
  intros self.
  assert (H : command self <> "GET"%string) by discriminate.
  pose proof (X25_backend_methods Cases.backend self H) as (_ & Hw & Hc & _).
  refine (conj H (conj _ Hc)).
  rewrite Hw. reflexivity.
Defined.
